(** * TextCast-TV: the packet capture subsystem

    A shallow embedding of [backend/services/packet_monitor.py], of
    [backend/services/db_service.py] and [backend/models.py], and of the
    callers of the monitor in [backend/services/cast_service.py],
    [backend/routes/cast_routes.py] and [backend/routes/monitor_routes.py].

    Conventions of the embedding:
    - Python objects with identity ([threading.Event], [threading.Thread])
      live in stores indexed by allocation order; a reference is an index.
    - A Python call that may raise returns a [res]; [try]/[except] is the
      combinator [try_except].
    - What the code does to the outside world (log records, the persistence
      call, the Socket.IO emit, the capture primitive, sleeping) is recorded
      in a trace of [effect]s, in program order.
    - What the outside world does to the code (frames arriving, collaborators
      failing, another thread setting an event, a join timing out) is an
      explicit argument of the function it affects.
    - Histories of the module come at two grains.  In [run] a call of the
      public API is one step: calls are taken one after the other, and the
      time [stop_monitor] spends in [join] shows only in whether the thread
      has ended when [join] returns.  In [interleave] a [stop_monitor] call
      is the sequence of its steps between which [_state_lock] is free, and
      other calls and thread ends fall between them; a call that nothing
      overlaps is the special case [stop_steps].
    - The request handlers of [cast_routes] take no lock; [serve_all] is
      the server handling its requests one at a time.
    - Exceptions outside [Exception] ([KeyboardInterrupt], [SystemExit]) are
      not modelled. *)

From Stdlib Require Import ZArith Ascii String List Bool Lia DecimalString DecimalZ DecimalPos.
From stdpp Require Import base list strings gmap sorting.
Import ListNotations.

Local Open Scope Z_scope.
Local Open Scope string_scope.
Local Open Scope list_scope.

(** ** Python-level vocabulary *)

(** The exception classes the code distinguishes.  [OtherException] stands
    for every other subclass of [Exception]. *)
Inductive exn : Type :=
| PermissionError (msg : string)
| ImportError (msg : string)
| SQLAlchemyError (msg : string)
| OtherException (msg : string).

(** [str(exc)] *)
Definition exn_str (e : exn) : string :=
  match e with
  | PermissionError m | ImportError m | SQLAlchemyError m | OtherException m => m
  end.

Definition is_PermissionError (e : exn) : bool :=
  match e with PermissionError _ => true | _ => false end.

Definition is_SQLAlchemyError (e : exn) : bool :=
  match e with SQLAlchemyError _ => true | _ => false end.

Inductive res (A : Type) : Type :=
| Ok (a : A)
| Raise (e : exn).
Arguments Ok {A} a.
Arguments Raise {A} e.

(** [str(n)] for a Python [int]. *)
Definition py_str_int (n : Z) : string := NilZero.string_of_int (Z.to_int n).

Inductive level : Type := DEBUG | INFO | WARNING | ERROR.

(** Opaque handles of the collaborators. *)
Definition app := nat.        (* the Flask application object *)
Definition socketio := nat.   (* the Flask-SocketIO instance *)
Definition timestamp := Z.    (* a clock reading; never inspected *)

(** ** Frames *)

(** The network layer of a frame: [packet[IP]]. *)
Record IP_layer : Type := {
  src : string;
  dst : string;
  proto : Z
}.

(** A captured frame as [_handle_packet] sees it: [ip] is [packet[IP]] when
    [packet.haslayer(IP)], the three flags are [packet.haslayer(TCP)],
    [packet.haslayer(UDP)], [packet.haslayer(ICMP)], and [len] is
    [len(packet)]. *)
Record packet : Type := {
  ip : option IP_layer;
  tcp : bool;
  udp : bool;
  icmp : bool;
  len : Z
}.

(** The dict built by [_handle_packet] for the WebSocket event. *)
Record packet_data : Type := {
  pd_protocol : string;
  pd_source_ip : string;
  pd_dest_ip : string;
  pd_size_bytes : Z;
  pd_session_id : Z;
  pd_timestamp : timestamp
}.

(** ** Effects *)

Inductive effect : Type :=
| ELog (lvl : level) (fmt : string) (args : list string)
| EAppContextPush (a : app)
| EAppContextPop (a : app)
| ELogPacket (session_id : Z) (protocol source_ip dest_ip : string) (size_bytes : Z)
| EEmit (sio : socketio) (event : string) (data : packet_data) (namespace : string)
| ESniff (filter : string) (timeout : Z)
| ESleep (secs : Z).

Definition is_emit (e : effect) : bool :=
  match e with EEmit _ _ _ _ => true | _ => false end.

Definition is_log_packet (e : effect) : bool :=
  match e with ELogPacket _ _ _ _ _ => true | _ => false end.

(** ** The persistence collaborator: models.PacketLog and db.session *)

Record PacketLog : Type := {
  pl_session_id : Z;
  pl_protocol : string;
  pl_source_ip : string;
  pl_dest_ip : string;
  pl_size_bytes : Z;
  pl_timestamp : timestamp
}.

(** The SQLAlchemy scoped session: rows written to the table and rows added
    but not yet committed. *)
Record db_session : Type := {
  committed : list PacketLog;
  pending : list PacketLog
}.

Definition empty_db : db_session := {| committed := []; pending := [] |}.

(** ** A monad for the packet sink

    The sink threads the database session and the effect trace through calls
    that may raise. *)

Record sink_state : Type := {
  db : db_session;
  trace : list effect
}.

Definition M (A : Type) : Type := sink_state → res A * sink_state.

Definition ret {A} (a : A) : M A := fun s => (Ok a, s).

Definition raise {A} (e : exn) : M A := fun s => (Raise e, s).

Definition bind {A B} (m : M A) (k : A → M B) : M B :=
  fun s => match m s with
           | (Ok a, s') => k a s'
           | (Raise e, s') => (Raise e, s')
           end.

Notation "m1 >>> m2" := (bind m1 (fun _ => m2))
  (at level 90, right associativity).

(** Append one entry to the trace. *)
Definition tell (e : effect) : M unit :=
  fun s => (Ok tt, {| db := db s; trace := trace s ++ [e] |}).

Definition logger (lvl : level) (fmt : string) (args : list string) : M unit :=
  tell (ELog lvl fmt args).

(** [try: m  except <class> as e: h e], the class given by [catches]. *)
Definition try_except_if {A} (catches : exn → bool) (m : M A) (h : exn → M A) : M A :=
  fun s => match m s with
           | (Ok a, s') => (Ok a, s')
           | (Raise e, s') => if catches e then h e s' else (Raise e, s')
           end.

(** [try: m  except Exception as e: h e] *)
Definition try_except {A} (m : M A) (h : exn → M A) : M A :=
  try_except_if (fun _ => true) m h.

(** [try: m  finally: f] with an [f] that does not raise. *)
Definition finally {A} (m : M A) (f : M unit) : M A :=
  fun s => match m s with
           | (r, s') => (r, snd (f s'))
           end.

Definition modify_db (f : db_session → db_session) : M unit :=
  fun s => (Ok tt, {| db := f (db s); trace := trace s |}).

(** [db.session.add(row)] *)
Definition session_add (row : PacketLog) : M unit :=
  modify_db (fun d => {| committed := committed d; pending := pending d ++ [row] |}).

(** [db.session.commit()]: the flush either succeeds or raises [fault]. *)
Definition session_commit (fault : option exn) : M unit :=
  match fault with
  | None => modify_db (fun d => {| committed := committed d ++ pending d; pending := [] |})
  | Some e => raise e
  end.

(** [db.session.rollback()] *)
Definition session_rollback : M unit :=
  modify_db (fun d => {| committed := committed d; pending := [] |}).

(** What the environment decides while one frame is handled: the two clock
    readings and whether each collaborator fails. *)
Record sink_env : Type := {
  now : timestamp;               (* time.time() in _handle_packet *)
  utcnow : timestamp;            (* _utcnow() in log_packet *)
  commit_fault : option exn;     (* raised by db.session.commit(), if any *)
  emit_fault : option exn        (* raised by socketio.emit(), if any *)
}.

(** db_service.log_packet.  The first trace entry records the call and its
    arguments. *)
Definition log_packet (session_id : Z) (protocol source_ip dest_ip : string)
    (size_bytes : Z) (env : sink_env) : M (option PacketLog) :=
  tell (ELogPacket session_id protocol source_ip dest_ip size_bytes) >>>
  try_except_if is_SQLAlchemyError
    (let pkt_log := {| pl_session_id := session_id;
                       pl_protocol := protocol;
                       pl_source_ip := source_ip;
                       pl_dest_ip := dest_ip;
                       pl_size_bytes := size_bytes;
                       pl_timestamp := utcnow env |} in
     session_add pkt_log >>>
     session_commit (commit_fault env) >>>
     ret (Some pkt_log))
    (fun exc =>
       session_rollback >>>
       logger ERROR "DB error in log_packet: %s" [exn_str exc] >>>
       ret None).

(** [with app.app_context(): body].  Leaving the context runs
    Flask-SQLAlchemy's teardown, which discards the scoped session. *)
Definition with_app_context {A} (a : app) (body : M A) : M A :=
  tell (EAppContextPush a) >>>
  finally body (session_rollback >>> tell (EAppContextPop a)).

(** [socketio.emit(event, data, namespace=ns)] *)
Definition socketio_emit (sio : socketio) (event : string) (data : packet_data)
    (ns : string) (fault : option exn) : M unit :=
  tell (EEmit sio event data ns) >>>
  match fault with
  | None => ret tt
  | Some e => raise e
  end.

(** ** Protocol classification (the [if]/[elif] chain of [_handle_packet]) *)

Definition classify (p : packet) (ip_layer : IP_layer) : string :=
  if tcp p then "TCP"
  else if udp p then "UDP"
  else if icmp p then "ICMP"
  else py_str_int (proto ip_layer).

(** ** The packet sink *)

(** [_handle_packet(packet, session_id, app)]; [_socketio] is the module
    global of that name as read when the frame is handled. *)
Definition _handle_packet (_socketio : option socketio) (env : sink_env)
    (pkt : packet) (session_id : Z) (a : app) : M unit :=
  try_except
    (match ip pkt with
     | None => ret tt
     | Some ip_layer =>
         let source_ip := src ip_layer in
         let dest_ip := dst ip_layer in
         let size_bytes := len pkt in
         let protocol := classify pkt ip_layer in
         logger DEBUG "Packet: %s %s → %s (%d bytes)"
           [protocol; source_ip; dest_ip; py_str_int size_bytes] >>>
         let packet_data := {| pd_protocol := protocol;
                               pd_source_ip := source_ip;
                               pd_dest_ip := dest_ip;
                               pd_size_bytes := size_bytes;
                               pd_session_id := session_id;
                               pd_timestamp := now env |} in
         try_except
           (with_app_context a
              (log_packet session_id protocol source_ip dest_ip size_bytes env) >>>
            ret tt)
           (fun db_exc =>
              logger ERROR "Failed to log packet to DB: %s" [exn_str db_exc]) >>>
         match _socketio with
         | Some sio =>
             try_except
               (socketio_emit sio "packet_update" packet_data "/" (emit_fault env))
               (fun sio_exc =>
                  logger ERROR "Failed to emit packet_update: %s" [exn_str sio_exc])
         | None => ret tt
         end
     end)
    (fun exc => logger ERROR "Error handling packet: %s" [exn_str exc]).

(** The trace one call of the sink produces, started on an empty trace. *)
Definition sink_effects (_socketio : option socketio) (env : sink_env)
    (pkt : packet) (session_id : Z) (a : app) (d : db_session) : list effect :=
  trace (snd (_handle_packet _socketio env pkt session_id a {| db := d; trace := [] |})).

(** The handler the capture loop passes to the capture primitive as [prn]. *)
Definition prn (_socketio : option socketio) (session_id : Z) (a : app)
    : sink_env → packet → M unit :=
  fun env pkt => _handle_packet _socketio env pkt session_id a.

(** ** Cancellation tokens

    Every [threading.Event] ever constructed has a cell in the event store;
    the cell holds its flag.  The code never calls [clear()]. *)

Definition is_set (ev : list bool) (e : nat) : bool :=
  match ev !! e with
  | Some b => b
  | None => false
  end.

(** [event.set()] *)
Definition event_set (e : nat) (ev : list bool) : list bool := <[e := true]> ev.

(** Several [set()] calls made by other threads. *)
Definition set_all (es : list nat) (ev : list bool) : list bool :=
  foldr event_set ev es.

(** ** The capture primitive

    [scapy.sniff] is not code of this repository.  The model follows its
    contract for the arguments the loop passes: frames that match the filter
    are handed to [prn] one by one, [stop_filter] is asked after each of
    them, and the call ends when [stop_filter] answers true, when the
    [timeout] slice is over, or by raising. *)

(** One frame delivered during a slice, with the events other threads set
    before it arrived and the environment of its handling. *)
Record arrival : Type := {
  a_sets : list nat;
  a_packet : packet;
  a_env : sink_env
}.

Inductive sniff_end : Type :=
| SniffReturns
| SniffRaises (e : exn).

(** One call of the capture primitive as the environment scripts it, and
    the events set by other threads during the back-off that may follow. *)
Record slice : Type := {
  sl_arrivals : list arrival;
  sl_sets : list nat;          (* set after the last frame, before the call ends *)
  sl_end : sniff_end;
  sl_sleep_sets : list nat     (* set while the loop sleeps *)
}.

(** The state a capture thread works on. *)
Definition world : Type := list bool * sink_state.

Definition run_unit (m : M unit) (s : sink_state) : sink_state := snd (m s).

Fixpoint sniff_frames (prn : sink_env → packet → M unit)
    (stop_filter : list bool → bool) (frames : list arrival)
    (ev : list bool) (s : sink_state) : res bool * world :=
  match frames with
  | [] => (Ok false, (ev, s))
  | f :: rest =>
      let ev1 := set_all (a_sets f) ev in
      match prn (a_env f) (a_packet f) s with
      | (Raise e, s1) => (Raise e, (ev1, s1))
      | (Ok _, s1) =>
          if stop_filter ev1 then (Ok true, (ev1, s1))
          else sniff_frames prn stop_filter rest ev1 s1
      end
  end.

Definition sniff (filter : string) (prn : sink_env → packet → M unit)
    (stop_filter : list bool → bool) (timeout : Z) (sl : slice)
    (ev : list bool) (s : sink_state) : res unit * world :=
  match sniff_frames prn stop_filter (sl_arrivals sl) ev
          (run_unit (tell (ESniff filter timeout)) s) with
  | (Raise e, w) => (Raise e, w)
  | (Ok true, w) => (Ok tt, w)
  | (Ok false, (ev1, s1)) =>
      let ev2 := set_all (sl_sets sl) ev1 in
      match sl_end sl with
      | SniffReturns => (Ok tt, (ev2, s1))
      | SniffRaises e => (Raise e, (ev2, s1))
      end
  end.

(** ** The capture loop *)

(** [Stopped]: the function returned.  [Blocked]: the script is used up
    while the loop is about to call the capture primitive again. *)
Inductive loop_status : Type := Stopped | Blocked.

(** [repr(s)] of a string.  Python puts it between single quotes, or
    between double quotes when it holds a single quote and no double one;
    it escapes the backslash and the quote character in use, writes tab,
    line feed and carriage return as [\t], [\n], [\r] and the other
    control characters as [\xhh].  Strings are sequences of bytes here:
    the bytes of a character outside ASCII are kept, as Python keeps the
    character when it is printable. *)
Definition single_quote : ascii := "039"%char.
Definition double_quote : ascii := "034"%char.
Definition backslash : ascii := "092"%char.

Fixpoint occurs (c : ascii) (s : string) : bool :=
  match s with
  | EmptyString => false
  | String x s' => Ascii.eqb x c || occurs c s'
  end.

Definition repr_quote (s : string) : ascii :=
  if occurs single_quote s && negb (occurs double_quote s) then double_quote
  else single_quote.

Definition hex_digit (n : nat) : ascii :=
  match String.get n "0123456789abcdef" with
  | Some c => c
  | None => "0"%char
  end.

Definition repr_char (quote c : ascii) : string :=
  let n := nat_of_ascii c in
  if Ascii.eqb c quote || Ascii.eqb c backslash then String backslash (String c EmptyString)
  else if Nat.eqb n 9 then String backslash "t"
  else if Nat.eqb n 10 then String backslash "n"
  else if Nat.eqb n 13 then String backslash "r"
  else if Nat.ltb n 32 || Nat.eqb n 127 then
    String backslash (String "x"%char
      (String (hex_digit (n / 16)) (String (hex_digit (n mod 16)) EmptyString)))
  else String c EmptyString.

Fixpoint repr_body (quote : ascii) (s : string) : string :=
  match s with
  | EmptyString => EmptyString
  | String c s' => repr_char quote c +:+ repr_body quote s'
  end.

Definition py_repr (s : string) : string :=
  String (repr_quote s) (repr_body (repr_quote s) s +:+ String (repr_quote s) EmptyString).

Section CaptureLoop.

Variable _socketio : option socketio.
Variable session_id : Z.
Variable a : app.
Variable stop_event : nat.
Variable bpf_filter : string.

(** The [while not stop_event.is_set():] loop of [_capture_loop]. *)
Fixpoint while_loop (script : list slice) (ev : list bool) (s : sink_state)
    : loop_status * world :=
  if is_set ev stop_event then (Stopped, (ev, s))
  else
    match script with
    | [] => (Blocked, (ev, s))
    | sl :: rest =>
        let s1 := run_unit (logger DEBUG "Starting scapy.sniff() with filter=%r"
                              [py_repr bpf_filter]) s in
        match sniff bpf_filter
                (prn _socketio session_id a)
                (fun ev' => is_set ev' stop_event)
                1 sl ev s1 with
        | (Ok _, (ev1, s2)) => while_loop rest ev1 s2
        | (Raise exc, (ev1, s2)) =>
            if is_PermissionError exc then
              (Stopped,
               (ev1, run_unit (logger ERROR
                 "Scapy requires root privileges to capture packets on macOS. Run the server with: sudo python app.py"
                 []) s2))
            else if is_set ev1 stop_event then (Stopped, (ev1, s2))
            else
              let s3 := run_unit (logger ERROR "Scapy sniff error: %s — retrying in 2s"
                                    [exn_str exc] >>> tell (ESleep 2)) s2 in
              while_loop rest (set_all (sl_sleep_sets sl) ev1) s3
        end
    end.

End CaptureLoop.

(** [_capture_loop(session_id, app, stop_event)].  [scapy_installed] says
    whether the deferred import succeeds, [TV_IP] is [config.TV_IP]. *)
Definition _capture_loop (scapy_installed : bool) (TV_IP : string)
    (_socketio : option socketio) (session_id : Z) (a : app) (stop_event : nat)
    (script : list slice) (ev : list bool) (s : sink_state)
    : loop_status * world :=
  if negb scapy_installed then
    (Stopped,
     (ev, run_unit (logger ERROR
            "Scapy is not installed. Install it with: pip install scapy" []) s))
  else
    let bpf_filter := "host " +:+ TV_IP in
    let s1 := run_unit (logger INFO "Packet capture BPF filter: %r"
                          [py_repr bpf_filter]) s in
    match while_loop _socketio session_id a stop_event bpf_filter script ev s1 with
    | (Stopped, (ev', s')) =>
        (Stopped, (ev', run_unit (logger INFO "Packet capture loop exited" []) s'))
    | (Blocked, w) => (Blocked, w)
    end.

Definition tcp_frame : packet :=
  {| ip := Some {| src := "203.0.113.50"; dst := "10.0.0.5"; proto := 6 |};
     tcp := true; udp := false; icmp := false; len := 512 |}.

Definition calm : sink_env :=
  {| now := 1000; utcnow := 1001; commit_fault := None; emit_fault := None |}.

Definition fresh : sink_state := {| db := empty_db; trace := [] |}.

(** ** The lifecycle manager *)

(** A [threading.Thread] created by [start_monitor]: the arguments its
    target [_capture_loop] was given, and whether [run()] is still going. *)
Record thread : Type := {
  t_session_id : Z;
  t_app : app;
  t_stop_event : nat;
  t_alive : bool
}.

(** The module-level state of [packet_monitor], with the two object stores
    and the records the module has logged. *)
Record monitor : Type := {
  events : list bool;
  threads : list thread;
  _monitor_thread : option nat;
  _stop_event : option nat;
  _current_session_id : option Z;
  _app : option app;
  _socketio : option socketio;
  log : list effect
}.

(** The state after the module is imported.  Line 80 constructs an Event
    that line 89 unbinds again, so the store holds one unreachable cell. *)
Definition init : monitor := {|
  events := [false];
  threads := [];
  _monitor_thread := None;
  _stop_event := None;
  _current_session_id := None;
  _app := None;
  _socketio := None;
  log := []
|}.

Definition add_log (lvl : level) (fmt : string) (args : list string) (m : monitor)
    : monitor :=
  {| events := events m; threads := threads m;
     _monitor_thread := _monitor_thread m; _stop_event := _stop_event m;
     _current_session_id := _current_session_id m; _app := _app m;
     _socketio := _socketio m;
     log := log m ++ [ELog lvl fmt args] |}.

(** [thread.is_alive()] *)
Definition is_alive (m : monitor) (t : nat) : bool :=
  match threads m !! t with
  | Some th => t_alive th
  | None => false
  end.

(** [set_socketio(sio)] *)
Definition set_socketio (sio : socketio) (m : monitor) : monitor :=
  add_log DEBUG "packet_monitor: SocketIO instance registered" []
    {| events := events m; threads := threads m;
       _monitor_thread := _monitor_thread m; _stop_event := _stop_event m;
       _current_session_id := _current_session_id m; _app := _app m;
       _socketio := Some sio;
       log := log m |}.

(** [is_running()] *)
Definition is_running (m : monitor) : bool :=
  match _monitor_thread m with
  | Some t => is_alive m t
  | None => false
  end.

(** [start_monitor(session_id, app)] *)
Definition start_monitor (TV_IP : string) (session_id : Z) (a : app) (m : monitor)
    : bool * monitor :=
  if is_running m then
    (false, add_log WARNING "Packet monitor already running — ignoring start request" [] m)
  else
    let stop_event := length (events m) in
    let new_thread := length (threads m) in
    (true,
     add_log INFO "Packet monitor started (session_id=%d, TV_IP=%s)"
       [py_str_int session_id; TV_IP]
       {| events := events m ++ [false];
          threads := threads m ++ [ {| t_session_id := session_id;
                                       t_app := a;
                                       t_stop_event := stop_event;
                                       t_alive := true |} ];
          _monitor_thread := Some new_thread;
          _stop_event := Some stop_event;
          _current_session_id := Some session_id;
          _app := Some a;
          _socketio := _socketio m;
          log := log m |}).

(** The thread's [run()] has returned: [_capture_loop] came to its end. *)
Definition thread_exit (t : nat) (m : monitor) : monitor :=
  {| events := events m;
     threads := alter (fun th => {| t_session_id := t_session_id th;
                                    t_app := t_app th;
                                    t_stop_event := t_stop_event th;
                                    t_alive := false |}) t (threads m);
     _monitor_thread := _monitor_thread m; _stop_event := _stop_event m;
     _current_session_id := _current_session_id m; _app := _app m;
     _socketio := _socketio m;
     log := log m |}.

(** [e.set()] on an event of the store. *)
Definition signal (e : nat) (m : monitor) : monitor :=
  {| events := event_set e (events m); threads := threads m;
     _monitor_thread := _monitor_thread m; _stop_event := _stop_event m;
     _current_session_id := _current_session_id m; _app := _app m;
     _socketio := _socketio m;
     log := log m |}.

Definition clear_monitor_thread (m : monitor) : monitor :=
  {| events := events m; threads := threads m;
     _monitor_thread := None; _stop_event := _stop_event m;
     _current_session_id := _current_session_id m; _app := _app m;
     _socketio := _socketio m;
     log := log m |}.

(** ["%.1f" % t] for a timeout given in tenths of a second: the sign, the
    whole seconds and one decimal of the magnitude. *)
Definition py_fmt_1f (tenths : Z) : string :=
  (if tenths <? 0 then "-" else "")%Z +:+
  py_str_int (Z.abs tenths / 10) +:+ "." +:+ py_str_int (Z.abs tenths mod 10).

(** [stop_monitor(timeout)].  [timeout] is in tenths of a second;
    [exits_in_time] says whether the capture thread ends before
    [thread.join(timeout=timeout)] gives up. *)
Definition stop_monitor (timeout : Z) (exits_in_time : bool) (m : monitor) : monitor :=
  let thread := _monitor_thread m in
  let event := _stop_event m in
  match thread with
  | None => add_log DEBUG "Packet monitor not running — nothing to stop" [] m
  | Some t =>
      if negb (is_alive m t) then
        add_log DEBUG "Packet monitor not running — nothing to stop" [] m
      else
        let m1 := add_log INFO "Stopping packet monitor..." [] m in
        let m2 := match event with
                  | Some e => signal e m1
                  | None => m1
                  end in
        let m3 := if exits_in_time then thread_exit t m2 else m2 in
        let m4 := if is_alive m3 t then
                    add_log WARNING "Packet monitor thread did not stop within %.1fs"
                      [py_fmt_1f timeout] m3
                  else
                    add_log INFO "Packet monitor stopped cleanly" [] m3 in
        clear_monitor_thread m4
  end.

(** The body a thread runs: [_capture_loop] applied to the [args] the
    thread was created with. *)
Definition thread_body (scapy_installed : bool) (TV_IP : string)
    (sio : option socketio) (th : thread) :=
  _capture_loop scapy_installed TV_IP sio
    (t_session_id th) (t_app th) (t_stop_event th).

(** *** Histories of the module *)

(** What can happen to the module state: the three calls of the public API,
    a capture thread ending on its own, and some thread setting an event. *)
Inductive call : Type :=
| Start (session_id : Z) (a : app)
| Stop (timeout : Z) (exits_in_time : bool)
| SetSocketio (sio : socketio)
| ThreadExit (t : nat)
| Signal (e : nat).

Section History.

Variable TV_IP : string.

Definition step (m : monitor) (c : call) : monitor :=
  match c with
  | Start session_id a => snd (start_monitor TV_IP session_id a m)
  | Stop timeout exits_in_time => stop_monitor timeout exits_in_time m
  | SetSocketio sio => set_socketio sio m
  | ThreadExit t => thread_exit t m
  | Signal e => signal e m
  end.

Definition run (calls : list call) (m : monitor) : monitor :=
  fold_left step calls m.

End History.

(** Threads whose [run()] has not returned. *)
Definition live_threads (m : monitor) : list thread :=
  filter (fun th => t_alive th = true) (threads m).

(** Live threads whose own token is not set. *)
Definition uncancelled_threads (m : monitor) : list thread :=
  filter (fun th => is_set (events m) (t_stop_event th) = false) (live_threads m).

Definition join_succeeds (c : call) : bool :=
  match c with
  | Stop _ exits_in_time => exits_in_time
  | _ => true
  end.

Definition is_SetSocketio (c : call) : bool :=
  match c with
  | SetSocketio _ => true
  | _ => false
  end.

(** *** Calls that overlap *)

(** [start_monitor] and [is_running] run under [_state_lock] from their
    first to their last line.  [stop_monitor] holds the lock only while it
    reads the two globals (lines 158-160) and while it clears the handle
    (lines 176-177): the check, [event.set()] and the join run outside it, so
    that other calls, and the end of a thread, can fall between any two of
    its steps.  A call of [stop_monitor] in progress is the place where it
    stands together with its locals [thread] and [event]. *)
Inductive stop_frame : Type :=
| AtCheck (thread event : option nat)   (* before line 162 *)
| AtSignal (thread : nat) (event : option nat)   (* before line 167 *)
| AtJoin (thread : nat)                 (* inside [thread.join], line 169 *)
| AtClear (thread : nat)                (* before line 176 *)
| Returned.

(** The module state and the calls of [stop_monitor] in progress. *)
Record process : Type := {
  mon : monitor;
  stops : list stop_frame
}.

Definition boot : process := {| mon := init; stops := [] |}.

(** Lines 158-160: a new call reads [_monitor_thread] and [_stop_event]
    under the lock. *)
Definition stop_enter (p : process) : process :=
  {| mon := mon p;
     stops := stops p ++ [AtCheck (_monitor_thread (mon p)) (_stop_event (mon p))] |}.

(** Lines 162-166 for the call [k]. *)
Definition stop_check (k : nat) (p : process) : process :=
  match stops p !! k with
  | Some (AtCheck thread event) =>
      let nothing :=
        {| mon := add_log DEBUG "Packet monitor not running — nothing to stop" [] (mon p);
           stops := <[k := Returned]> (stops p) |} in
      match thread with
      | None => nothing
      | Some t =>
          if negb (is_alive (mon p) t) then nothing
          else {| mon := add_log INFO "Stopping packet monitor..." [] (mon p);
                  stops := <[k := AtSignal t event]> (stops p) |}
      end
  | _ => p
  end.

(** Lines 167-168 for the call [k]: [event.set()]. *)
Definition stop_signal (k : nat) (p : process) : process :=
  match stops p !! k with
  | Some (AtSignal t event) =>
      {| mon := match event with
                | Some e => signal e (mon p)
                | None => mon p
                end;
         stops := <[k := AtJoin t]> (stops p) |}
  | _ => p
  end.

(** Lines 169-174 for the call [k]: the join has returned, because the
    thread has ended or because [timeout] has passed. *)
Definition stop_joined (k : nat) (timeout : Z) (p : process) : process :=
  match stops p !! k with
  | Some (AtJoin t) =>
      {| mon := if is_alive (mon p) t then
                  add_log WARNING "Packet monitor thread did not stop within %.1fs"
                    [py_fmt_1f timeout] (mon p)
                else
                  add_log INFO "Packet monitor stopped cleanly" [] (mon p);
         stops := <[k := AtClear t]> (stops p) |}
  | _ => p
  end.

(** Lines 176-177 for the call [k]: [_monitor_thread = None] under the lock. *)
Definition stop_clear (k : nat) (p : process) : process :=
  match stops p !! k with
  | Some (AtClear t) =>
      {| mon := clear_monitor_thread (mon p);
         stops := <[k := Returned]> (stops p) |}
  | _ => p
  end.

(** What can happen next: a call or event that runs as a whole (for
    [Stop], a call that nothing overlaps), or one step of a [stop_monitor]
    call.  A step of a call that is not at that place does nothing. *)
Inductive action : Type :=
| Whole (c : call)
| StopEnter
| StopCheck (k : nat)
| StopSignal (k : nat)
| StopJoined (k : nat) (timeout : Z)
| StopClear (k : nat).

Section Interleaving.

Variable TV_IP : string.

Definition act (p : process) (a : action) : process :=
  match a with
  | Whole c => {| mon := step TV_IP (mon p) c; stops := stops p |}
  | StopEnter => stop_enter p
  | StopCheck k => stop_check k p
  | StopSignal k => stop_signal k p
  | StopJoined k timeout => stop_joined k timeout p
  | StopClear k => stop_clear k p
  end.

Definition interleave (h : list action) (p : process) : process :=
  fold_left act h p.

(** The action drops the handle of a thread that is alive afterwards. *)
Definition orphans (p : process) (a : action) : bool :=
  match _monitor_thread (mon p) with
  | Some t =>
      is_alive (mon (act p a)) t &&
      negb (bool_decide (_monitor_thread (mon (act p a)) = Some t))
  | None => false
  end.

(** How often that happens in a history. *)
Fixpoint orphanings (h : list action) (p : process) : nat :=
  match h with
  | [] => 0
  | a :: h' => ((if orphans p a then 1 else 0) + orphanings h' (act p a))%nat
  end.

End Interleaving.


(** An action that neither ends the thread [t] nor completes a stop. *)
Definition spares (t : nat) (a : action) : bool :=
  match a with
  | Whole (ThreadExit t') => negb (Nat.eqb t' t)
  | Whole (Stop _ _) => false
  | StopClear _ => false
  | _ => true
  end.

(** The live threads are the one the module refers to, if it is alive,
    and at most [n] others. *)
Definition bounded_by (n : nat) (p : process) : Prop :=
  (length (live_threads (mon p)) ≤ n + if is_running (mon p) then 1 else 0)%nat.

(** *** Vocabulary of the statements *)

Definition with_commit_fault (f : option exn) (env : sink_env) : sink_env :=
  {| now := now env; utcnow := utcnow env; commit_fault := f; emit_fault := emit_fault env |}.

Definition with_emit_fault (f : option exn) (env : sink_env) : sink_env :=
  {| now := now env; utcnow := utcnow env; commit_fault := commit_fault env; emit_fault := f |}.

(** The database session one call of the sink leaves behind. *)
Definition sink_db (_socketio : option socketio) (env : sink_env)
    (pkt : packet) (session_id : Z) (a : app) (d : db_session) : db_session :=
  db (snd (_handle_packet _socketio env pkt session_id a {| db := d; trace := [] |})).

(** The event the sink publishes for an IP frame. *)
Definition packet_update (sio : socketio) (env : sink_env) (pkt : packet)
    (l : IP_layer) (session_id : Z) : effect :=
  EEmit sio "packet_update"
    {| pd_protocol := classify pkt l;
       pd_source_ip := src l;
       pd_dest_ip := dst l;
       pd_size_bytes := len pkt;
       pd_session_id := session_id;
       pd_timestamp := now env |} "/".

(** The row [log_packet] writes for an IP frame. *)
Definition packet_row (env : sink_env) (pkt : packet) (l : IP_layer)
    (session_id : Z) : PacketLog :=
  {| pl_session_id := session_id;
     pl_protocol := classify pkt l;
     pl_source_ip := src l;
     pl_dest_ip := dst l;
     pl_size_bytes := len pkt;
     pl_timestamp := utcnow env |}.

Definition arp_frame : packet :=
  {| ip := None; tcp := false; udp := false; icmp := false; len := 42 |}.

Definition gre_frame : packet :=
  {| ip := Some {| src := "10.0.0.5"; dst := "203.0.113.50"; proto := 47 |};
     tcp := false; udp := false; icmp := false; len := 96 |}.

(** A synthetic frame that answers yes to both [haslayer(TCP)] and
    [haslayer(UDP)]. *)
Definition tcp_udp_frame : packet :=
  {| ip := Some {| src := "203.0.113.50"; dst := "10.0.0.5"; proto := 6 |};
     tcp := true; udp := true; icmp := false; len := 60 |}.

(** The per-packet dataflow as the specification words it: one persistence
    call with the frame's fields and one published [packet_update]. *)
Definition dataflow_as_specified (_socketio : option socketio) (env : sink_env)
    (pkt : packet) (l : IP_layer) (session_id : Z) (a : app) (d : db_session) : Prop :=
  filter (fun e => is_log_packet e = true) (sink_effects _socketio env pkt session_id a d) =
    [ELogPacket session_id (classify pkt l) (src l) (dst l) (len pkt)] ∧
  ∃ sio, filter (fun e => is_emit e = true) (sink_effects _socketio env pkt session_id a d) =
    [packet_update sio env pkt l session_id].

(** Every thread's token is a cell of the event store. *)
Definition tokens_allocated (m : monitor) : Prop :=
  ∀ i th, threads m !! i = Some th → (t_stop_event th < length (events m))%nat.

(** The bookkeeping fields describe the thread [_monitor_thread] refers to. *)
Definition tracked_consistent (m : monitor) : Prop :=
  ∀ t, _monitor_thread m = Some t →
    ∃ th, threads m !! t = Some th ∧
          _stop_event m = Some (t_stop_event th) ∧
          _current_session_id m = Some (t_session_id th) ∧
          _app m = Some (t_app th).

(** A live thread the module no longer refers to has been told to stop. *)
Definition strays_cancelled (m : monitor) : Prop :=
  ∀ i th, threads m !! i = Some th → t_alive th = true →
    _monitor_thread m ≠ Some i → is_set (events m) (t_stop_event th) = true.

(** Every live thread is the one the module refers to. *)
Definition no_strays (m : monitor) : Prop :=
  ∀ i th, threads m !! i = Some th → t_alive th = true → _monitor_thread m = Some i.

Definition well_formed (m : monitor) : Prop :=
  tokens_allocated m ∧ tracked_consistent m ∧ strays_cancelled m.

(** [start_monitor] refused: it returned false and created no thread. *)
Definition rejected (TV_IP : string) (session_id : Z) (a : app) (m : monitor) : Prop :=
  fst (start_monitor TV_IP session_id a m) = false ∧
  threads (snd (start_monitor TV_IP session_id a m)) = threads m.

(** What a capture thread did: how its loop ended, and the database
    session and trace it leaves. *)
Definition outcome (r : loop_status * world) : loop_status * sink_state :=
  (fst r, snd (snd r)).

(** A capture call that raises [exc] at once, and nothing else happening. *)
Definition failing (exc : exn) : slice :=
  {| sl_arrivals := []; sl_sets := []; sl_end := SniffRaises exc; sl_sleep_sets := [] |}.

(** The same script with one more event, [e], set by another thread at
    every point where the environment can act. *)
Definition stale_arrival (e : nat) (f : arrival) : arrival :=
  {| a_sets := e :: a_sets f; a_packet := a_packet f; a_env := a_env f |}.

Definition stale_slice (e : nat) (sl : slice) : slice :=
  {| sl_arrivals := map (stale_arrival e) (sl_arrivals sl);
     sl_sets := e :: sl_sets sl;
     sl_end := sl_end sl;
     sl_sleep_sets := e :: sl_sleep_sets sl |}.

(** Two event stores of the same size that agree on one token. *)
Definition agree_on (tok : nat) (ev ev' : list bool) : Prop :=
  length ev = length ev' ∧ is_set ev tok = is_set ev' tok.

(** What one failed-and-retried capture call adds to the trace. *)
Definition retry_round (bpf_filter : string) (exc : exn) : list effect :=
  [ ELog DEBUG "Starting scapy.sniff() with filter=%r" [py_repr bpf_filter];
    ESniff bpf_filter 1;
    ELog ERROR "Scapy sniff error: %s — retrying in 2s" [exn_str exc];
    ESleep 2 ].

(** ** Reading the packet table

    [models.PacketLog.to_dict], [db_service.get_packet_stats] and the route
    [monitor_routes.packet_stats] that serves it. *)

(** A row of [packet_logs] as a query returns it: the primary key the
    database gave it, and its columns. *)
Definition stored_row : Type := Z * PacketLog.

(** The dict [PacketLog.to_dict] builds.  [timestamp] is a non-null column
    and a datetime is never falsy, so its entry is always the rendering of
    the stored instant. *)
Record packet_dict : Type := {
  k_id : Z;
  k_session_id : Z;
  k_protocol : string;
  k_source_ip : string;
  k_dest_ip : string;
  k_size_bytes : Z;
  k_timestamp : option timestamp
}.

Definition to_dict (r : stored_row) : packet_dict :=
  {| k_id := fst r;
     k_session_id := pl_session_id (snd r);
     k_protocol := pl_protocol (snd r);
     k_source_ip := pl_source_ip (snd r);
     k_dest_ip := pl_dest_ip (snd r);
     k_size_bytes := pl_size_bytes (snd r);
     k_timestamp := Some (pl_timestamp (snd r)) |}.

(** The dict [get_packet_stats] returns. *)
Record packet_stats : Type := {
  total_packets : Z;
  total_bytes : Z;
  protocol_breakdown : gmap string Z;
  recent_packets : list packet_dict
}.

Definition zero_stats : packet_stats :=
  {| total_packets := 0; total_bytes := 0; protocol_breakdown := ∅; recent_packets := [] |}.

(** [PacketLog.query], with [.filter_by(session_id=...)] when an id is given. *)
Definition query_packets (session_id : option Z) (table : list stored_row)
    : list stored_row :=
  match session_id with
  | Some sid => filter (fun r => pl_session_id (snd r) = sid) table
  | None => table
  end.

(** One turn of the loop [breakdown[p.protocol] = breakdown.get(p.protocol, 0) + 1]. *)
Definition count_protocol (breakdown : gmap string Z) (p : stored_row) : gmap string Z :=
  <[pl_protocol (snd p) := default 0 (breakdown !! pl_protocol (snd p)) + 1]> breakdown.

(** [.order_by(PacketLog.timestamp.desc())].  Rows with equal timestamps
    come in an order the database chooses; here they keep their table
    order. *)
Fixpoint insert_newest_first (r : stored_row) (l : list stored_row) : list stored_row :=
  match l with
  | [] => [r]
  | x :: l' =>
      if (pl_timestamp (snd x) <=? pl_timestamp (snd r))%Z then r :: l
      else x :: insert_newest_first r l'
  end.

Definition order_by_timestamp_desc (l : list stored_row) : list stored_row :=
  foldr insert_newest_first [] l.

(** The [except SQLAlchemyError] clause of [get_packet_stats]; another
    exception leaves the function. *)
Definition stats_failure (exc : exn) : res packet_stats * list effect :=
  if is_SQLAlchemyError exc then
    (Ok zero_stats, [ELog ERROR "DB error in get_packet_stats: %s" [exn_str exc]])
  else (Raise exc, []).

(** [get_packet_stats(session_id, limit)] on a snapshot [table] of
    [packet_logs].  [all_fault] and [recent_fault] are what the two queries
    raise, if anything; [limit] is not negative. *)
Definition get_packet_stats (session_id : option Z) (limit : Z)
    (all_fault recent_fault : option exn) (table : list stored_row)
    : res packet_stats * list effect :=
  match all_fault with
  | Some exc => stats_failure exc
  | None =>
      let all_packets := query_packets session_id table in
      let total_packets := Z.of_nat (length all_packets) in
      let total_bytes := fold_left (fun acc p => acc + pl_size_bytes (snd p)) all_packets 0 in
      let breakdown := fold_left count_protocol all_packets ∅ in
      match recent_fault with
      | Some exc => stats_failure exc
      | None =>
          let recent := take (Z.to_nat limit)
                          (order_by_timestamp_desc (query_packets session_id table)) in
          (Ok {| total_packets := total_packets;
                 total_bytes := total_bytes;
                 protocol_breakdown := breakdown;
                 recent_packets := map to_dict recent |}, [])
      end
  end.

(** What the route answers: the status code is 200, 400 or 500. *)
Inductive stats_response : Type :=
| Resp200 (stats : packet_stats)
| Resp400 (error : string)
| Resp500 (error : string) (stats : packet_stats).

Section MonitorRoutes.

(** [int(s)] on a query-string value: [None] when it raises [ValueError]. *)
Variable py_int : string → option Z.

(** [monitor_routes.packet_stats]; [raw_session] and [raw_limit] are
    [request.args.get("session_id")] and [request.args.get("limit")]. *)
Definition packet_stats_route (raw_session raw_limit : option string)
    (all_fault recent_fault : option exn) (table : list stored_row)
    : stats_response * list effect :=
  match (match raw_session with
         | Some raw => match py_int raw with
                       | Some n => Some (Some n)
                       | None => None
                       end
         | None => Some None
         end) with
  | None => (Resp400 "Invalid 'session_id' — must be an integer", [])
  | Some session_id =>
      match (match raw_limit with
             | Some raw => py_int raw
             | None => Some 20
             end) with
      | None => (Resp400 "Invalid 'limit' — must be an integer", [])
      | Some n =>
          let limit := Z.max 1 (Z.min n 100) in
          match get_packet_stats session_id limit all_fault recent_fault table with
          | (Ok stats, lg) => (Resp200 stats, lg)
          | (Raise exc, lg) =>
              (Resp500 "Could not fetch packet statistics" zero_stats,
               lg ++ [ELog ERROR "Error fetching packet stats: %s" [exn_str exc]])
          end
      end
  end.

End MonitorRoutes.

(** The packets of a table with a given protocol label. *)
Definition with_protocol (p : string) (rows : list stored_row) : list stored_row :=
  filter (fun r => pl_protocol (snd r) = p) rows.

(** The sum of the counters of a breakdown. *)
Definition breakdown_sum (b : gmap string Z) : Z :=
  map_fold (fun _ v acc => v + acc) 0 b.

(** [x] is at least as recent as [y]. *)
Definition newer_first (x y : stored_row) : Prop :=
  pl_timestamp (snd y) <= pl_timestamp (snd x).

(** ** The other tables of [db_service]

    [models.Device], [models.Session], [models.Message] and the operations
    of [db_service] on them.  Each operation runs in its own transaction: a
    statement or the commit may raise; on a SQLAlchemy error the operation
    rolls back, so the tables are what they were; another exception leaves
    the operation with nothing committed. *)

Record Device : Type := {
  dev_id : Z;
  dev_name : string;
  dev_ip_address : string;
  dev_mac_address : option string;
  dev_last_seen : option timestamp;
  dev_is_online : bool
}.

Record Session : Type := {
  ses_id : Z;
  ses_device_id : Z;
  ses_connection_type : string;
  ses_start_time : timestamp;
  ses_end_time : option timestamp;
  ses_total_messages : Z
}.

(** [latency_ms] is a float; it is kept as hundredths of a millisecond. *)
Record Message : Type := {
  msg_id : Z;
  msg_session_id : Z;
  msg_text : string;
  msg_timestamp : timestamp;
  msg_delivered : bool;
  msg_latency_ms : option Z
}.

Record tables : Type := {
  devices : list Device;
  sessions : list Session;
  messages : list Message
}.

Definition no_tables : tables := {| devices := []; sessions := []; messages := [] |}.

(** What the database decides during one operation: whether the query and
    the commit raise, the clock, and the primary key it gives to a row the
    operation inserts. *)
Record db_env : Type := {
  q_fault : option exn;
  c_fault : option exn;
  db_utcnow : timestamp;
  new_id : Z
}.

(** The [except SQLAlchemyError] clause the operations share: [fn] is the
    name of the operation, [none] what it returns then, [lg] what it has
    logged so far. *)
Definition db_except {A} (fn : string) (none : A) (exc : exn) (t : tables)
    (lg : list effect) : res A * tables * list effect :=
  if is_SQLAlchemyError exc then
    (Ok none, t, lg ++ [ELog ERROR ("DB error in " +:+ fn +:+ ": %s") [exn_str exc]])
  else (Raise exc, t, lg).

(** Truthiness of an optional string: [None] and the empty string are falsy. *)
Definition py_truthy (s : option string) : bool :=
  match s with
  | Some s => negb (String.eqb s "")
  | None => false
  end.

(** [str(s)] for an optional string. *)
Definition py_str_opt (s : option string) : string :=
  match s with
  | Some s => s
  | None => "None"
  end.

Definition py_str_bool (b : bool) : string := if b then "True" else "False".

(** [Device.query.filter_by(ip_address=...).first()] *)
Definition device_by_ip (ip_address : string) (t : tables) : option Device :=
  find (fun d => String.eqb (dev_ip_address d) ip_address) (devices t).

(** [Session.query.get(session_id)] *)
Definition session_by_id (session_id : Z) (t : tables) : option Session :=
  find (fun s => Z.eqb (ses_id s) session_id) (sessions t).

(** Writing back a changed row: the row with its primary key is replaced. *)
Definition update_device (d : Device) (t : tables) : tables :=
  {| devices := map (fun d0 => if Z.eqb (dev_id d0) (dev_id d) then d else d0) (devices t);
     sessions := sessions t;
     messages := messages t |}.

Definition update_session (s : Session) (t : tables) : tables :=
  {| devices := devices t;
     sessions := map (fun s0 => if Z.eqb (ses_id s0) (ses_id s) then s else s0) (sessions t);
     messages := messages t |}.

(** [get_or_create_device(name, ip_address, mac_address)] *)
Definition get_or_create_device (name ip_address : string) (mac_address : option string)
    (env : db_env) (t : tables) : res (option Device) * tables * list effect :=
  match q_fault env with
  | Some exc => db_except "get_or_create_device" None exc t []
  | None =>
      match device_by_ip ip_address t with
      | None =>
          let device := {| dev_id := new_id env;
                           dev_name := name;
                           dev_ip_address := ip_address;
                           dev_mac_address := mac_address;
                           dev_last_seen := Some (db_utcnow env);
                           dev_is_online := true |} in
          let lg := [ELog INFO "Created new device: %s (%s, mac=%s)"
                       [name; ip_address; py_str_opt mac_address]] in
          match c_fault env with
          | Some exc => db_except "get_or_create_device" None exc t lg
          | None =>
              (Ok (Some device),
               {| devices := devices t ++ [device];
                  sessions := sessions t;
                  messages := messages t |},
               lg)
          end
      | Some old =>
          let device := {| dev_id := dev_id old;
                           dev_name := name;
                           dev_ip_address := dev_ip_address old;
                           dev_mac_address := if py_truthy mac_address then mac_address
                                              else dev_mac_address old;
                           dev_last_seen := Some (db_utcnow env);
                           dev_is_online := true |} in
          let lg := [ELog DEBUG "Updated existing device: %s (%s)" [name; ip_address]] in
          match c_fault env with
          | Some exc => db_except "get_or_create_device" None exc t lg
          | None => (Ok (Some device), update_device device t, lg)
          end
      end
  end.

(** [mark_device_offline(ip_address)] *)
Definition mark_device_offline (ip_address : string) (env : db_env) (t : tables)
    : res unit * tables * list effect :=
  match q_fault env with
  | Some exc => db_except "mark_device_offline" tt exc t []
  | None =>
      match device_by_ip ip_address t with
      | None => (Ok tt, t, [])
      | Some old =>
          let device := {| dev_id := dev_id old;
                           dev_name := dev_name old;
                           dev_ip_address := dev_ip_address old;
                           dev_mac_address := dev_mac_address old;
                           dev_last_seen := dev_last_seen old;
                           dev_is_online := false |} in
          match c_fault env with
          | Some exc => db_except "mark_device_offline" tt exc t []
          | None =>
              (Ok tt, update_device device t,
               [ELog INFO "Marked device offline: %s" [ip_address]])
          end
      end
  end.

(** [create_session(device_id, connection_type)] *)
Definition create_session (device_id : Z) (connection_type : string)
    (env : db_env) (t : tables) : res (option Session) * tables * list effect :=
  let session := {| ses_id := new_id env;
                    ses_device_id := device_id;
                    ses_connection_type := connection_type;
                    ses_start_time := db_utcnow env;
                    ses_end_time := None;
                    ses_total_messages := 0 |} in
  match c_fault env with
  | Some exc => db_except "create_session" None exc t []
  | None =>
      (Ok (Some session),
       {| devices := devices t;
          sessions := sessions t ++ [session];
          messages := messages t |},
       [ELog INFO "Created session id=%d for device_id=%d (type=%s)"
          [py_str_int (ses_id session); py_str_int device_id; connection_type]])
  end.

(** [close_session(session_id)] *)
Definition close_session (session_id : Z) (env : db_env) (t : tables)
    : res unit * tables * list effect :=
  match q_fault env with
  | Some exc => db_except "close_session" tt exc t []
  | None =>
      match session_by_id session_id t with
      | None => (Ok tt, t, [])
      | Some old =>
          let session := {| ses_id := ses_id old;
                            ses_device_id := ses_device_id old;
                            ses_connection_type := ses_connection_type old;
                            ses_start_time := ses_start_time old;
                            ses_end_time := Some (db_utcnow env);
                            ses_total_messages := ses_total_messages old |} in
          match c_fault env with
          | Some exc => db_except "close_session" tt exc t []
          | None =>
              (Ok tt, update_session session t,
               [ELog INFO "Closed session id=%d" [py_str_int session_id]])
          end
      end
  end.

Section LogMessage.

(** ["%.1f" % x] for a latency in hundredths of a millisecond. *)
Variable fmt_1f : Z → string.

(** [log_message(session_id, text, delivered, latency_ms)].  The new row is
    flushed by the query that follows [add], so [q_fault] covers both. *)
Definition log_message (session_id : Z) (text : string) (delivered : bool)
    (latency_ms : option Z) (env : db_env) (t : tables)
    : res (option Message) * tables * list effect :=
  let message := {| msg_id := new_id env;
                    msg_session_id := session_id;
                    msg_text := text;
                    msg_timestamp := db_utcnow env;
                    msg_delivered := delivered;
                    msg_latency_ms := latency_ms |} in
  match q_fault env with
  | Some exc => db_except "log_message" None exc t []
  | None =>
      let t1 := {| devices := devices t;
                   sessions := sessions t;
                   messages := messages t ++ [message] |} in
      let t2 := match session_by_id session_id t with
                | Some old =>
                    update_session
                      {| ses_id := ses_id old;
                         ses_device_id := ses_device_id old;
                         ses_connection_type := ses_connection_type old;
                         ses_start_time := ses_start_time old;
                         ses_end_time := ses_end_time old;
                         ses_total_messages := ses_total_messages old + 1 |} t1
                | None => t1
                end in
      match c_fault env with
      | Some exc => db_except "log_message" None exc t []
      | None =>
          (Ok (Some message), t2,
           [ELog DEBUG "Logged message id=%d session=%d delivered=%s latency=%.1fms"
              [py_str_int (msg_id message); py_str_int session_id;
               py_str_bool delivered; fmt_1f (default 0 latency_ms)]])
      end
  end.

End LogMessage.

(** The messages logged for one session. *)
Definition messages_of (session_id : Z) (t : tables) : list Message :=
  filter (fun m => msg_session_id m = session_id) (messages t).

(** Every session's counter is the number of messages logged for it. *)
Definition counters_exact (t : tables) : Prop :=
  ∀ s, In s (sessions t) →
    ses_total_messages s = Z.of_nat (length (messages_of (ses_id s) t)).

(** Python strings are sequences of characters, the strings here are their
    UTF-8 bytes: a character is a byte that continues none, with the
    continuation bytes that follow it. *)
Definition continues (c : ascii) : bool :=
  Nat.leb 128 (nat_of_ascii c) && Nat.ltb (nat_of_ascii c) 192.

(** [len(s)] *)
Fixpoint py_len (s : string) : nat :=
  match s with
  | EmptyString => 0
  | String c s' => ((if continues c then 0 else 1) + py_len s')%nat
  end.

(** [s[:n]] *)
Fixpoint py_prefix (n : nat) (s : string) : string :=
  match s with
  | EmptyString => EmptyString
  | String c s' =>
      if continues c then String c (py_prefix n s')
      else match n with
           | O => EmptyString
           | S n' => String c (py_prefix n' s')
           end
  end.

(** ** The callers of the monitor: cast_service and cast_routes *)

Module cast_service.

(** The [pychromecast.Chromecast] object, by the attributes the module reads. *)
Record Chromecast : Type := {
  name : string;
  model_name : string;
  uuid : string
}.

(** What the module does to the outside: its log records and its one sleep,
    as [effect]s, and the commands it sends to the television. *)
Inductive cast_event : Type :=
| CEffect (e : effect)
| CRegisterHandler
| CLoadUrl (url : string) (force : bool)
| CQuitApp
| CStartApp (app_id : string)
| CDisconnect (timeout : Z).

(** The module-level state. *)
Record cast_state : Type := {
  _cast : option Chromecast;
  _current_text : string;
  _cast_page_sent : bool;
  _prev_app_id : option string
}.

Definition init : cast_state :=
  {| _cast := None; _current_text := ""; _cast_page_sent := false; _prev_app_id := None |}.

(** How [get_chromecast_from_host] and [cast.wait] end. *)
Inductive connect_outcome : Type :=
| Connected (cast : Chromecast)
| ChromecastConnectionError (msg : string)
| NotConnected (msg : string)
| ConnectRaised (exc : exn).

(** [get_mac_local_ip()]: [route_ip] is the source address of the UDP socket
    connected toward the television, [None] when that raises [OSError];
    [resolved] is how [gethostbyname(gethostname())] ends. *)
Definition get_mac_local_ip (route_ip : option string) (resolved : res string)
    : res string :=
  match route_ip with
  | Some ip => Ok ip
  | None => resolved
  end.

(** [_build_display_url()], given how [get_mac_local_ip()] ends;
    [now] is [int(time.time())]. *)
Definition _build_display_url (mac_ip : res string) (FLASK_PORT : Z) (now : Z)
    : res string * list cast_event :=
  match mac_ip with
  | Ok ip =>
      let url := "http://" +:+ ip +:+ ":" +:+ py_str_int FLASK_PORT
                 +:+ "/display?t=" +:+ py_str_int now in
      (Ok url, [CEffect (ELog DEBUG "Display URL: %s" [url])])
  | Raise exc => (Raise exc, [])
  end.

(** [init_chromecast(timeout)] *)
Definition init_chromecast (TV_IP TV_NAME : string) (timeout : Z)
    (outcome : connect_outcome) (s : cast_state) : bool * cast_state * list cast_event :=
  let hello := CEffect (ELog INFO "Connecting to Chromecast at %s (name: %s, timeout: %ds)..."
                       [TV_IP; TV_NAME; py_str_int timeout]) in
  match outcome with
  | Connected cast =>
      (true,
       {| _cast := Some cast; _current_text := _current_text s;
          _cast_page_sent := _cast_page_sent s; _prev_app_id := _prev_app_id s |},
       [hello;
        CEffect (ELog INFO "Connected to Chromecast: %s (model: %s, uuid: %s)"
                [name cast; model_name cast; uuid cast])])
  | ChromecastConnectionError msg =>
      (false, s, [hello; CEffect (ELog ERROR "Chromecast connection error: %s" [msg])])
  | NotConnected msg =>
      (false, s, [hello; CEffect (ELog ERROR "Chromecast not connected: %s" [msg])])
  | ConnectRaised exc =>
      (false, s,
       [hello;
        CEffect (ELog ERROR "Unexpected error connecting to Chromecast at %s: %s"
                [TV_IP; exn_str exc])])
  end.

(** The receivers [cast_display_page] does not remember: DashCast, Backdrop
    and the Default Media Receiver. *)
Definition receiver_apps : list string := ["5CB45E5A"; "E8C28D3C"; "CC1AD845"].

(** What the environment decides during [cast_display_page]. *)
Record page_env : Type := {
  route_ip : option string;              (* see get_mac_local_ip *)
  resolved : res string;                 (* see get_mac_local_ip *)
  clock : Z;                             (* int(time.time()) *)
  app_id : option string;                (* cast.app_id *)
  register_fault : option exn;           (* raised by cast.register_handler(dcast) *)
  load_fault : option exn                (* raised by dcast.load_url(url, force=True) *)
}.

(** [cast_display_page()]; [FLASK_PORT] is [config.FLASK_PORT]. *)
Definition cast_display_page (FLASK_PORT : Z) (env : page_env) (s : cast_state)
    : bool * cast_state * list cast_event :=
  match _cast s with
  | None =>
      (false, s,
       [CEffect (ELog WARNING "cast_display_page() called but Chromecast is not connected" [])])
  | Some cast =>
      match _build_display_url (get_mac_local_ip (route_ip env) (resolved env))
              FLASK_PORT (clock env) with
      | (Raise exc, ev) =>
          (false,
           {| _cast := _cast s; _current_text := _current_text s;
              _cast_page_sent := false; _prev_app_id := _prev_app_id s |},
           ev ++ [CEffect (ELog ERROR "Failed to cast display page via DashCast: %s"
                          [exn_str exc])])
      | (Ok u, ev) =>
          let casting := CEffect (ELog INFO "Casting display page to TV via DashCast: %s" [u]) in
          let remember :=
            py_truthy (app_id env) &&
            negb (existsb (String.eqb (py_str_opt (app_id env))) receiver_apps) in
          let prev := if remember then app_id env else None in
          let noted := if remember then
                         [CEffect (ELog INFO "Captured previous App ID to restore later: %s"
                                  [py_str_opt (app_id env)])]
                       else [] in
          let failed exc := CEffect (ELog ERROR "Failed to cast display page via DashCast: %s"
                                       [exn_str exc]) in
          let s_failed := {| _cast := _cast s; _current_text := _current_text s;
                             _cast_page_sent := false; _prev_app_id := prev |} in
          match register_fault env with
          | Some exc => (false, s_failed, ev ++ [casting] ++ noted ++ [failed exc])
          | None =>
              match load_fault env with
              | Some exc =>
                  (false, s_failed,
                   ev ++ [casting] ++ noted ++
                   [CRegisterHandler; CLoadUrl u true; failed exc])
              | None =>
                  (true,
                   {| _cast := _cast s; _current_text := _current_text s;
                      _cast_page_sent := true; _prev_app_id := prev |},
                   ev ++ [casting] ++ noted ++
                   [CRegisterHandler; CLoadUrl u true;
                    CEffect (ELog INFO "DashCast load_url command sent successfully" [])])
              end
          end
      end
  end.

(** [update_display_text(text)] *)
Definition update_display_text (text : string) (s : cast_state)
    : cast_state * list cast_event :=
  ({| _cast := _cast s; _current_text := text;
      _cast_page_sent := _cast_page_sent s; _prev_app_id := _prev_app_id s |},
   [CEffect (ELog INFO "Display text updated: %r"
              [py_repr (if Nat.ltb 80 (py_len text) then py_prefix 80 text +:+ "…"
                        else text)])]).

(** The dict [get_connection_status] returns. *)
Record status : Type := {
  online : bool;
  device_name : string;
  device_ip : string;
  status_model_name : option string
}.

(** [get_connection_status()]; [status_fault] is what reading
    [cast.status] raises, if anything. *)
Definition get_connection_status (TV_IP TV_NAME : string) (status_fault : option exn)
    (s : cast_state) : status :=
  match _cast s with
  | None =>
      {| online := false; device_name := TV_NAME; device_ip := TV_IP;
         status_model_name := None |}
  | Some cast =>
      {| online := match status_fault with None => true | Some _ => false end;
         device_name := name cast; device_ip := TV_IP;
         status_model_name := Some (model_name cast) |}
  end.

(** What the environment decides during [disconnect]. *)
Record disconnect_env : Type := {
  exits_in_time : bool;          (* the join inside stop_monitor() *)
  quit_fault : option exn;       (* raised by cast.quit_app() *)
  restore_fault : option exn;    (* raised by cast.start_app(...) *)
  disconnect_fault : option exn  (* raised by cast.disconnect(timeout=5) *)
}.

(** [disconnect()].  [stop_monitor()] is called with its default time-out
    of 5.0 seconds. *)
Definition disconnect (env : disconnect_env) (s : cast_state) (m : monitor)
    : cast_state * monitor * list cast_event :=
  match _cast s with
  | None => (s, m, [])
  | Some cast =>
      let s0 := {| _cast := None; _current_text := _current_text s;
                   _cast_page_sent := _cast_page_sent s; _prev_app_id := _prev_app_id s |} in
      let m1 := stop_monitor 50 (exits_in_time env) m in
      let quitting := [CEffect (ELog INFO "Quitting DashCast on TV..." []); CQuitApp] in
      let failed exc := CEffect (ELog WARNING "Error during Chromecast disconnect: %s"
                                [exn_str exc]) in
      match quit_fault env with
      | Some exc => (s0, m1, quitting ++ [failed exc])
      | None =>
          let restoring :=
            if py_truthy (_prev_app_id s) then
              [CEffect (ELog INFO "Attempting to restore previous App: %s"
                       [py_str_opt (_prev_app_id s)]);
               CStartApp (py_str_opt (_prev_app_id s))] ++
              match restore_fault env with
              | None => [CEffect (ESleep 1)]
              | Some exc =>
                  [CEffect (ELog WARNING "Restoration failed (likely app requires user): %s"
                           [exn_str exc])]
              end
            else [] in
          match disconnect_fault env with
          | Some exc => (s0, m1, quitting ++ restoring ++ [CDisconnect 5; failed exc])
          | None =>
              ({| _cast := None; _current_text := _current_text s;
                  _cast_page_sent := false; _prev_app_id := None |},
               m1,
               quitting ++ restoring ++
               [CDisconnect 5; CEffect (ELog INFO "Disconnected from Chromecast" [])])
          end
      end
  end.

End cast_service.

Module cast_routes.

(** The module-level state of [cast_routes]. *)
Record route_state : Type := {
  _active_session_id : option Z;
  _cast_page_sent : bool
}.

(** The process as the routes see it: their own state, the state of
    [cast_service] and of [packet_monitor], and the tables. *)
Record server : Type := {
  routes : route_state;
  cast : cast_service.cast_state;
  monitor_state : monitor;
  db_tables : tables
}.

Definition init : server :=
  {| routes := {| _active_session_id := None; _cast_page_sent := false |};
     cast := cast_service.init;
     monitor_state := init;
     db_tables := no_tables |}.

Definition with_routes (r : route_state) (st : server) : server :=
  {| routes := r; cast := cast st; monitor_state := monitor_state st;
     db_tables := db_tables st |}.

Definition with_cast (c : cast_service.cast_state) (st : server) : server :=
  {| routes := routes st; cast := c; monitor_state := monitor_state st;
     db_tables := db_tables st |}.

Definition with_monitor (m : monitor) (st : server) : server :=
  {| routes := routes st; cast := cast st; monitor_state := m;
     db_tables := db_tables st |}.

Definition with_tables (t : tables) (st : server) : server :=
  {| routes := routes st; cast := cast st; monitor_state := monitor_state st;
     db_tables := t |}.

(** A log record of this module or of [db_service] in the trace of a request. *)
Definition logged (lvl : level) (fmt : string) (args : list string)
    : cast_service.cast_event :=
  cast_service.CEffect (ELog lvl fmt args).

Section Routes.

(** [config.TV_IP], [config.TV_NAME], [config.TV_MAC], [config.FLASK_PORT] *)
Variable TV_IP TV_NAME TV_MAC : string.
Variable FLASK_PORT : Z.

(** [_get_or_create_session()]; [a] is the current Flask application,
    [env_dev] and [env_ses] are the database's part in the two operations. *)
Definition _get_or_create_session (a : app) (env_dev env_ses : db_env) (st : server)
    : option Z * server * list cast_service.cast_event :=
  match _active_session_id (routes st) with
  | Some id => (Some id, st, [])
  | None =>
      let failed exc := logged ERROR "Failed to create DB session: %s" [exn_str exc] in
      match get_or_create_device TV_NAME TV_IP (Some TV_MAC) env_dev (db_tables st) with
      | (Raise exc, t1, lg1) =>
          (None, with_tables t1 st, map cast_service.CEffect lg1 ++ [failed exc])
      | (Ok None, t1, lg1) => (None, with_tables t1 st, map cast_service.CEffect lg1)
      | (Ok (Some device), t1, lg1) =>
          match create_session (dev_id device) "local" env_ses t1 with
          | (Raise exc, t2, lg2) =>
              (None, with_tables t2 st,
               map cast_service.CEffect (lg1 ++ lg2) ++ [failed exc])
          | (Ok None, t2, lg2) =>
              (None, with_tables t2 st, map cast_service.CEffect (lg1 ++ lg2))
          | (Ok (Some session), t2, lg2) =>
              let id := ses_id session in
              let st1 := with_routes {| _active_session_id := Some id;
                                        _cast_page_sent := _cast_page_sent (routes st) |}
                           (with_tables t2 st) in
              let created := logged INFO "Active session created: id=%d" [py_str_int id] in
              if is_running (monitor_state st1) then
                (Some id, st1, map cast_service.CEffect (lg1 ++ lg2) ++ [created])
              else
                let r := start_monitor TV_IP id a (monitor_state st1) in
                (Some id, with_monitor (snd r) st1,
                 map cast_service.CEffect (lg1 ++ lg2) ++
                 [created;
                  logged INFO "Packet monitor start_monitor() returned: %s"
                    [py_str_bool (fst r)]])
          end
      end
  end.

(** The answers of [POST /api/cast/connect]. *)
Inductive connect_response : Type :=
| Connect503 (error : string)
| Connect200 (message tv_ip tv_name : string) (display_cast : bool).

(** [str(x)] for an optional integer. *)
Definition py_str_opt_int (x : option Z) : string :=
  match x with
  | Some n => py_str_int n
  | None => "None"
  end.

(** [connect_to_tv()] *)
Definition connect_to_tv (outcome : cast_service.connect_outcome)
    (penv : cast_service.page_env) (a : app) (env_dev env_ses : db_env) (st : server)
    : connect_response * server * list cast_service.cast_event :=
  let hello := logged INFO "POST /api/cast/connect — connecting to TV at %s" [TV_IP] in
  match cast_service.init_chromecast TV_IP TV_NAME 10 outcome (cast st) with
  | (false, c1, ev1) =>
      (Connect503 ("Could not connect to TV at " +:+ TV_IP +:+
                   ". Make sure the TV is on, on the same WiFi, and Chromecast is enabled."),
       with_cast c1 st, hello :: ev1)
  | (true, c1, ev1) =>
      match cast_service.cast_display_page FLASK_PORT penv c1 with
      | (casted, c2, ev2) =>
          let st2 := with_routes
                       {| _active_session_id := _active_session_id (routes st);
                          _cast_page_sent := if casted then true
                                             else _cast_page_sent (routes st) |}
                       (with_cast c2 st) in
          let noted := if casted then logged INFO "Display page cast successfully" []
                       else logged WARNING "Connected to TV but failed to cast display page" [] in
          match _get_or_create_session a env_dev env_ses st2 with
          | (session_id, st3, ev3) =>
              (Connect200
                 (if casted then "Connected to TV and display page cast successfully"
                  else "Connected to TV (display page cast failed — check logs)")
                 TV_IP TV_NAME casted,
               st3,
               hello :: ev1 ++ ev2 ++ [noted] ++ ev3 ++
               [logged INFO "Session ready: id=%s" [py_str_opt_int session_id]])
          end
      end
  end.

(** The answers of [POST /api/cast/disconnect]. *)
Inductive disconnect_response : Type :=
| Disconnect200 (message : string)
| Disconnect500 (error detail : string).

(** [disconnect_from_tv()].  [cast_service.disconnect] handles what the
    television raises itself, so the [except] clause of the route has
    nothing to catch. *)
Definition disconnect_from_tv (env : cast_service.disconnect_env) (st : server)
    : disconnect_response * server * list cast_service.cast_event :=
  match cast_service.disconnect env (cast st) (monitor_state st) with
  | (c1, m1, ev) =>
      (Disconnect200 "Disconnected from TV", with_monitor m1 (with_cast c1 st), ev)
  end.

(** What validation makes of the body of [POST /api/cast/send]: no JSON
    object with a [text] key, or [str(data["text"]).strip()]. *)
Inductive send_body : Type :=
| NoText
| Text (text : string).

(** The environment of one [send_text] call. *)
Record send_env : Type := {
  status_fault : option exn;              (* raised by reading [cast.status] *)
  reconnect : cast_service.connect_outcome;   (* what the auto-connect meets *)
  page : cast_service.page_env;           (* what the auto-cast meets *)
  latency : Z;                            (* [round(latency_ms, 2)], in hundredths *)
  latency_text : string                   (* ["%.1f" % latency_ms] *)
}.

(** The answers of [POST /api/cast/send].  [update_display_text] assigns a
    global and logs, so the 500 answer of the route is never given. *)
Inductive send_response : Type :=
| Send400 (error : string)
| Send200 (latency_ms : Z) (message_id : option Z).

(** ["%.1f" % x] for a latency in hundredths of a millisecond. *)
Variable fmt_1f : Z → string.

(** [send_text()] *)
Definition send_text (body : send_body) (env : send_env) (a : app)
    (env_dev env_ses env_msg : db_env) (st : server)
    : send_response * server * list cast_service.cast_event :=
  match body with
  | NoText => (Send400 "Missing 'text' field in request body", st, [])
  | Text text =>
      if String.eqb text "" then (Send400 "'text' must not be empty", st, [])
      else
        let status :=
          cast_service.get_connection_status TV_IP TV_NAME (status_fault env) (cast st) in
        let connected :=
          if cast_service.online status then (cast st, [])
          else
            match cast_service.init_chromecast TV_IP TV_NAME 10 (reconnect env) (cast st) with
            | (_, c, ev) =>
                (c, logged INFO "TV not connected — attempting auto-connect before send" []
                    :: ev)
            end in
        let paged :=
          if _cast_page_sent (routes st) then (true, fst connected, [])
          else
            match cast_service.cast_display_page FLASK_PORT (page env) (fst connected) with
            | (true, c, ev) =>
                (true, c, ev ++ [logged INFO "Display page auto-cast on first send" []])
            | (false, c, ev) => (false, c, ev)
            end in
        let shown := cast_service.update_display_text text (snd (fst paged)) in
        let st1 := with_routes
                     {| _active_session_id := _active_session_id (routes st);
                        _cast_page_sent := fst (fst paged) |}
                     (with_cast (fst shown) st) in
        let sent := logged INFO "Text sent to TV: %r (latency=%.1fms)"
                      [py_repr (py_prefix 60 text); latency_text env] in
        let before := snd connected ++ snd paged ++ snd shown in
        match _get_or_create_session a env_dev env_ses st1 with
        | (None, st2, ev) => (Send200 (latency env) None, st2, before ++ ev ++ [sent])
        | (Some session_id, st2, ev) =>
            match log_message fmt_1f session_id text true (Some (latency env)) env_msg
                    (db_tables st2) with
            | (Ok msg, t, lg) =>
                (Send200 (latency env) (option_map msg_id msg), with_tables t st2,
                 before ++ ev ++ map cast_service.CEffect lg ++ [sent])
            | (Raise exc, t, lg) =>
                (Send200 (latency env) None, with_tables t st2,
                 before ++ ev ++ map cast_service.CEffect lg ++
                 [logged WARNING "DB log failed (cast still succeeded): %s" [exn_str exc];
                  sent])
            end
        end
  end.

(** What can happen to the process: a request to one of the three routes
    that write module state, a request to one of the others ([/cast/status],
    [/tv/heartbeat], [/cast/current-text], [/messages/history],
    [/packets/stats]), a capture thread ending, and the [atexit] hook,
    which calls [stop_monitor(timeout=3.0)]. *)
Inductive request : Type :=
| Connect (outcome : cast_service.connect_outcome) (penv : cast_service.page_env)
    (a : app) (env_dev env_ses : db_env)
| Disconnect (env : cast_service.disconnect_env)
| Send (body : send_body) (env : send_env) (a : app) (env_dev env_ses env_msg : db_env)
| Query
| CaptureThreadExit (t : nat)
| AtExit (exits_in_time : bool).

(** One request served from its first line to its last with nothing in
    between. *)
Definition serve (st : server) (r : request) : server :=
  match r with
  | Connect outcome penv a env_dev env_ses =>
      snd (fst (connect_to_tv outcome penv a env_dev env_ses st))
  | Disconnect env => snd (fst (disconnect_from_tv env st))
  | Send body env a env_dev env_ses env_msg =>
      snd (fst (send_text body env a env_dev env_ses env_msg st))
  | Query => st
  | CaptureThreadExit t => with_monitor (thread_exit t (monitor_state st)) st
  | AtExit j => with_monitor (stop_monitor 30 j (monitor_state st)) st
  end.

(** The requests of a history served one at a time: none begins before the
    one before it has returned.  The routes take no lock of their own
    (lines 59-85 of [_get_or_create_session] check and then act), so this is
    the server handling its requests in turn, not a threaded one handling
    two at once. *)
Definition serve_all (rs : list request) (st : server) : server :=
  fold_left serve rs st.

End Routes.

End cast_routes.

(** An application id that [disconnect] may relaunch: a non-empty id that
    is none of the Cast receivers. *)
Definition restorable (prev : option string) : Prop :=
  ∀ a, prev = Some a → a ≠ "" ∧ ¬ In a cast_service.receiver_apps.

(** The routes' part in the life of the capture thread: no thread has been
    created while no session id is cached; once one is cached, exactly one
    thread has been created, for that id, and the monitor holds the id. *)
Definition capture_once (st : cast_routes.server) : Prop :=
  match cast_routes._active_session_id (cast_routes.routes st) with
  | None => threads (cast_routes.monitor_state st) = []
  | Some id =>
      _current_session_id (cast_routes.monitor_state st) = Some id ∧
      ∃ th, threads (cast_routes.monitor_state st) = [th] ∧ t_session_id th = id
  end.

(** *** Values for the examples *)

(** The process after start-up: [app.py] has injected the SocketIO instance. *)
Definition booted : cast_routes.server :=
  cast_routes.with_monitor (set_socketio 0%nat init) cast_routes.init.

Definition living_room_tv : cast_service.Chromecast :=
  {| cast_service.name := "Living Room TV";
     cast_service.model_name := "Chromecast";
     cast_service.uuid := "7f5a-01" |}.

(** The television was showing another application when the page is cast. *)
Definition page_ok : cast_service.page_env :=
  {| cast_service.route_ip := Some "10.0.0.5";
     cast_service.resolved := Ok "10.0.0.5";
     cast_service.clock := 1700000000;
     cast_service.app_id := Some "233637DE";
     cast_service.register_fault := None;
     cast_service.load_fault := None |}.

(** A rendering of latencies for the examples. *)
Definition shown_latency (x : Z) : string :=
  py_str_int (x / 100) +:+ "." +:+ py_str_int (x mod 100 / 10).

Definition db_ok : db_env :=
  {| q_fault := None; c_fault := None; db_utcnow := 100; new_id := 1 |}.

Definition db_down : db_env :=
  {| q_fault := Some (SQLAlchemyError "database is locked"); c_fault := None; db_utcnow := 100; new_id := 1 |}.

Definition send_ok : cast_routes.send_env :=
  {| cast_routes.status_fault := None;
     cast_routes.reconnect := cast_service.Connected living_room_tv;
     cast_routes.page := page_ok;
     cast_routes.latency := 1234;
     cast_routes.latency_text := "12.3" |}.

Definition leave_ok : cast_service.disconnect_env :=
  {| cast_service.exits_in_time := true;
     cast_service.quit_fault := None;
     cast_service.restore_fault := None;
     cast_service.disconnect_fault := None |}.

(** *** Vocabulary of the loop-level statements *)

(** The persistence call the sink makes for one delivered frame. *)
Definition log_packet_call (session_id : Z) (f : arrival) : list effect :=
  match ip (a_packet f) with
  | Some l => [ELogPacket session_id (classify (a_packet f) l) (src l) (dst l)
                 (len (a_packet f))]
  | None => []
  end.

(** The persistence calls of a whole script, in delivery order. *)
Definition expected_calls (session_id : Z) (script : list slice) : list effect :=
  flat_map (fun sl => flat_map (log_packet_call session_id) (sl_arrivals sl)) script.

(** The persistence calls recorded in a trace. *)
Definition calls_in (t : list effect) : list effect :=
  filter (fun e => is_log_packet e = true) t.

(** No thread sets [tok] while the slice runs. *)
Definition quiet_slice (tok : nat) (sl : slice) : Prop :=
  Forall (fun f => ¬ In tok (a_sets f)) (sl_arrivals sl) ∧
  ¬ In tok (sl_sets sl) ∧ ¬ In tok (sl_sleep_sets sl).

(** The capture call of the slice ends in a permission error. *)
Definition denied (sl : slice) : bool :=
  match sl_end sl with
  | SniffRaises exc => is_PermissionError exc
  | SniffReturns => false
  end.

Definition is_sniff (e : effect) : bool :=
  match e with ESniff _ _ => true | _ => false end.

(** The trace entries the loop writes itself, outside the sink. *)
Definition loop_effect (bpf_filter : string) (e : effect) : Prop :=
  (∃ lvl fmt args, e = ELog lvl fmt args) ∨ e = ESniff bpf_filter 1 ∨ e = ESleep 2.

(** The events and the sink state after the sink has handled [frames] one
    after another, each with the events set by the time it is handled. *)
Definition delivered (sio : option socketio) (session_id : Z) (a : app)
    (frames : list arrival) (w : world) : world :=
  fold_left (fun w f => (set_all (a_sets f) (fst w),
                         snd (prn sio session_id a (a_env f) (a_packet f) (snd w))))
    frames w.

(** The sink state with one more trace entry. *)
Definition traced (e : effect) (s : sink_state) : sink_state :=
  {| db := db s; trace := trace s ++ [e] |}.

Ltac unfold_sink :=
  unfold sink_effects, sink_db, _handle_packet, try_except, try_except_if, bind,
    with_app_context, log_packet, finally, socketio_emit, session_commit,
    logger, tell, ret, raise, session_add, session_rollback, modify_db.

Ltac sink_cases env sio :=
  let Hc := fresh "Hc" in
  let He := fresh "He" in
  destruct (commit_fault env) as [[?|?|?|?]|] eqn:Hc;
  destruct sio as [?|];
  try destruct (emit_fault env) as [?|] eqn:He;
  unfold_sink; simpl; rewrite ?Hc, ?He; simpl.

(** * Properties of the packet sink *)

Lemma handle_packet_returns sio env pkt sid a s :
  fst (_handle_packet sio env pkt sid a s) = Ok tt.
Proof.
  destruct (ip pkt) as [l|] eqn:Hip.
  - sink_cases env sio; rewrite Hip; simpl; rewrite ?Hc, ?He; reflexivity.
  - unfold_sink. rewrite Hip. reflexivity.
Qed.

(** The sink only appends to the trace, and what it appends does not depend
    on what the trace already holds. *)
Lemma handle_packet_frame sio env pkt sid a s :
  _handle_packet sio env pkt sid a s =
  (Ok tt, {| db := sink_db sio env pkt sid a (db s);
             trace := trace s ++ sink_effects sio env pkt sid a (db s) |}).
Proof.
  destruct s as [d t].
  destruct (ip pkt) as [l|] eqn:Hip.
  - sink_cases env sio; rewrite Hip; simpl; rewrite ?Hc, ?He; simpl;
      rewrite <- ?app_assoc; reflexivity.
  - unfold_sink. rewrite Hip. simpl. rewrite app_nil_r. reflexivity.
Qed.

(** The persistence call of an IP frame: made once, with the frame's own
    fields, whatever the collaborators do. *)
Lemma sink_log_packet_call sio env pkt sid a d l :
  ip pkt = Some l →
  filter (fun e => is_log_packet e = true) (sink_effects sio env pkt sid a d) =
  [ELogPacket sid (classify pkt l) (src l) (dst l) (len pkt)].
Proof.
  intros Hip.
  sink_cases env sio; rewrite Hip; simpl; rewrite ?Hc, ?He; reflexivity.
Qed.

(** The publish of an IP frame: made once when a Socket.IO instance is
    there, never otherwise. *)
Lemma sink_emit_call sio env pkt sid a d l :
  ip pkt = Some l →
  filter (fun e => is_emit e = true) (sink_effects sio env pkt sid a d) =
  match sio with
  | Some sio0 => [packet_update sio0 env pkt l sid]
  | None => []
  end.
Proof.
  intros Hip.
  sink_cases env sio; rewrite Hip; simpl; rewrite ?Hc, ?He; reflexivity.
Qed.

Lemma py_str_int_decimal (n : Z) :
  option_map Z.of_int (NilZero.int_of_string (py_str_int n)) = Some n.
Proof.
  unfold py_str_int.
  rewrite NilZero.isi.
  - simpl. f_equal. apply DecimalZ.of_to.
  - destruct n; simpl; try discriminate.
    intros [= H]. revert H. apply DecimalPos.Unsigned.to_uint_nonnil.
  - destruct n; simpl; try discriminate.
    intros [= H]. revert H. apply DecimalPos.Unsigned.to_uint_nonnil.
Qed.

(** C5. Classification order and fallback: an IP frame with a TCP layer is
    labelled "TCP" whatever else it matches; without one, a UDP layer gives
    "UDP"; without either, an ICMP layer gives "ICMP"; otherwise the label
    is the IP protocol number of the frame written in decimal (reading the
    label back as a number gives the protocol field).  The label computed
    this way is the one the sink hands to the persistence call. *)
Theorem classification_order (p : packet) (l : IP_layer) :
  (tcp p = true → classify p l = "TCP") ∧
  (tcp p = false → udp p = true → classify p l = "UDP") ∧
  (tcp p = false → udp p = false → icmp p = true → classify p l = "ICMP") ∧
  (tcp p = false → udp p = false → icmp p = false →
     classify p l = py_str_int (proto l) ∧
     option_map Z.of_int (NilZero.int_of_string (classify p l)) = Some (proto l)) ∧
  (∀ sio env sid a d, ip p = Some l →
     filter (fun e => is_log_packet e = true) (sink_effects sio env p sid a d) =
     [ELogPacket sid (classify p l) (src l) (dst l) (len p)]).
Proof.
  unfold classify.
  split; [|split; [|split; [|split]]].
  - intros ->. reflexivity.
  - intros -> ->. reflexivity.
  - intros -> -> ->. reflexivity.
  - intros -> -> ->. split; [reflexivity|apply py_str_int_decimal].
  - intros sio env sid a d Hip. apply (sink_log_packet_call sio env p sid a d l Hip).
Qed.

(** C5 at frames: one matching both the TCP and the UDP marker, and one
    with no known transport layer (GRE, protocol 47). *)
Lemma classification_order_witness :
  classify tcp_udp_frame {| src := "203.0.113.50"; dst := "10.0.0.5"; proto := 6 |} = "TCP" ∧
  classify gre_frame {| src := "10.0.0.5"; dst := "203.0.113.50"; proto := 47 |} = "47".
Proof.
  split.
  - apply (classification_order tcp_udp_frame
             {| src := "203.0.113.50"; dst := "10.0.0.5"; proto := 6 |}).
    reflexivity.
  - apply (proj1 (proj1 (proj2 (proj2 (proj2
             (classification_order gre_frame
                {| src := "10.0.0.5"; dst := "203.0.113.50"; proto := 47 |}))))
             eq_refl eq_refl eq_refl)).
Defined.

(** C8. A frame without an IP layer leaves the sink without any effect: the
    call returns normally, and the database session and the trace (log
    records, persistence call, publish) are what they were. *)
Theorem non_ip_frame_skipped sio env pkt sid a s :
  ip pkt = None →
  _handle_packet sio env pkt sid a s = (Ok tt, s).
Proof.
  intros Hip. unfold_sink. rewrite Hip. reflexivity.
Qed.

Lemma non_ip_frame_skipped_witness :
  ip arp_frame = None ∧
  _handle_packet (Some 0%nat) calm arp_frame 7 0%nat fresh = (Ok tt, fresh).
Proof.
  split; [reflexivity|].
  apply (non_ip_frame_skipped (Some 0%nat) calm arp_frame 7 0%nat fresh).
  reflexivity.
Defined.

(** Whatever the frames and the collaborators do, the handler never makes
    the capture primitive raise. *)
Lemma sniff_frames_never_raises sio sid a stopf frames ev s :
  ∃ b w, sniff_frames (prn sio sid a) stopf frames ev s = (Ok b, w).
Proof.
  revert ev s.
  induction frames as [|f rest IH]; intros ev s; simpl.
  - eauto.
  - unfold prn at 1. rewrite handle_packet_frame.
    destruct (stopf (set_all (a_sets f) ev)); eauto.
Qed.

Lemma run_snoc TV_IP calls c m :
  run TV_IP (calls ++ [c]) m = step TV_IP (run TV_IP calls m) c.
Proof. unfold run. rewrite fold_left_app. reflexivity. Qed.

Lemma socketio_unset_until_injected TV_IP calls :
  forallb (fun c => negb (is_SetSocketio c)) calls = true →
  _socketio (run TV_IP calls init) = None.
Proof.
  induction calls as [|c calls IH] using rev_ind; intros H.
  - reflexivity.
  - rewrite forallb_app in H. apply andb_prop in H as [H1 H2].
    simpl in H2. rewrite andb_true_r in H2.
    rewrite run_snoc. specialize (IH H1).
    destruct c as [sid a|t j|sio|t|e]; simpl in *; try discriminate.
    + unfold start_monitor. destruct (is_running _); simpl; assumption.
    + unfold stop_monitor.
      destruct (_monitor_thread _) as [t0|]; simpl; [|assumption].
      destruct (is_alive _ t0); simpl; [|assumption].
      destruct (_stop_event _), j; simpl;
        match goal with |- context [if ?b then _ else _] => destruct b end;
        simpl; assumption.
    + assumption.
    + assumption.
Qed.

(** C10. Publishing requires prior injection.  As long as [set_socketio]
    has not been called the module-level reference is [None]; with that
    reference [None], an IP frame still gets its persistence call, no
    [packet_update] is attempted and the sink returns normally; and in every
    situation, an attempted publish means an instance had been injected. *)
Theorem publish_requires_injection :
  (∀ TV_IP calls,
     forallb (fun c => negb (is_SetSocketio c)) calls = true →
     _socketio (run TV_IP calls init) = None) ∧
  (∀ env pkt sid a s l,
     ip pkt = Some l →
     fst (_handle_packet None env pkt sid a s) = Ok tt ∧
     filter (fun e => is_log_packet e = true) (sink_effects None env pkt sid a (db s)) =
       [ELogPacket sid (classify pkt l) (src l) (dst l) (len pkt)] ∧
     filter (fun e => is_emit e = true) (sink_effects None env pkt sid a (db s)) = []) ∧
  (∀ sio env pkt sid a d,
     filter (fun e => is_emit e = true) (sink_effects sio env pkt sid a d) ≠ [] →
     ∃ sio0, sio = Some sio0).
Proof.
  split; [|split].
  - apply socketio_unset_until_injected.
  - intros env pkt sid a s l Hip.
    split; [apply handle_packet_returns|].
    split; [apply (sink_log_packet_call None env pkt sid a (db s) l Hip)|].
    apply (sink_emit_call None env pkt sid a (db s) l Hip).
  - intros sio env pkt sid a d H.
    destruct sio as [sio0|]; [eauto|].
    exfalso. apply H.
    destruct (ip pkt) as [l|] eqn:Hip.
    + apply (sink_emit_call None env pkt sid a d l Hip).
    + unfold_sink. rewrite Hip. reflexivity.
Qed.

(** C10 on a history without injection and the TCP frame of session 7. *)
Lemma publish_requires_injection_witness :
  _socketio (run "203.0.113.50" [Start 7 0%nat; ThreadExit 0; Stop 30 true] init) = None ∧
  filter (fun e => is_emit e = true) (sink_effects None calm tcp_frame 7 0%nat empty_db) = [].
Proof.
  split.
  - apply (proj1 publish_requires_injection). reflexivity.
  - apply (proj1 (proj2 publish_requires_injection) calm tcp_frame 7 0%nat fresh
             {| src := "203.0.113.50"; dst := "10.0.0.5"; proto := 6 |}).
    reflexivity.
Defined.

(** C4. Sink failure isolation.  For an IP frame: the sink returns normally
    whatever the collaborators raise, and a capture call whose frames it
    handles never raises because of it; when the persistence write raises,
    the failure is logged at error level and the publish attempts are
    exactly those of the same call without the failure (one
    [packet_update] if an instance is injected); when the publish raises,
    the failure is logged, the persistence call has been made all the same
    and the database session is the one of the same call without the
    failure. *)
Theorem sink_failure_isolation sio env pkt sid a s l :
  ip pkt = Some l →
  fst (_handle_packet sio env pkt sid a s) = Ok tt ∧
  (∀ stopf frames ev s0,
     ∃ b w, sniff_frames (prn sio sid a) stopf frames ev s0 = (Ok b, w)) ∧
  (∀ e, commit_fault env = Some e →
     In (ELog ERROR (if is_SQLAlchemyError e then "DB error in log_packet: %s"
                     else "Failed to log packet to DB: %s") [exn_str e])
        (sink_effects sio env pkt sid a (db s)) ∧
     filter (fun x => is_emit x = true) (sink_effects sio env pkt sid a (db s)) =
       filter (fun x => is_emit x = true)
         (sink_effects sio (with_commit_fault None env) pkt sid a (db s)) ∧
     filter (fun x => is_emit x = true) (sink_effects sio env pkt sid a (db s)) =
       match sio with
       | Some sio0 => [packet_update sio0 env pkt l sid]
       | None => []
       end) ∧
  (∀ e sio0, sio = Some sio0 → emit_fault env = Some e →
     In (ELog ERROR "Failed to emit packet_update: %s" [exn_str e])
        (sink_effects sio env pkt sid a (db s)) ∧
     filter (fun x => is_log_packet x = true) (sink_effects sio env pkt sid a (db s)) =
       [ELogPacket sid (classify pkt l) (src l) (dst l) (len pkt)] ∧
     sink_db sio env pkt sid a (db s) =
       sink_db sio (with_emit_fault None env) pkt sid a (db s)).
Proof.
  intros Hip.
  split; [apply handle_packet_returns|].
  split; [intros; apply sniff_frames_never_raises|].
  split.
  - intros e Hc.
    split; [|split].
    + unfold_sink. rewrite Hip. simpl. rewrite Hc.
      destruct e, sio as [?|]; try destruct (emit_fault env); simpl; auto 10.
    + rewrite (sink_emit_call sio env pkt sid a (db s) l Hip).
      rewrite (sink_emit_call sio (with_commit_fault None env) pkt sid a (db s) l Hip).
      reflexivity.
    + apply (sink_emit_call sio env pkt sid a (db s) l Hip).
  - intros e sio0 -> He.
    split; [|split].
    + unfold_sink. rewrite Hip. simpl. rewrite He.
      destruct (commit_fault env) as [[?|?|?|?]|]; simpl; auto 10.
    + apply (sink_log_packet_call (Some sio0) env pkt sid a (db s) l Hip).
    + unfold_sink. rewrite Hip. simpl. rewrite He.
      destruct (commit_fault env) as [[?|?|?|?]|]; reflexivity.
Qed.

(** C4 with both collaborators failing on the TCP frame of session 7. *)
Lemma sink_failure_isolation_witness :
  ip tcp_frame = Some {| src := "203.0.113.50"; dst := "10.0.0.5"; proto := 6 |} ∧
  fst (_handle_packet (Some 0%nat)
         {| now := 5; utcnow := 6;
            commit_fault := Some (OtherException "database is locked");
            emit_fault := Some (OtherException "hub closed") |}
         tcp_frame 7 0%nat fresh) = Ok tt.
Proof.
  split; [reflexivity|].
  apply (sink_failure_isolation (Some 0%nat) _ tcp_frame 7 0%nat fresh
           {| src := "203.0.113.50"; dst := "10.0.0.5"; proto := 6 |}).
  reflexivity.
Defined.

(** C6 as stated fails: with no Socket.IO instance injected, the TCP frame
    of session 7 gets its persistence call and no [packet_update] at all. *)
Lemma dataflow_without_socketio :
  ip tcp_frame = Some {| src := "203.0.113.50"; dst := "10.0.0.5"; proto := 6 |} ∧
  filter (fun e => is_emit e = true)
    (sink_effects None calm tcp_frame 7 0%nat empty_db) = [] ∧
  ¬ dataflow_as_specified None calm tcp_frame
      {| src := "203.0.113.50"; dst := "10.0.0.5"; proto := 6 |} 7 0%nat empty_db.
Proof.
  split; [reflexivity|]. split; [reflexivity|].
  intros [_ [sio H]]. discriminate H.
Qed.

(** C6, amended. For every IP frame handled under session id S the sink
    calls [log_packet] exactly once, with S, the classified label, the
    frame's source and destination addresses and its length; when the
    commit succeeds the table gains exactly that row; and when a Socket.IO
    instance has been injected the sink publishes exactly one
    [packet_update] whose payload carries the same protocol, addresses,
    size, S and a timestamp. *)
Theorem sink_dataflow sio env pkt sid a d l :
  ip pkt = Some l →
  filter (fun e => is_log_packet e = true) (sink_effects sio env pkt sid a d) =
    [ELogPacket sid (classify pkt l) (src l) (dst l) (len pkt)] ∧
  (commit_fault env = None →
     sink_db sio env pkt sid a d =
     {| committed := committed d ++ pending d ++ [packet_row env pkt l sid];
        pending := [] |}) ∧
  (∀ sio0, sio = Some sio0 →
     filter (fun e => is_emit e = true) (sink_effects sio env pkt sid a d) =
       [packet_update sio0 env pkt l sid] ∧
     dataflow_as_specified sio env pkt l sid a d).
Proof.
  intros Hip.
  pose proof (sink_log_packet_call sio env pkt sid a d l Hip) as Hlog.
  split; [exact Hlog|]. split.
  - intros Hc. unfold_sink. rewrite Hip. simpl. rewrite Hc. simpl.
    destruct sio as [?|]; try destruct (emit_fault env); reflexivity.
  - intros sio0 ->.
    pose proof (sink_emit_call (Some sio0) env pkt sid a d l Hip) as Hemit.
    split; [exact Hemit|]. split; [exact Hlog|]. exists sio0. exact Hemit.
Qed.

(** C6 on the scenario of the specification: session 7, a TCP frame of 512
    bytes from 203.0.113.50 to 10.0.0.5. *)
Lemma sink_dataflow_witness :
  ip tcp_frame = Some {| src := "203.0.113.50"; dst := "10.0.0.5"; proto := 6 |} ∧
  filter (fun e => is_log_packet e = true)
    (sink_effects (Some 0%nat) calm tcp_frame 7 0%nat empty_db) =
  [ELogPacket 7 "TCP" "203.0.113.50" "10.0.0.5" 512].
Proof.
  split; [reflexivity|].
  apply (sink_dataflow (Some 0%nat) calm tcp_frame 7 0%nat empty_db
           {| src := "203.0.113.50"; dst := "10.0.0.5"; proto := 6 |}).
  reflexivity.
Defined.

(** * Properties of the lifecycle manager *)

Lemma is_set_event_set_same ev e :
  (e < length ev)%nat → is_set (event_set e ev) e = true.
Proof.
  intros H. unfold is_set, event_set.
  rewrite list_lookup_insert_eq by exact H. reflexivity.
Qed.

Lemma is_set_event_set_ne ev e x :
  e ≠ x → is_set (event_set e ev) x = is_set ev x.
Proof.
  intros H. unfold is_set, event_set.
  rewrite list_lookup_insert_ne by exact H. reflexivity.
Qed.

Lemma is_set_event_set_mono ev e x :
  is_set ev x = true → is_set (event_set e ev) x = true.
Proof.
  intros H. destruct (decide (e = x)) as [->|Hne].
  - apply is_set_event_set_same.
    unfold is_set in H. destruct (ev !! x) eqn:Hl; [|discriminate].
    apply lookup_lt_Some in Hl. exact Hl.
  - rewrite is_set_event_set_ne by exact Hne. exact H.
Qed.

Lemma length_event_set ev e : length (event_set e ev) = length ev.
Proof. apply length_insert. Qed.

Lemma is_set_app ev l x :
  (x < length ev)%nat → is_set (ev ++ l) x = is_set ev x.
Proof.
  intros H. unfold is_set. rewrite lookup_app_l by exact H. reflexivity.
Qed.

Lemma is_set_fresh ev : is_set (ev ++ [false]) (length ev) = false.
Proof.
  unfold is_set. rewrite lookup_app_r by lia.
  rewrite Nat.sub_diag. reflexivity.
Qed.

Lemma filter_none {A} (P : A → Prop) `{∀ x, Decision (P x)} (l : list A) :
  (∀ i x, l !! i = Some x → ¬ P x) → filter P l = [].
Proof.
  induction l as [|y l IH]; intros Hl; [reflexivity|].
  rewrite filter_cons.
  destruct (decide (P y)) as [Hy|Hy].
  - exfalso. apply (Hl 0%nat y); [reflexivity|exact Hy].
  - apply IH. intros i x Hi. apply (Hl (S i) x). exact Hi.
Qed.

Lemma filter_at_most_one {A} (P : A → Prop) `{∀ x, Decision (P x)} (l : list A) t :
  (∀ i x, l !! i = Some x → P x → i = t) → (length (filter P l) ≤ 1)%nat.
Proof.
  revert t. induction l as [|y l IH]; intros t Hl; [simpl; lia|].
  rewrite filter_cons.
  destruct (decide (P y)) as [Hy|Hy].
  - rewrite (filter_none P l); [simpl; lia|].
    intros i x Hi Hx.
    pose proof (Hl 0%nat y eq_refl Hy) as H0.
    pose proof (Hl (S i) x Hi Hx) as H1. lia.
  - apply (IH (Nat.pred t)).
    intros i x Hi Hx. pose proof (Hl (S i) x Hi Hx). lia.
Qed.

Lemma start_monitor_running TV_IP sid a m :
  is_running m = true →
  start_monitor TV_IP sid a m =
  (false, add_log WARNING "Packet monitor already running — ignoring start request" [] m).
Proof. intros H. unfold start_monitor. rewrite H. reflexivity. Qed.

Lemma start_monitor_idle TV_IP sid a m :
  is_running m = false →
  start_monitor TV_IP sid a m =
  (true,
   add_log INFO "Packet monitor started (session_id=%d, TV_IP=%s)"
     [py_str_int sid; TV_IP]
     {| events := events m ++ [false];
        threads := threads m ++ [ {| t_session_id := sid; t_app := a;
                                     t_stop_event := length (events m);
                                     t_alive := true |} ];
        _monitor_thread := Some (length (threads m));
        _stop_event := Some (length (events m));
        _current_session_id := Some sid;
        _app := Some a;
        _socketio := _socketio m;
        log := log m |}).
Proof. intros H. unfold start_monitor. rewrite H. reflexivity. Qed.

Lemma is_running_after_start TV_IP sid a m :
  is_running (snd (start_monitor TV_IP sid a m)) = true.
Proof.
  destruct (is_running m) eqn:Hr.
  - rewrite start_monitor_running by exact Hr. exact Hr.
  - rewrite start_monitor_idle by exact Hr.
    unfold is_running, is_alive. simpl.
    rewrite lookup_app_r by lia. rewrite Nat.sub_diag. reflexivity.
Qed.

(** What [stop_monitor] does, case by case. *)
Lemma stop_monitor_idle timeout j m :
  is_running m = false →
  stop_monitor timeout j m =
  add_log DEBUG "Packet monitor not running — nothing to stop" [] m.
Proof.
  unfold is_running, stop_monitor. intros H.
  destruct (_monitor_thread m) as [t|]; [|reflexivity].
  rewrite H. reflexivity.
Qed.

Lemma well_formed_init : well_formed init.
Proof.
  split; [|split].
  - intros i th H. discriminate H.
  - intros t H. discriminate H.
  - intros i th H. discriminate H.
Qed.

Lemma no_strays_init : no_strays init.
Proof. intros i th H. discriminate H. Qed.

Lemma not_running_tracked_dead m i th :
  is_running m = false → _monitor_thread m = Some i →
  threads m !! i = Some th → t_alive th = false.
Proof.
  unfold is_running, is_alive. intros Hr Ht Hi.
  rewrite Ht, Hi in Hr. exact Hr.
Qed.

Lemma well_formed_start TV_IP sid a m :
  well_formed m → well_formed (snd (start_monitor TV_IP sid a m)).
Proof.
  intros (Htok & Htr & Hst).
  destruct (is_running m) eqn:Hr.
  - rewrite start_monitor_running by exact Hr. split; [|split]; assumption.
  - rewrite start_monitor_idle by exact Hr.
    split; [|split]; simpl.
    + intros i th Hi. simpl in *. rewrite length_app. simpl.
      apply lookup_app_Some in Hi as [Hi|[_ Hi]].
      * specialize (Htok i th Hi). lia.
      * apply list_lookup_singleton_Some in Hi as [_ <-]. simpl. lia.
    + intros t [= <-]. simpl.
      eexists. split.
      * rewrite lookup_app_r by lia. rewrite Nat.sub_diag. reflexivity.
      * simpl. repeat split; reflexivity.
    + intros i th Hi Halive Hne. simpl in *.
      apply lookup_app_Some in Hi as [Hi|[Hge Hi]].
      * rewrite is_set_app by (apply (Htok i th Hi)).
        apply (Hst i th Hi Halive).
        intros Ht. pose proof (not_running_tracked_dead m i th Hr Ht Hi). congruence.
      * apply list_lookup_singleton_Some in Hi as [Hi _].
        exfalso. apply Hne. f_equal. lia.
Qed.

Lemma well_formed_thread_exit t m :
  well_formed m → well_formed (thread_exit t m).
Proof.
  intros (Htok & Htr & Hst).
  split; [|split]; unfold thread_exit.
  - intros i th Hi. simpl in *.
    rewrite list_lookup_alter in Hi.
    destruct (decide (t = i)) as [->|Hne].
    + destruct (threads m !! i) as [th0|] eqn:Hl; [|discriminate].
      simpl in Hi. injection Hi as <-. simpl. apply (Htok i th0 Hl).
    + apply (Htok i th Hi).
  - intros t0 Ht0. simpl in *.
    destruct (Htr t0 Ht0) as (th & Hl & He & Hs & Ha).
    rewrite list_lookup_alter.
    destruct (decide (t = t0)) as [->|Hne].
    + rewrite Hl. simpl. eexists. split; [reflexivity|]. simpl. auto.
    + exists th. auto.
  - intros i th Hi Halive Hne. simpl in *.
    rewrite list_lookup_alter in Hi.
    destruct (decide (t = i)) as [->|Hne'].
    + destruct (threads m !! i) as [th0|] eqn:Hl; [|discriminate].
      simpl in Hi. injection Hi as <-. discriminate Halive.
    + apply (Hst i th Hi Halive Hne).
Qed.

Lemma well_formed_signal e m :
  well_formed m → well_formed (signal e m).
Proof.
  intros (Htok & Htr & Hst).
  split; [|split]; unfold signal.
  - intros i th Hi. simpl in *. rewrite length_event_set. apply (Htok i th Hi).
  - exact Htr.
  - intros i th Hi Halive Hne. simpl in *.
    apply is_set_event_set_mono. apply (Hst i th Hi Halive Hne).
Qed.

Lemma well_formed_add_log lvl fmt args m :
  well_formed m → well_formed (add_log lvl fmt args m).
Proof. intros (Htok & Htr & Hst). split; [|split]; assumption. Qed.

Lemma well_formed_clear m :
  tokens_allocated m →
  (∀ i th, threads m !! i = Some th → t_alive th = true →
     is_set (events m) (t_stop_event th) = true) →
  well_formed (clear_monitor_thread m).
Proof.
  intros Htok Hall. split; [|split].
  - exact Htok.
  - intros t H. discriminate H.
  - intros i th Hi Halive _. apply (Hall i th Hi Halive).
Qed.

Lemma well_formed_stop timeout j m :
  well_formed m → well_formed (stop_monitor timeout j m).
Proof.
  intros Hwf.
  destruct (is_running m) eqn:Hr.
  2:{ rewrite stop_monitor_idle by exact Hr. apply well_formed_add_log, Hwf. }
  destruct Hwf as (Htok & Htr & Hst).
  unfold is_running in Hr. unfold stop_monitor.
  destruct (_monitor_thread m) as [t|] eqn:Ht; [|discriminate].
  rewrite Hr. simpl.
  destruct (Htr t Ht) as (th & Hl & He & Hs & Ha).
  simpl. rewrite He.
  (* after the signal, every live thread has its token set *)
  assert (Hsig : ∀ i th0, threads m !! i = Some th0 → t_alive th0 = true →
            is_set (event_set (t_stop_event th) (events m)) (t_stop_event th0) = true).
  { intros i th0 Hi Halive.
    destruct (decide (i = t)) as [->|Hne].
    - rewrite Hl in Hi. injection Hi as <-.
      apply is_set_event_set_same. apply (Htok t th Hl).
    - apply is_set_event_set_mono. apply (Hst i th0 Hi Halive). congruence. }
  assert (Htok' : ∀ i th0, threads m !! i = Some th0 →
            (t_stop_event th0 < length (event_set (t_stop_event th) (events m)))%nat).
  { intros i th0 Hi. rewrite length_event_set. apply (Htok i th0 Hi). }
  destruct j.
  - match goal with |- context [if ?b then _ else _] => destruct b end;
      apply well_formed_clear.
    all: try (intros i th0 Hi; simpl in *; rewrite list_lookup_alter in Hi;
              destruct (decide (t = i)) as [->|Hne];
              [ destruct (threads m !! i) as [th1|] eqn:Hl1; [|discriminate];
                simpl in Hi; injection Hi as <-; simpl; apply (Htok' i th1 Hl1)
              | apply (Htok' i th0 Hi) ]).
    all: intros i th0 Hi Halive; simpl in *; rewrite list_lookup_alter in Hi;
         destruct (decide (t = i)) as [->|Hne];
         [ destruct (threads m !! i) as [th1|] eqn:Hl1; [|discriminate];
           simpl in Hi; injection Hi as <-; discriminate Halive
         | apply (Hsig i th0 Hi Halive) ].
  - match goal with |- context [if ?b then _ else _] => destruct b end;
      apply well_formed_clear.
    all: try (intros i th0 Hi; simpl in *; apply (Htok' i th0 Hi)).
    all: intros i th0 Hi Halive; simpl in *; apply (Hsig i th0 Hi Halive).
Qed.

Lemma well_formed_step TV_IP m c :
  well_formed m → well_formed (step TV_IP m c).
Proof.
  intros Hwf. destruct c as [sid a|timeout j|sio|t|e]; simpl.
  - apply well_formed_start, Hwf.
  - apply well_formed_stop, Hwf.
  - destruct Hwf as (Htok & Htr & Hst). split; [|split]; assumption.
  - apply well_formed_thread_exit, Hwf.
  - apply well_formed_signal, Hwf.
Qed.

Lemma well_formed_run TV_IP calls m :
  well_formed m → well_formed (run TV_IP calls m).
Proof.
  revert m. induction calls as [|c calls IH]; intros m Hwf; [exact Hwf|].
  simpl. apply IH, well_formed_step, Hwf.
Qed.

Lemma no_strays_step TV_IP m c :
  no_strays m → join_succeeds c = true → no_strays (step TV_IP m c).
Proof.
  intros Hns Hj. destruct c as [sid a|timeout j|sio|t|e]; simpl in *.
  - destruct (is_running m) eqn:Hr.
    + rewrite start_monitor_running by exact Hr. exact Hns.
    + rewrite start_monitor_idle by exact Hr.
      intros i th Hi Halive. simpl in *.
      apply lookup_app_Some in Hi as [Hi|[Hge Hi]].
      * pose proof (Hns i th Hi Halive) as Ht.
        pose proof (not_running_tracked_dead m i th Hr Ht Hi). congruence.
      * apply list_lookup_singleton_Some in Hi as [Hi _]. f_equal. lia.
  - subst j.
    destruct (is_running m) eqn:Hr.
    2:{ rewrite stop_monitor_idle by exact Hr. exact Hns. }
    unfold is_running in Hr. unfold stop_monitor.
    destruct (_monitor_thread m) as [t|] eqn:Ht; [|discriminate].
    rewrite Hr. simpl.
    intros i th Hi Halive. exfalso.
    assert (Hi' : alter (fun th => {| t_session_id := t_session_id th;
                                      t_app := t_app th;
                                      t_stop_event := t_stop_event th;
                                      t_alive := false |}) t (threads m) !! i = Some th).
    { destruct (_stop_event m);
        match type of Hi with context [if ?b then _ else _] => destruct b end;
        exact Hi. }
    clear Hi. rewrite list_lookup_alter in Hi'.
    destruct (decide (t = i)) as [->|Hne].
    + destruct (threads m !! i) as [th1|]; [|discriminate].
      simpl in Hi'. injection Hi' as <-. discriminate Halive.
    + pose proof (Hns i th Hi' Halive). congruence.
  - exact Hns.
  - intros i th Hi Halive. simpl in *.
    rewrite list_lookup_alter in Hi.
    destruct (decide (t = i)) as [->|Hne].
    + destruct (threads m !! i) as [th1|]; [|discriminate].
      simpl in Hi. injection Hi as <-. discriminate Halive.
    + apply (Hns i th Hi Halive).
  - exact Hns.
Qed.

Lemma no_strays_run TV_IP calls m :
  no_strays m → forallb join_succeeds calls = true → no_strays (run TV_IP calls m).
Proof.
  revert m. induction calls as [|c calls IH]; intros m Hns Hj; [exact Hns|].
  simpl in Hj. apply andb_prop in Hj as [Hc Hj].
  simpl. apply IH; [apply no_strays_step; assumption|exact Hj].
Qed.

Lemma no_strays_running m :
  no_strays m → live_threads m ≠ [] → is_running m = true.
Proof.
  intros Hns Hlive.
  destruct (is_running m) eqn:Hr; [reflexivity|].
  exfalso. apply Hlive. unfold live_threads.
  apply filter_none. intros i th Hi Halive.
  pose proof (Hns i th Hi Halive) as Ht.
  pose proof (not_running_tracked_dead m i th Hr Ht Hi). congruence.
Qed.

Lemma no_strays_live_bound m :
  no_strays m → (length (live_threads m) ≤ 1)%nat.
Proof.
  intros Hns. unfold live_threads.
  destruct (_monitor_thread m) as [t|] eqn:Ht.
  - apply (filter_at_most_one _ _ t).
    intros i th Hi Halive. pose proof (Hns i th Hi Halive). congruence.
  - rewrite filter_none; [simpl; lia|].
    intros i th Hi Halive. pose proof (Hns i th Hi Halive). congruence.
Qed.

Lemma well_formed_uncancelled_bound m :
  well_formed m → (length (uncancelled_threads m) ≤ 1)%nat.
Proof.
  intros (Htok & Htr & Hst).
  unfold uncancelled_threads, live_threads. rewrite list_filter_filter.
  destruct (_monitor_thread m) as [t|] eqn:Ht.
  - apply (filter_at_most_one _ _ t).
    intros i th Hi [Hunset Halive].
    destruct (decide (i = t)) as [->|Hne]; [reflexivity|].
    rewrite (Hst i th Hi Halive) in Hunset by congruence. discriminate.
  - rewrite filter_none; [simpl; lia|].
    intros i th Hi [Hunset Halive].
    rewrite (Hst i th Hi Halive) in Hunset by congruence. discriminate.
Qed.

Lemma live_threads_after_start TV_IP sid a m :
  is_running m = false →
  live_threads (snd (start_monitor TV_IP sid a m)) =
  live_threads m ++ [ {| t_session_id := sid; t_app := a;
                         t_stop_event := length (events m); t_alive := true |} ].
Proof.
  intros Hr. rewrite start_monitor_idle by exact Hr.
  unfold live_threads. simpl. rewrite filter_app. reflexivity.
Qed.

(** ** Calls that overlap *)

Lemma live_threads_add_log lvl fmt args m :
  live_threads (add_log lvl fmt args m) = live_threads m.
Proof. reflexivity. Qed.

Lemma length_filter_alter_exit t (l : list thread) :
  length (filter (fun th => t_alive th = true)
            (alter (fun th => {| t_session_id := t_session_id th; t_app := t_app th;
                                 t_stop_event := t_stop_event th; t_alive := false |}) t l)) =
  (length (filter (fun th => t_alive th = true) l) -
   match l !! t with Some th => if t_alive th then 1 else 0 | None => 0 end)%nat.
Proof.
  revert t. induction l as [|x l IH]; intros t; [destruct t; reflexivity|].
  destruct t as [|t]; cbn [alter list_alter lookup list_lookup].
  - rewrite !filter_cons. cbn. destruct (t_alive x) eqn:Hx; cbn.
    + destruct (decide (false = true)); [discriminate|].
      destruct (decide (true = true)); [|contradiction]. cbn. lia.
    + destruct (decide (false = true)); [discriminate|]. lia.
  - rewrite !filter_cons. cbn. specialize (IH t).
    destruct (decide (t_alive x = true)); cbn; [|exact IH].
    rewrite IH. destruct (l !! t) as [th|] eqn:Hl; [|lia].
    destruct (t_alive th) eqn:Ha; [|lia].
    assert (1 ≤ length (filter (fun th => t_alive th = true) l))%nat; [|lia].
    apply lookup_lt_Some in Hl as Hlt.
    assert (Hin : th ∈ filter (fun th => t_alive th = true) l).
    { apply list_elem_of_filter. split; [exact Ha|]. apply list_elem_of_lookup. eauto. }
    destruct (filter _ l); [apply elem_of_nil in Hin; contradiction|cbn; lia].
Qed.

Lemma live_after_exit t m :
  length (live_threads (thread_exit t m)) =
  (length (live_threads m) - if is_alive m t then 1 else 0)%nat.
Proof.
  unfold live_threads, thread_exit, is_alive. cbn [threads].
  rewrite length_filter_alter_exit. destruct (threads m !! t); reflexivity.
Qed.

Lemma is_alive_thread_exit t m i :
  is_alive (thread_exit t m) i = is_alive m i && negb (Nat.eqb i t).
Proof.
  unfold is_alive, thread_exit. cbn [threads].
  destruct (Nat.eqb_spec i t) as [->|Hne].
  - rewrite list_lookup_alter_eq. rewrite andb_false_r.
    destruct (threads m !! t); reflexivity.
  - rewrite list_lookup_alter_ne by congruence. rewrite andb_true_r. reflexivity.
Qed.

Lemma running_has_live m :
  is_running m = true → (1 ≤ length (live_threads m))%nat.
Proof.
  unfold is_running, is_alive. destruct (_monitor_thread m) as [t|]; [|discriminate].
  destruct (threads m !! t) as [th|] eqn:Hl; [|discriminate]. intros Ha.
  assert (Hin : th ∈ live_threads m).
  { apply list_elem_of_filter. split; [exact Ha|]. apply list_elem_of_lookup. eauto. }
  destruct (live_threads m); [apply elem_of_nil in Hin; contradiction|cbn; lia].
Qed.

Lemma stop_frames_keep_threads TV_IP p a :
  (∀ c, a ≠ Whole c) →
  threads (mon (act TV_IP p a)) = threads (mon p) ∧
  (_monitor_thread (mon (act TV_IP p a)) = _monitor_thread (mon p) ∨
   (∃ k t, a = StopClear k ∧ stops p !! k = Some (AtClear t) ∧
           _monitor_thread (mon (act TV_IP p a)) = None)).
Proof.
  intros Hw. destruct a as [c| |k|k|k timeout|k]; cbn [act].
  - destruct (Hw c eq_refl).
  - auto.
  - unfold stop_check. destruct (stops p !! k) as [[th ev|? ?|?|?|]|]; auto.
    destruct th as [t|]; [destruct (is_alive (mon p) t)|]; auto.
  - unfold stop_signal. destruct (stops p !! k) as [[th ev|? ev|?|?|]|]; auto.
    destruct ev; auto.
  - unfold stop_joined. destruct (stops p !! k) as [[th ev|? ev|t|?|]|]; auto.
    destruct (is_alive (mon p) t); auto.
  - unfold stop_clear. destruct (stops p !! k) as [[th ev|? ev|?|t|]|] eqn:Hk; auto.
    split; [reflexivity|]. right. exists k, t. auto.
Qed.

Lemma orphans_tracked_kept TV_IP p a :
  _monitor_thread (mon (act TV_IP p a)) = _monitor_thread (mon p) →
  orphans TV_IP p a = false.
Proof.
  intros H. unfold orphans. destruct (_monitor_thread (mon p)) as [t|]; [|reflexivity].
  rewrite H, bool_decide_eq_true_2 by reflexivity. apply andb_false_r.
Qed.

Lemma bounded_by_same n p p' :
  threads (mon p') = threads (mon p) →
  _monitor_thread (mon p') = _monitor_thread (mon p) →
  bounded_by n p → bounded_by n p'.
Proof.
  unfold bounded_by, live_threads, is_running, is_alive. intros -> ->. auto.
Qed.

Lemma act_bounded TV_IP n p a :
  bounded_by n p →
  bounded_by (n + if orphans TV_IP p a then 1 else 0) (act TV_IP p a).
Proof.
  intros Hb.
  assert (Hstop : (∀ c, a ≠ Whole c) →
                  bounded_by (n + if orphans TV_IP p a then 1 else 0) (act TV_IP p a)).
  { intros Hw'.
    destruct (stop_frames_keep_threads TV_IP p a Hw') as [Hthr [Htr|(k & t & -> & Hk & Hnone)]].
    + rewrite orphans_tracked_kept by exact Htr. rewrite Nat.add_0_r.
      revert Hb. apply bounded_by_same; assumption.
    + unfold bounded_by, orphans, live_threads, is_running, is_alive in *.
      rewrite Hthr, Hnone.
      destruct (_monitor_thread (mon p)) as [t0|]; [|lia].
      rewrite bool_decide_eq_false_2 by discriminate. cbn [negb]. rewrite andb_true_r.
      destruct (threads (mon p) !! t0) as [th|]; [destruct (t_alive th)|]; lia. }
  destruct a as [c| |k|k|k timeout|k]; try (apply Hstop; discriminate). clear Hstop.
  - destruct c as [sid ap|timeout j|sio|t|e].
    + (* start *)
      cbn [act step mon].
      destruct (is_running (mon p)) eqn:Hr.
      * rewrite orphans_tracked_kept
          by (cbn [act step mon]; rewrite start_monitor_running by exact Hr; reflexivity).
        rewrite Nat.add_0_r. revert Hb. apply bounded_by_same;
          cbn [mon]; rewrite start_monitor_running by exact Hr; reflexivity.
      * unfold bounded_by in *. cbn [mon]. rewrite Hr in Hb.
        rewrite is_running_after_start, live_threads_after_start by exact Hr.
        rewrite length_app. cbn. lia.
    + (* a stop that nothing overlaps *)
      unfold bounded_by in *. cbn [act step mon].
      destruct (is_running (mon p)) eqn:Hr.
      * assert (Hafter : is_running (stop_monitor timeout j (mon p)) = false).
        { unfold is_running, stop_monitor. unfold is_running in Hr.
          destruct (_monitor_thread (mon p)) as [t|]; [|discriminate]. rewrite Hr. cbn [negb].
          destruct (_stop_event (mon p)), j;
            match goal with |- context [if ?b then _ else _] => destruct b end; reflexivity. }
        rewrite Hafter.
        unfold orphans. cbn [act step mon]. unfold is_running in Hr.
        destruct (_monitor_thread (mon p)) as [t|] eqn:Ht; [|discriminate].
        assert (Hthr : threads (stop_monitor timeout j (mon p)) =
                       threads (if j then thread_exit t (mon p) else mon p) ∧
                       _monitor_thread (stop_monitor timeout j (mon p)) = None).
        { unfold stop_monitor. rewrite Ht, Hr. cbn [negb].
          destruct (_stop_event (mon p)), j;
            match goal with |- context [if ?b then _ else _] => destruct b end;
            split; reflexivity. }
        destruct Hthr as [Hthr Hnone].
        unfold live_threads, is_alive. rewrite Hthr, Hnone.
        rewrite bool_decide_eq_false_2 by discriminate. cbn [negb]. rewrite andb_true_r.
        destruct j.
        -- pose proof (live_after_exit t (mon p)) as Hl. unfold live_threads in Hl.
           rewrite Hl, Hr.
           pose proof (is_alive_thread_exit t (mon p) t) as Ha. unfold is_alive in Ha.
           rewrite Ha, Nat.eqb_refl, andb_false_r. unfold live_threads in Hb. lia.
        -- unfold is_alive in Hr. rewrite Hr. unfold live_threads in Hb. lia.
      * rewrite orphans_tracked_kept
          by (cbn [act step mon]; rewrite stop_monitor_idle by exact Hr; reflexivity).
        rewrite stop_monitor_idle by exact Hr.
        change (is_running (add_log DEBUG "Packet monitor not running — nothing to stop" []
                              (mon p))) with (is_running (mon p)).
        rewrite Hr.
        cbn. unfold live_threads in *. cbn. lia.
    + rewrite orphans_tracked_kept by reflexivity. rewrite Nat.add_0_r.
      revert Hb. apply bounded_by_same; reflexivity.
    + (* a thread ends *)
      rewrite orphans_tracked_kept by reflexivity. rewrite Nat.add_0_r.
      unfold bounded_by in *. cbn [act step mon].
      rewrite live_after_exit.
      unfold is_running in *. cbn [thread_exit _monitor_thread].
      destruct (_monitor_thread (mon p)) as [t0|].
      * rewrite is_alive_thread_exit.
        destruct (Nat.eqb_spec t0 t) as [->|Hne].
        -- rewrite andb_false_r. destruct (is_alive (mon p) t); lia.
        -- rewrite andb_true_r. destruct (is_alive (mon p) t0), (is_alive (mon p) t); lia.
      * lia.
    + rewrite orphans_tracked_kept by reflexivity. rewrite Nat.add_0_r.
      revert Hb. apply bounded_by_same; reflexivity.
Qed.

Lemma interleave_bounded TV_IP h n p :
  bounded_by n p →
  bounded_by (n + orphanings TV_IP h p) (interleave TV_IP h p).
Proof.
  unfold interleave. revert n p. induction h as [|a h IH]; intros n p Hb; cbn.
  - rewrite Nat.add_0_r. exact Hb.
  - rewrite Nat.add_assoc. apply IH. apply act_bounded, Hb.
Qed.

Lemma bounded_by_boot : bounded_by 0 boot.
Proof. unfold bounded_by. cbn. lia. Qed.








Lemma orphanings_app TV_IP h1 h2 p :
  orphanings TV_IP (h1 ++ h2) p =
  (orphanings TV_IP h1 p + orphanings TV_IP h2 (interleave TV_IP h1 p))%nat.
Proof.
  revert p. induction h1 as [|a h1 IH]; intros p; [reflexivity|].
  simpl. rewrite IH. unfold interleave. lia.
Qed.

Lemma spared_keeps_running TV_IP t mid p :
  _monitor_thread (mon p) = Some t → is_alive (mon p) t = true →
  forallb (spares t) mid = true →
  _monitor_thread (mon (interleave TV_IP mid p)) = Some t ∧
  is_alive (mon (interleave TV_IP mid p)) t = true.
Proof.
  unfold interleave. revert p.
  induction mid as [|a mid IH]; intros p Ht Ha Hs; [auto|].
  cbn [forallb] in Hs. apply andb_prop in Hs as [Hsa Hs].
  cbn [fold_left]. apply IH; [| |exact Hs].
  - destruct a as [c| |k|k|k timeout|k];
      try (match goal with
           | |- context [act _ p ?a0] =>
               destruct (stop_frames_keep_threads TV_IP p a0 ltac:(discriminate))
                 as [_ [Htr|(k' & t' & Heq & _)]]
           end; [congruence|discriminate Heq]);
      try discriminate Hsa.
    + destruct c as [sid ap|timeout j|sio|t'|e]; try exact Ht; [|discriminate Hsa].
      cbn [act step mon]. rewrite start_monitor_running; [exact Ht|].
      unfold is_running. rewrite Ht. exact Ha.
  - destruct a as [c| |k|k|k timeout|k];
      try (match goal with
           | |- context [act _ p ?a0] =>
               destruct (stop_frames_keep_threads TV_IP p a0 ltac:(discriminate))
                 as [Hthr _]
           end; unfold is_alive in *; rewrite Hthr; exact Ha);
      try discriminate Hsa.
    + destruct c as [sid ap|timeout j|sio|t'|e]; try exact Ha; try discriminate Hsa.
      * cbn [act step mon]. rewrite start_monitor_running; [exact Ha|].
        unfold is_running. rewrite Ht. exact Ha.
      * cbn [act step mon]. rewrite is_alive_thread_exit, Ha.
        cbn [spares] in Hsa. rewrite Nat.eqb_sym. exact Hsa.
Qed.

(** C1 as stated fails: after a stop whose join timed out the first capture
    thread is still alive, and the next start is accepted beside it. *)
Lemma start_accepted_beside_live_thread :
  length (live_threads (run "203.0.113.50" [Start 7 0%nat; Stop 50 false] init)) = 1%nat ∧
  fst (start_monitor "203.0.113.50" 8 0%nat
         (run "203.0.113.50" [Start 7 0%nat; Stop 50 false] init)) = true ∧
  length (live_threads (snd (start_monitor "203.0.113.50" 8 0%nat
         (run "203.0.113.50" [Start 7 0%nat; Stop 50 false] init)))) = 2%nat ∧
  ¬ rejected "203.0.113.50" 8 0%nat
      (run "203.0.113.50" [Start 7 0%nat; Stop 50 false] init).
Proof.
  repeat split; try reflexivity.
  intros [H _]. discriminate H.
Qed.

(** C1, amended. Start is idempotent by rejection with respect to the
    thread the module refers to: a call made while the thread held in
    [_monitor_thread] is alive ([is_running]) returns false and changes
    nothing but the log; a call made when that is not so returns true and
    spawns exactly one new, live capture thread, which becomes the one
    referred to.  After a start, every further start is refused for as
    long as that thread has not ended and no [stop_monitor] call has
    cleared the handle, whatever else happens in between, steps of
    overlapping stops included; once the thread has ended the next start
    is accepted, so that two starts in a row are both accepted when the
    first thread ends between them.  In a history, overlapping calls included, in which no
    stop has dropped the handle of a thread that was still alive, a start
    made while any capture thread is alive is refused, and right after
    every start exactly one capture thread is alive. *)
Theorem start_idempotent_by_rejection TV_IP sid a m :
  (is_running m = true →
     start_monitor TV_IP sid a m =
     (false, add_log WARNING "Packet monitor already running — ignoring start request" [] m) ∧
     rejected TV_IP sid a m) ∧
  (is_running m = false →
     fst (start_monitor TV_IP sid a m) = true ∧
     threads (snd (start_monitor TV_IP sid a m)) =
       threads m ++ [ {| t_session_id := sid; t_app := a;
                         t_stop_event := length (events m); t_alive := true |} ] ∧
     live_threads (snd (start_monitor TV_IP sid a m)) =
       live_threads m ++ [ {| t_session_id := sid; t_app := a;
                              t_stop_event := length (events m); t_alive := true |} ] ∧
     _monitor_thread (snd (start_monitor TV_IP sid a m)) = Some (length (threads m))) ∧
  (∀ p, mon p = snd (start_monitor TV_IP sid a m) →
     ∃ t, _monitor_thread (mon p) = Some t ∧
          (∀ mid sid' a',
             forallb (spares t) mid = true →
             rejected TV_IP sid' a' (mon (interleave TV_IP mid p))) ∧
          (∀ sid' a',
             fst (start_monitor TV_IP sid' a' (thread_exit t (mon p))) = true)) ∧
  (∀ h, m = mon (interleave TV_IP h boot) → orphanings TV_IP h boot = 0%nat →
     (live_threads m ≠ [] → rejected TV_IP sid a m) ∧
     length (live_threads (snd (start_monitor TV_IP sid a m))) = 1%nat).
Proof.
  assert (Hrej : ∀ m0 sid0 a0, is_running m0 = true → rejected TV_IP sid0 a0 m0).
  { intros m0 sid0 a0 Hr. unfold rejected.
    rewrite start_monitor_running by exact Hr. split; reflexivity. }
  split; [|split; [|split]].
  - intros Hr. split; [apply start_monitor_running, Hr|apply Hrej, Hr].
  - intros Hr. split; [|split; [|split]].
    + rewrite start_monitor_idle by exact Hr. reflexivity.
    + rewrite start_monitor_idle by exact Hr. reflexivity.
    + apply live_threads_after_start, Hr.
    + rewrite start_monitor_idle by exact Hr. reflexivity.
  - intros p Hp.
    pose proof (is_running_after_start TV_IP sid a m) as Hr. rewrite <- Hp in Hr.
    unfold is_running in Hr.
    destruct (_monitor_thread (mon p)) as [t|] eqn:Ht; [|discriminate].
    exists t. split; [reflexivity|]. split.
    + intros mid sid' a' Hs.
      destruct (spared_keeps_running TV_IP t mid p Ht Hr Hs) as [Ht' Ha'].
      apply Hrej. unfold is_running. rewrite Ht'. exact Ha'.
    + intros sid' a'. rewrite start_monitor_idle; [reflexivity|].
      unfold is_running. cbn [thread_exit _monitor_thread]. rewrite Ht.
      rewrite is_alive_thread_exit, Nat.eqb_refl. apply andb_false_r.
  - intros h -> H0.
    pose proof (interleave_bounded TV_IP h 0 boot bounded_by_boot) as Hb.
    unfold bounded_by in Hb. rewrite H0 in Hb. cbn [Nat.add] in Hb.
    destruct (is_running (mon (interleave TV_IP h boot))) eqn:Hr.
    + split; [intros _; apply Hrej, Hr|].
      rewrite start_monitor_running by exact Hr. cbn [snd].
      pose proof (running_has_live _ Hr) as Hl.
      change (live_threads (add_log _ _ _ ?x)) with (live_threads x). lia.
    + split.
      * intros Hne. exfalso. apply Hne.
        destruct (live_threads _); [reflexivity|cbn in Hb; lia].
      * rewrite live_threads_after_start by exact Hr. rewrite length_app. cbn. lia.
Qed.

(** C1 from the initial state: the first start is accepted; a second
    start is refused even while a stop is waiting in its join; one capture
    thread is alive. *)
Lemma start_idempotent_by_rejection_witness :
  fst (start_monitor "203.0.113.50" 7 0%nat init) = true ∧
  rejected "203.0.113.50" 8 0%nat
    (mon (interleave "203.0.113.50" [StopEnter; StopCheck 0; StopSignal 0; StopJoined 0 50]
            {| mon := snd (start_monitor "203.0.113.50" 7 0%nat init); stops := [] |})) ∧
  length (live_threads (snd (start_monitor "203.0.113.50" 7 0%nat init))) = 1%nat.
Proof.
  split; [|split].
  - apply (proj1 (proj2 (start_idempotent_by_rejection "203.0.113.50" 7 0%nat init))).
    reflexivity.
  - destruct (proj1 (proj2 (proj2 (start_idempotent_by_rejection "203.0.113.50" 7 0%nat init)))
                {| mon := snd (start_monitor "203.0.113.50" 7 0%nat init); stops := [] |}
                eq_refl) as (t & Ht & H & _).
    apply H. injection Ht as <-. reflexivity.
  - apply (proj2 (proj2 (proj2 (proj2 (start_idempotent_by_rejection "203.0.113.50" 7 0%nat init)))
                    [] eq_refl eq_refl)).
Defined.

(** C7 as stated fails: after a start and a completed stop the monitor is
    not running and the stored session id is still that of the start. *)
Lemma session_kept_after_stop :
  is_running (run "203.0.113.50" [Start 7 0%nat; Stop 50 true] init) = false ∧
  _current_session_id (run "203.0.113.50" [Start 7 0%nat; Stop 50 true] init) = Some 7 ∧
  ¬ (_current_session_id (run "203.0.113.50" [Start 7 0%nat; Stop 50 true] init) ≠ None ↔
     is_running (run "203.0.113.50" [Start 7 0%nat; Stop 50 true] init) = true).
Proof.
  split; [reflexivity|]. split; [reflexivity|].
  intros [H _]. simpl in H. discriminate H. discriminate.
Qed.

(** C7, amended. At every point of every history, if the monitor is running
    then the stored session id is non-null, and it is the session id the
    running capture thread was started with.  The converse does not hold:
    neither [stop_monitor] nor the end of a capture thread touches the
    stored session id, which stays until the next accepted start
    overwrites it. *)
Theorem running_implies_session TV_IP calls :
  (is_running (run TV_IP calls init) = true →
     ∃ t th, _monitor_thread (run TV_IP calls init) = Some t ∧
             threads (run TV_IP calls init) !! t = Some th ∧
             _current_session_id (run TV_IP calls init) = Some (t_session_id th)) ∧
  (∀ timeout j,
     _current_session_id (stop_monitor timeout j (run TV_IP calls init)) =
     _current_session_id (run TV_IP calls init)) ∧
  (∀ t,
     _current_session_id (thread_exit t (run TV_IP calls init)) =
     _current_session_id (run TV_IP calls init)) ∧
  (∀ sid a,
     is_running (run TV_IP calls init) = false →
     _current_session_id (snd (start_monitor TV_IP sid a (run TV_IP calls init))) = Some sid).
Proof.
  pose proof (well_formed_run TV_IP calls init well_formed_init) as (Htok & Htr & Hst).
  set (m := run TV_IP calls init) in *.
  split; [|split; [|split]].
  - unfold is_running. intros Hr.
    destruct (_monitor_thread m) as [t|] eqn:Ht; [|discriminate].
    destruct (Htr t Ht) as (th & Hl & He & Hs & Ha).
    exists t, th. auto.
  - intros timeout j. unfold stop_monitor.
    destruct (_monitor_thread m) as [t|]; [|reflexivity].
    destruct (is_alive m t); simpl; [|reflexivity].
    destruct (_stop_event m), j; simpl;
      match goal with |- context [if ?b then _ else _] => destruct b end;
      reflexivity.
  - intros t. reflexivity.
  - intros sid a Hr. rewrite start_monitor_idle by exact Hr. reflexivity.
Qed.

Lemma running_implies_session_witness :
  is_running (run "203.0.113.50" [Start 7 0%nat] init) = true ∧
  ∃ t th, _monitor_thread (run "203.0.113.50" [Start 7 0%nat] init) = Some t ∧
          threads (run "203.0.113.50" [Start 7 0%nat] init) !! t = Some th ∧
          _current_session_id (run "203.0.113.50" [Start 7 0%nat] init) =
            Some (t_session_id th).
Proof.
  split; [reflexivity|].
  apply (proj1 (running_implies_session "203.0.113.50" [Start 7 0%nat])).
  reflexivity.
Defined.


(** A start that falls into the join of a stop is orphaned with its token
    unset, and the next start is accepted beside it: two live threads that
    have not been told to stop, although the joined thread ended in time. *)
Lemma start_during_join_is_orphaned :
  log (mon (interleave "203.0.113.50"
              [Whole (Start 7 0%nat); StopEnter; StopCheck 0; StopSignal 0;
               Whole (ThreadExit 0); Whole (Start 8 0%nat);
               StopJoined 0 50; StopClear 0] boot)) =
  [ELog INFO "Packet monitor started (session_id=%d, TV_IP=%s)" ["7"; "203.0.113.50"];
   ELog INFO "Stopping packet monitor..." [];
   ELog INFO "Packet monitor started (session_id=%d, TV_IP=%s)" ["8"; "203.0.113.50"];
   ELog INFO "Packet monitor stopped cleanly" []] ∧
  is_running (mon (interleave "203.0.113.50"
              [Whole (Start 7 0%nat); StopEnter; StopCheck 0; StopSignal 0;
               Whole (ThreadExit 0); Whole (Start 8 0%nat);
               StopJoined 0 50; StopClear 0] boot)) = false ∧
  length (live_threads (mon (interleave "203.0.113.50"
              [Whole (Start 7 0%nat); StopEnter; StopCheck 0; StopSignal 0;
               Whole (ThreadExit 0); Whole (Start 8 0%nat);
               StopJoined 0 50; StopClear 0] boot))) = 1%nat ∧
  length (uncancelled_threads (mon (interleave "203.0.113.50"
              [Whole (Start 7 0%nat); StopEnter; StopCheck 0; StopSignal 0;
               Whole (ThreadExit 0); Whole (Start 8 0%nat);
               StopJoined 0 50; StopClear 0; Whole (Start 9 0%nat)] boot))) = 2%nat.
Proof. repeat split. Qed.




(** * Properties of the capture loop *)

Lemma while_loop_cancelled sio sid a tok filt script ev s :
  is_set ev tok = true →
  while_loop sio sid a tok filt script ev s = (Stopped, (ev, s)).
Proof. intros H. destruct script; simpl; rewrite H; reflexivity. Qed.

Lemma while_loop_step sio sid a tok filt sl rest ev s :
  is_set ev tok = false →
  while_loop sio sid a tok filt (sl :: rest) ev s =
  match sniff filt (prn sio sid a) (fun ev' => is_set ev' tok) 1 sl ev
          (run_unit (logger DEBUG "Starting scapy.sniff() with filter=%r"
                       [py_repr filt]) s) with
  | (Ok _, (ev1, s2)) => while_loop sio sid a tok filt rest ev1 s2
  | (Raise exc, (ev1, s2)) =>
      if is_PermissionError exc then
        (Stopped,
         (ev1, run_unit (logger ERROR
           "Scapy requires root privileges to capture packets on macOS. Run the server with: sudo python app.py"
           []) s2))
      else if is_set ev1 tok then (Stopped, (ev1, s2))
      else
        while_loop sio sid a tok filt rest (set_all (sl_sleep_sets sl) ev1)
          (run_unit (logger ERROR "Scapy sniff error: %s — retrying in 2s"
                       [exn_str exc] >>> tell (ESleep 2)) s2)
  end.
Proof. intros H. simpl. rewrite H. reflexivity. Qed.

Lemma sniff_failing filt p stopf exc ev s :
  sniff filt p stopf 1 (failing exc) ev s =
  (Raise exc, (ev, {| db := db s; trace := trace s ++ [ESniff filt 1] |})).
Proof. reflexivity. Qed.

Lemma while_loop_retries sio sid a tok filt exc n ev s :
  is_PermissionError exc = false →
  is_set ev tok = false →
  while_loop sio sid a tok filt (repeat (failing exc) n) ev s =
  (Blocked,
   (ev, {| db := db s;
           trace := trace s ++ concat (repeat (retry_round filt exc) n) |})).
Proof.
  intros Hexc Hev. revert s.
  induction n as [|n IH]; intros s.
  - simpl. rewrite Hev, app_nil_r. destruct s; reflexivity.
  - cbn [repeat]. rewrite while_loop_step by exact Hev.
    rewrite sniff_failing. rewrite Hexc, Hev. cbn [failing sl_sleep_sets set_all foldr].
    rewrite IH. simpl. rewrite <- !app_assoc. reflexivity.
Qed.

(** C3. Error policy of the capture loop, at any turn of the loop that
    calls the capture primitive (the token is not set at the loop head) and
    sees it raise [exc].  A permission error: the loop logs one error record
    and is Stopped, whatever the rest of the script offers.  Another
    exception with the token still unset: the loop logs the error, sleeps 2,
    and is back at the head of the loop with the rest of the script; with
    the token set instead it is Stopped at once, without sleeping.  The
    retries are not counted: n failures in a row, the token never set, give
    n capture calls, n sleeps of 2, and a loop that is still running. *)
Theorem capture_loop_error_policy sio sid a tok filt sl rest ev s exc ev1 s2 :
  is_set ev tok = false →
  sniff filt (prn sio sid a) (fun ev' => is_set ev' tok) 1 sl ev
    (run_unit (logger DEBUG "Starting scapy.sniff() with filter=%r" [py_repr filt]) s)
    = (Raise exc, (ev1, s2)) →
  (is_PermissionError exc = true →
     while_loop sio sid a tok filt (sl :: rest) ev s =
     (Stopped,
      (ev1, {| db := db s2;
               trace := trace s2 ++
                 [ELog ERROR
                    "Scapy requires root privileges to capture packets on macOS. Run the server with: sudo python app.py"
                    []] |}))) ∧
  (is_PermissionError exc = false → is_set ev1 tok = false →
     while_loop sio sid a tok filt (sl :: rest) ev s =
     while_loop sio sid a tok filt rest (set_all (sl_sleep_sets sl) ev1)
       {| db := db s2;
          trace := trace s2 ++
            [ELog ERROR "Scapy sniff error: %s — retrying in 2s" [exn_str exc];
             ESleep 2] |}) ∧
  (is_PermissionError exc = false → is_set ev1 tok = true →
     while_loop sio sid a tok filt (sl :: rest) ev s = (Stopped, (ev1, s2))) ∧
  (is_PermissionError exc = false →
     ∀ n ev0 s0, is_set ev0 tok = false →
       while_loop sio sid a tok filt (repeat (failing exc) n) ev0 s0 =
       (Blocked,
        (ev0, {| db := db s0;
                 trace := trace s0 ++ concat (repeat (retry_round filt exc) n) |}))).
Proof.
  intros Hev Hsniff.
  split; [|split; [|split]].
  - intros Hexc. rewrite while_loop_step by exact Hev.
    rewrite Hsniff, Hexc. reflexivity.
  - intros Hexc Hev1. rewrite while_loop_step by exact Hev.
    rewrite Hsniff, Hexc, Hev1. unfold run_unit, logger, tell, bind. simpl.
    rewrite <- app_assoc. reflexivity.
  - intros Hexc Hev1. rewrite while_loop_step by exact Hev.
    rewrite Hsniff, Hexc, Hev1. reflexivity.
  - intros Hexc n ev0 s0 Hev0. apply while_loop_retries; assumption.
Qed.

(** C3 on a run of the whole thread body: the capture primitive refuses
    with a permission error, and the loop ends after one error record, one
    capture call and no sleep, although the script offers more. *)
Lemma capture_loop_error_policy_witness :
  is_set [false; false] 1 = false ∧
  _capture_loop true "203.0.113.50" (Some 0%nat) 7 0%nat 1
    [failing (PermissionError "Operation not permitted");
     failing (OtherException "never reached")]
    [false; false] fresh =
  (Stopped,
   ([false; false],
    {| db := empty_db;
       trace :=
         [ ELog INFO "Packet capture BPF filter: %r" ["'host 203.0.113.50'"];
           ELog DEBUG "Starting scapy.sniff() with filter=%r" ["'host 203.0.113.50'"];
           ESniff "host 203.0.113.50" 1;
           ELog ERROR
             "Scapy requires root privileges to capture packets on macOS. Run the server with: sudo python app.py"
             [];
           ELog INFO "Packet capture loop exited" [] ] |})).
Proof.
  split; [reflexivity|].
  pose proof (proj1 (capture_loop_error_policy (Some 0%nat) 7 0%nat 1%nat
                    "host 203.0.113.50"
                    (failing (PermissionError "Operation not permitted"))
                    [failing (OtherException "never reached")]
                    [false; false]
                    (run_unit (logger INFO "Packet capture BPF filter: %r"
                                 [py_repr "host 203.0.113.50"]) fresh)
                    (PermissionError "Operation not permitted")
                    [false; false]
                    _ eq_refl eq_refl) eq_refl) as H.
  unfold _capture_loop. cbn [negb]. cbv zeta.
  change ("host " +:+ "203.0.113.50") with "host 203.0.113.50".
  rewrite H. reflexivity.
Defined.

(** ** A loop reads no token but its own *)

Lemma agree_on_refl tok ev : agree_on tok ev ev.
Proof. split; reflexivity. Qed.

Lemma agree_on_event_set tok e ev ev' :
  agree_on tok ev ev' → agree_on tok (event_set e ev) (event_set e ev').
Proof.
  intros [Hlen Hset]. split.
  - rewrite !length_event_set. exact Hlen.
  - unfold is_set, event_set in *. rewrite !list_lookup_insert.
    rewrite Hlen.
    destruct (decide (e = tok ∧ (e < length ev')%nat)); [reflexivity|exact Hset].
Qed.

Lemma agree_on_stale tok e ev ev' :
  e ≠ tok → agree_on tok ev ev' → agree_on tok (event_set e ev) ev'.
Proof.
  intros Hne [Hlen Hset]. split.
  - rewrite length_event_set. exact Hlen.
  - rewrite is_set_event_set_ne by exact Hne. exact Hset.
Qed.

Lemma agree_on_set_all tok es ev ev' :
  agree_on tok ev ev' → agree_on tok (set_all es ev) (set_all es ev').
Proof.
  intros H. induction es as [|e es IH]; [exact H|].
  simpl. apply agree_on_event_set, IH.
Qed.

Lemma agree_on_set_all_stale tok e es ev ev' :
  e ≠ tok → agree_on tok ev ev' → agree_on tok (set_all (e :: es) ev) (set_all es ev').
Proof.
  intros Hne H. simpl. apply agree_on_stale; [exact Hne|].
  apply agree_on_set_all, H.
Qed.

Lemma sniff_frames_stale tok e p frames ev ev' s :
  e ≠ tok → agree_on tok ev ev' →
  ∃ r ev1 ev1' s1,
    sniff_frames p (fun x => is_set x tok) (map (stale_arrival e) frames) ev s
      = (r, (ev1, s1)) ∧
    sniff_frames p (fun x => is_set x tok) frames ev' s = (r, (ev1', s1)) ∧
    agree_on tok ev1 ev1'.
Proof.
  intros Hne. revert ev ev' s.
  induction frames as [|f rest IH]; intros ev ev' s Hag.
  - simpl. eauto 10.
  - cbn [map sniff_frames stale_arrival a_sets a_env a_packet].
    pose proof (agree_on_set_all_stale tok e (a_sets f) ev ev' Hne Hag) as Hag1.
    destruct (p (a_env f) (a_packet f) s) as [[u|exc] s1].
    + destruct Hag1 as [Hlen Hset]. rewrite Hset.
      destruct (is_set (set_all (a_sets f) ev') tok) eqn:Hstop.
      * do 4 eexists. split; [reflexivity|]. split; [reflexivity|].
        split; [exact Hlen|]. congruence.
      * apply IH. split; [exact Hlen|]. congruence.
    + do 4 eexists. split; [reflexivity|]. split; [reflexivity|]. exact Hag1.
Qed.

Lemma sniff_stale tok e filt p sl ev ev' s :
  e ≠ tok → agree_on tok ev ev' →
  ∃ r ev1 ev1' s1,
    sniff filt p (fun x => is_set x tok) 1 (stale_slice e sl) ev s = (r, (ev1, s1)) ∧
    sniff filt p (fun x => is_set x tok) 1 sl ev' s = (r, (ev1', s1)) ∧
    agree_on tok ev1 ev1'.
Proof.
  intros Hne Hag. unfold sniff.
  cbn [stale_slice sl_arrivals sl_sets sl_end].
  destruct (sniff_frames_stale tok e p (sl_arrivals sl) ev ev'
              (run_unit (tell (ESniff filt 1)) s) Hne Hag)
    as (r & ev1 & ev1' & s1 & H1 & H2 & Hag1).
  rewrite H1, H2.
  destruct r as [[|]|exc].
  - do 4 eexists. split; [reflexivity|]. split; [reflexivity|]. exact Hag1.
  - pose proof (agree_on_set_all_stale tok e (sl_sets sl) ev1 ev1' Hne Hag1) as Hag2.
    destruct (sl_end sl) as [|exc];
      do 4 eexists; (split; [reflexivity|]); (split; [reflexivity|]); exact Hag2.
  - do 4 eexists. split; [reflexivity|]. split; [reflexivity|]. exact Hag1.
Qed.

(** Events other than its own token, set before or while the loop runs,
    change nothing of what the loop does. *)
Lemma while_loop_stale sio sid a tok filt e script ev ev' s :
  e ≠ tok → agree_on tok ev ev' →
  outcome (while_loop sio sid a tok filt (map (stale_slice e) script) ev s) =
  outcome (while_loop sio sid a tok filt script ev' s).
Proof.
  intros Hne. revert ev ev' s.
  induction script as [|sl rest IH]; intros ev ev' s Hag.
  - destruct Hag as [Hlen Hset]. simpl. rewrite Hset.
    destruct (is_set ev' tok); reflexivity.
  - destruct (is_set ev' tok) eqn:Hhead.
    + rewrite !while_loop_cancelled; [reflexivity|exact Hhead|].
      destruct Hag as [_ ->]. exact Hhead.
    + cbn [map]. rewrite !while_loop_step;
        [|exact Hhead|destruct Hag as [_ ->]; exact Hhead].
      destruct (sniff_stale tok e filt (prn sio sid a) sl ev ev'
                  (run_unit (logger DEBUG "Starting scapy.sniff() with filter=%r"
                               [py_repr filt]) s) Hne Hag)
        as (r & ev1 & ev1' & s1 & H1 & H2 & Hag1).
      rewrite H1, H2.
      destruct r as [u|exc].
      * apply IH, Hag1.
      * destruct (is_PermissionError exc); [reflexivity|].
        destruct Hag1 as [Hlen Hset]. rewrite Hset.
        destruct (is_set ev1' tok) eqn:Hstop; [reflexivity|].
        apply IH. cbn [stale_slice sl_sleep_sets].
        apply agree_on_set_all_stale; [exact Hne|]. split; [exact Hlen|congruence].
Qed.

Lemma capture_loop_stale installed TV_IP sio sid a tok e script ev ev' s :
  e ≠ tok → agree_on tok ev ev' →
  outcome (_capture_loop installed TV_IP sio sid a tok (map (stale_slice e) script) ev s) =
  outcome (_capture_loop installed TV_IP sio sid a tok script ev' s).
Proof.
  intros Hne Hag. unfold _capture_loop.
  destruct installed; [|reflexivity]. cbn [negb]. cbv zeta.
  pose proof (while_loop_stale sio sid a tok ("host " +:+ TV_IP) e script ev ev'
                (run_unit (logger INFO "Packet capture BPF filter: %r"
                             [py_repr ("host " +:+ TV_IP)]) s) Hne Hag) as H.
  destruct (while_loop sio sid a tok ("host " +:+ TV_IP) (map (stale_slice e) script) ev _)
    as [[|] [ev1 s1]];
  destruct (while_loop sio sid a tok ("host " +:+ TV_IP) script ev' _)
    as [[|] [ev1' s1']];
  unfold outcome in *; simpl in *; congruence.
Qed.

(** With its own token set, the thread body calls the capture primitive no
    more: it leaves the loop at the next test. *)
Lemma capture_loop_cancelled TV_IP sio sid a tok script ev s :
  is_set ev tok = true →
  _capture_loop true TV_IP sio sid a tok script ev s =
  (Stopped,
   (ev, {| db := db s;
           trace := trace s ++
             [ ELog INFO "Packet capture BPF filter: %r" [py_repr ("host " +:+ TV_IP)];
               ELog INFO "Packet capture loop exited" [] ] |})).
Proof.
  intros H. unfold _capture_loop. cbn [negb]. cbv zeta.
  rewrite while_loop_cancelled by exact H.
  unfold run_unit, logger, tell. simpl. rewrite <- app_assoc. reflexivity.
Qed.

Lemma stop_after_start TV_IP sid a timeout j m :
  is_running m = false →
  events (stop_monitor timeout j (snd (start_monitor TV_IP sid a m))) =
    event_set (length (events m)) (events m ++ [false]) ∧
  length (threads (stop_monitor timeout j (snd (start_monitor TV_IP sid a m)))) =
    S (length (threads m)) ∧
  _monitor_thread (stop_monitor timeout j (snd (start_monitor TV_IP sid a m))) = None ∧
  _socketio (stop_monitor timeout j (snd (start_monitor TV_IP sid a m))) = _socketio m.
Proof.
  intros Hr. rewrite start_monitor_idle by exact Hr.
  unfold stop_monitor. cbn [snd add_log _monitor_thread _stop_event].
  assert (Halive : ∀ lg,
            is_alive {| events := events m ++ [false];
                        threads := threads m ++ [ {| t_session_id := sid; t_app := a;
                                                     t_stop_event := length (events m);
                                                     t_alive := true |} ];
                        _monitor_thread := Some (length (threads m));
                        _stop_event := Some (length (events m));
                        _current_session_id := Some sid;
                        _app := Some a;
                        _socketio := _socketio m;
                        log := lg |} (length (threads m)) = true).
  { intros lg. unfold is_alive. cbn [threads].
    rewrite lookup_app_r by lia. rewrite Nat.sub_diag. reflexivity. }
  unfold add_log. cbn [events threads _monitor_thread _stop_event
                        _current_session_id _app _socketio log].
  rewrite !Halive. cbn [negb].
  destruct j; cbn [signal thread_exit events threads _monitor_thread _stop_event
                    _current_session_id _app _socketio log];
    match goal with |- context [if ?b then _ else _] => destruct b end;
    cbn [clear_monitor_thread events threads _monitor_thread _socketio];
    rewrite ?length_alter, ?length_app; cbn [length];
    (split; [reflexivity|split; [lia|split; reflexivity]]).
Qed.

(** C2. Clean restart without cross-signalling.  An accepted start
    allocates a token that was no cell of the event store before the call
    and that no existing thread is bound to, and creates a thread whose
    body is [_capture_loop] applied to that token.  Hence, after start,
    stop, start: the two tokens differ; the first is set and the second is
    not; setting any event other than the second token, the first token
    among them, before or at any moment while the second loop runs, leaves
    the second token unset and the second loop's whole outcome unchanged;
    and setting the second token makes the second loop leave at its next
    test. *)
Theorem fresh_token_per_start TV_IP calls sid1 a1 timeout j sid2 a2 :
  let m := run TV_IP calls init in
  let m1 := snd (start_monitor TV_IP sid1 a1 m) in
  let m2 := stop_monitor timeout j m1 in
  let m3 := snd (start_monitor TV_IP sid2 a2 m2) in
  let e1 := length (events m) in
  let e2 := S (length (events m)) in
  let th2 := {| t_session_id := sid2; t_app := a2; t_stop_event := e2; t_alive := true |} in
  is_running m = false →
  (fst (start_monitor TV_IP sid1 a1 m) = true ∧
   events m !! e1 = None ∧
   (∀ i th, threads m !! i = Some th → t_stop_event th ≠ e1) ∧
   events m1 !! e1 = Some false ∧
   _stop_event m1 = Some e1 ∧
   threads m1 !! length (threads m) =
     Some {| t_session_id := sid1; t_app := a1; t_stop_event := e1; t_alive := true |}) ∧
  (fst (start_monitor TV_IP sid2 a2 m2) = true ∧
   events m2 !! e2 = None ∧
   (∀ i th, threads m2 !! i = Some th → t_stop_event th ≠ e2) ∧
   events m3 !! e2 = Some false ∧
   _stop_event m3 = Some e2 ∧
   threads m3 !! S (length (threads m)) = Some th2) ∧
  (e1 ≠ e2 ∧ is_set (events m3) e1 = true ∧ is_set (events m3) e2 = false) ∧
  (∀ e, e ≠ e2 →
     is_set (events (signal e m3)) e2 = false ∧
     ∀ installed sio script s,
       outcome (thread_body installed TV_IP sio th2 (map (stale_slice e) script)
                  (events (signal e m3)) s) =
       outcome (thread_body installed TV_IP sio th2 script (events m3) s)) ∧
  (∀ sio script s,
     thread_body true TV_IP sio th2 script (events (signal e2 m3)) s =
     (Stopped,
      (events (signal e2 m3),
       {| db := db s;
          trace := trace s ++
            [ ELog INFO "Packet capture BPF filter: %r" [py_repr ("host " +:+ TV_IP)];
              ELog INFO "Packet capture loop exited" [] ] |}))).
Proof.
  intros m m1 m2 m3 e1 e2 th2 Hr.
  pose proof (well_formed_run TV_IP calls init well_formed_init) as Hwf. fold m in Hwf.
  pose proof (well_formed_stop timeout j m1
                (well_formed_start TV_IP sid1 a1 m Hwf)) as Hwf2. fold m2 in Hwf2.
  destruct (stop_after_start TV_IP sid1 a1 timeout j m Hr) as (Hev2 & Hth2 & Htr2 & _).
  fold m1 in Hev2, Hth2, Htr2. fold m2 in Hev2, Hth2, Htr2. fold e1 in Hev2.
  assert (Hr2 : is_running m2 = false) by (unfold is_running; rewrite Htr2; reflexivity).
  assert (Hlen2 : length (events m2) = e2).
  { rewrite Hev2, length_event_set, length_app. simpl. unfold e2. lia. }
  assert (Hev3 : events m3 = events m2 ++ [false]).
  { unfold m3. rewrite start_monitor_idle by exact Hr2. reflexivity. }
  assert (Hset1 : is_set (events m3) e1 = true).
  { rewrite Hev3, is_set_app by (rewrite Hlen2; unfold e1, e2; lia).
    rewrite Hev2. apply is_set_event_set_same. rewrite length_app. simpl. lia. }
  assert (Hset2 : is_set (events m3) e2 = false).
  { rewrite Hev3, <- Hlen2. apply is_set_fresh. }
  split; [|split; [|split; [|split]]].
  - unfold m1. rewrite start_monitor_idle by exact Hr. cbn.
    split; [reflexivity|]. split; [apply lookup_ge_None; unfold e1; lia|].
    split.
    { intros i th Hi. destruct Hwf as (Htok & _). specialize (Htok i th Hi).
      unfold e1. lia. }
    split; [rewrite lookup_app_r by (unfold e1; lia); unfold e1;
            rewrite Nat.sub_diag; reflexivity|].
    split; [reflexivity|].
    rewrite lookup_app_r by lia. rewrite Nat.sub_diag. reflexivity.
  - unfold m3. rewrite start_monitor_idle by exact Hr2. cbn.
    split; [reflexivity|]. split; [apply lookup_ge_None; lia|].
    split.
    { intros i th Hi. destruct Hwf2 as (Htok & _). specialize (Htok i th Hi). lia. }
    split; [rewrite lookup_app_r by lia; rewrite Hlen2, Nat.sub_diag; reflexivity|].
    split; [rewrite Hlen2; reflexivity|].
    rewrite lookup_app_r by lia. rewrite Hth2, Nat.sub_diag, Hlen2. reflexivity.
  - split; [unfold e1, e2; lia|]. split; assumption.
  - intros e Hne. split.
    + cbn. rewrite is_set_event_set_ne by exact Hne. exact Hset2.
    + intros installed sio script s. unfold thread_body. cbn [t_session_id t_app t_stop_event].
      apply capture_loop_stale; [exact Hne|].
      cbn. apply agree_on_stale; [exact Hne|apply agree_on_refl].
  - intros sio script s. unfold thread_body. cbn [t_session_id t_app t_stop_event].
    apply capture_loop_cancelled. cbn.
    apply is_set_event_set_same. rewrite Hev3, length_app, Hlen2. simpl. lia.
Qed.

(** C2 from the initial state: sessions 7 and 8, the second loop fed a
    frame while the first token is set again and again beside it. *)
Lemma fresh_token_per_start_witness :
  is_running (run "203.0.113.50" [] init) = false ∧
  outcome (thread_body true "203.0.113.50" (Some 0%nat)
             {| t_session_id := 8; t_app := 0%nat; t_stop_event := 2; t_alive := true |}
             (map (stale_slice 1)
                [ {| sl_arrivals := [ {| a_sets := []; a_packet := tcp_frame; a_env := calm |} ];
                     sl_sets := []; sl_end := SniffReturns; sl_sleep_sets := [] |} ])
             (events (signal 1 (run "203.0.113.50"
                                  [Start 7 0%nat; Stop 50 true; Start 8 0%nat] init)))
             fresh) =
  outcome (thread_body true "203.0.113.50" (Some 0%nat)
             {| t_session_id := 8; t_app := 0%nat; t_stop_event := 2; t_alive := true |}
             [ {| sl_arrivals := [ {| a_sets := []; a_packet := tcp_frame; a_env := calm |} ];
                  sl_sets := []; sl_end := SniffReturns; sl_sleep_sets := [] |} ]
             (events (run "203.0.113.50"
                        [Start 7 0%nat; Stop 50 true; Start 8 0%nat] init))
             fresh).
Proof.
  split; [reflexivity|].
  apply (proj2 (proj1 (proj2 (proj2 (proj2
           (fresh_token_per_start "203.0.113.50" [] 7 0%nat 50 true 8 0%nat eq_refl))))
           1%nat ltac:(discriminate))
           true (Some 0%nat)).
Defined.

(** * Further properties of the lifecycle manager *)

Lemma is_running_add_log lvl fmt args m :
  is_running (add_log lvl fmt args m) = is_running m.
Proof. reflexivity. Qed.

Lemma is_running_after_stop timeout j m :
  is_running (stop_monitor timeout j m) = false.
Proof.
  destruct (is_running m) eqn:Hr.
  - unfold is_running in Hr. unfold stop_monitor.
    destruct (_monitor_thread m) as [t|]; [|discriminate].
    rewrite Hr. cbn [negb].
    destruct (_stop_event m), j;
      match goal with |- context [if ?b then _ else _] => destruct b end;
      reflexivity.
  - rewrite stop_monitor_idle by exact Hr. exact Hr.
Qed.

(** Stop is idempotent: whatever the state and the outcome of the join,
    the monitor is not running after [stop_monitor], and a second
    [stop_monitor] changes nothing but one debug record. *)
Theorem stop_monitor_twice timeout1 j1 timeout2 j2 m :
  is_running (stop_monitor timeout1 j1 m) = false ∧
  stop_monitor timeout2 j2 (stop_monitor timeout1 j1 m) =
  add_log DEBUG "Packet monitor not running — nothing to stop" []
    (stop_monitor timeout1 j1 m).
Proof.
  split; [apply is_running_after_stop|].
  apply stop_monitor_idle, is_running_after_stop.
Qed.

(** A start that follows a stop is always accepted, also when the join of
    that stop timed out: it returns true, creates one thread for the new
    session id bound to a token allocated by this call, and the monitor is
    running again. *)
Theorem start_after_stop_accepted TV_IP timeout j sid a m :
  fst (start_monitor TV_IP sid a (stop_monitor timeout j m)) = true ∧
  threads (snd (start_monitor TV_IP sid a (stop_monitor timeout j m))) =
    threads (stop_monitor timeout j m) ++
    [ {| t_session_id := sid; t_app := a;
         t_stop_event := length (events (stop_monitor timeout j m));
         t_alive := true |} ] ∧
  _current_session_id (snd (start_monitor TV_IP sid a (stop_monitor timeout j m))) =
    Some sid ∧
  is_running (snd (start_monitor TV_IP sid a (stop_monitor timeout j m))) = true.
Proof.
  pose proof (is_running_after_stop timeout j m) as Hr.
  split; [|split; [|split]].
  - rewrite start_monitor_idle by exact Hr. reflexivity.
  - rewrite start_monitor_idle by exact Hr. reflexivity.
  - rewrite start_monitor_idle by exact Hr. reflexivity.
  - apply is_running_after_start.
Qed.

Lemma is_set_lookup ev e : is_set ev e = true → (e < length ev)%nat.
Proof.
  unfold is_set. destruct (ev !! e) eqn:Hl; [|discriminate].
  intros _. apply lookup_lt_Some in Hl. exact Hl.
Qed.

Lemma stop_monitor_running timeout j m t e :
  _monitor_thread m = Some t → is_alive m t = true → _stop_event m = Some e →
  events (stop_monitor timeout j m) = event_set e (events m) ∧
  threads (stop_monitor timeout j m) =
    (if j then alter (fun th => {| t_session_id := t_session_id th;
                                   t_app := t_app th;
                                   t_stop_event := t_stop_event th;
                                   t_alive := false |}) t (threads m)
     else threads m).
Proof.
  intros Ht Ha He. unfold stop_monitor. rewrite Ht, Ha, He. cbn [negb].
  destruct j;
    match goal with |- context [if ?b then _ else _] => destruct b end;
    split; reflexivity.
Qed.

(** Stopping a running monitor signals the token of the capture thread the
    module refers to, and no other: at any point of any history, if the
    monitor is running, then after [stop_monitor] the token that thread's
    loop polls is set, every other event is as it was, no thread has been
    created, and the thread has ended exactly when the join saw it end.
    With that token set, the thread's loop leaves at its next test without
    calling the capture primitive again. *)
Theorem stop_signals_tracked_token TV_IP calls timeout j :
  is_running (run TV_IP calls init) = true →
  ∃ t th,
    _monitor_thread (run TV_IP calls init) = Some t ∧
    threads (run TV_IP calls init) !! t = Some th ∧
    t_alive th = true ∧
    is_set (events (stop_monitor timeout j (run TV_IP calls init))) (t_stop_event th) = true ∧
    (∀ e, e ≠ t_stop_event th →
       is_set (events (stop_monitor timeout j (run TV_IP calls init))) e =
       is_set (events (run TV_IP calls init)) e) ∧
    length (threads (stop_monitor timeout j (run TV_IP calls init))) =
      length (threads (run TV_IP calls init)) ∧
    is_alive (stop_monitor timeout j (run TV_IP calls init)) t = negb j ∧
    (∀ sio script s,
       thread_body true TV_IP sio th script
         (events (stop_monitor timeout j (run TV_IP calls init))) s =
       (Stopped,
        (events (stop_monitor timeout j (run TV_IP calls init)),
         {| db := db s;
            trace := trace s ++
              [ ELog INFO "Packet capture BPF filter: %r" [py_repr ("host " +:+ TV_IP)];
                ELog INFO "Packet capture loop exited" [] ] |}))).
Proof.
  pose proof (well_formed_run TV_IP calls init well_formed_init) as (Htok & Htr & Hst).
  set (m := run TV_IP calls init) in *.
  intros Hr. unfold is_running in Hr.
  destruct (_monitor_thread m) as [t|] eqn:Ht; [|discriminate].
  destruct (Htr t Ht) as (th & Hl & He & Hs & Ha).
  assert (Halive : t_alive th = true).
  { unfold is_alive in Hr. rewrite Hl in Hr. exact Hr. }
  destruct (stop_monitor_running timeout j m t (t_stop_event th) Ht Hr He) as [Hev Hth].
  assert (Hset : is_set (events (stop_monitor timeout j m)) (t_stop_event th) = true).
  { rewrite Hev. apply is_set_event_set_same. apply (Htok t th Hl). }
  exists t, th.
  split; [reflexivity|]. split; [exact Hl|]. split; [exact Halive|].
  split; [exact Hset|]. split; [|split; [|split]].
  - intros e Hne. rewrite Hev. apply is_set_event_set_ne. congruence.
  - rewrite Hth. destruct j; [apply length_alter|reflexivity].
  - unfold is_alive. rewrite Hth. destruct j; cbn [negb].
    + rewrite list_lookup_alter_eq, Hl. reflexivity.
    + rewrite Hl. exact Halive.
  - intros sio script s. unfold thread_body.
    apply capture_loop_cancelled. exact Hset.
Qed.

Lemma stop_signals_tracked_token_witness :
  is_running (run "203.0.113.50" [Start 7 0%nat] init) = true ∧
  ∃ t th,
    _monitor_thread (run "203.0.113.50" [Start 7 0%nat] init) = Some t ∧
    threads (run "203.0.113.50" [Start 7 0%nat] init) !! t = Some th ∧
    t_alive th = true ∧
    is_set (events (stop_monitor 50 false (run "203.0.113.50" [Start 7 0%nat] init)))
      (t_stop_event th) = true.
Proof.
  split; [reflexivity|].
  destruct (stop_signals_tracked_token "203.0.113.50" [Start 7 0%nat] 50 false eq_refl)
    as (t & th & H1 & H2 & H3 & H4 & _).
  exists t, th. auto.
Defined.

Lemma is_set_step TV_IP m c e :
  is_set (events m) e = true → is_set (events (step TV_IP m c)) e = true.
Proof.
  intros H. destruct c as [sid a|timeout j|sio|t|e0]; cbn [step].
  - destruct (is_running m) eqn:Hr.
    + rewrite start_monitor_running by exact Hr. exact H.
    + rewrite start_monitor_idle by exact Hr. cbn.
      rewrite is_set_app by (apply is_set_lookup, H). exact H.
  - destruct (is_running m) eqn:Hr.
    + unfold is_running in Hr. unfold stop_monitor.
      destruct (_monitor_thread m) as [t|]; [|discriminate].
      rewrite Hr. cbn [negb].
      destruct (_stop_event m), j;
        match goal with |- context [if ?b then _ else _] => destruct b end;
        cbn; try apply is_set_event_set_mono; exact H.
    + rewrite stop_monitor_idle by exact Hr. exact H.
  - exact H.
  - exact H.
  - cbn. apply is_set_event_set_mono, H.
Qed.

Lemma ended_step TV_IP m c i th :
  threads m !! i = Some th → t_alive th = false →
  threads (step TV_IP m c) !! i = Some th.
Proof.
  intros Hi Hdead.
  assert (Halter : ∀ t, alter (fun th => {| t_session_id := t_session_id th;
                                              t_app := t_app th;
                                              t_stop_event := t_stop_event th;
                                              t_alive := false |}) t (threads m) !! i
                        = Some th).
  { intros t. rewrite list_lookup_alter. destruct (decide (t = i)) as [->|]; [|exact Hi].
    rewrite Hi. destruct th as [s0 a0 e0 al]. simpl in *. subst al. reflexivity. }
  destruct c as [sid a|timeout j|sio|t|e0]; cbn [step].
  - destruct (is_running m) eqn:Hr.
    + rewrite start_monitor_running by exact Hr. exact Hi.
    + rewrite start_monitor_idle by exact Hr. cbn.
      rewrite lookup_app_l by (apply lookup_lt_Some in Hi; exact Hi). exact Hi.
  - destruct (is_running m) eqn:Hr.
    + unfold is_running in Hr. unfold stop_monitor.
      destruct (_monitor_thread m) as [t|]; [|discriminate].
      rewrite Hr. cbn [negb].
      destruct (_stop_event m), j;
        match goal with |- context [if ?b then _ else _] => destruct b end;
        cbn; try apply Halter; exact Hi.
    + rewrite stop_monitor_idle by exact Hr. exact Hi.
  - exact Hi.
  - cbn. apply Halter.
  - exact Hi.
Qed.

(** Nothing is ever undone: along any history of calls, thread ends and
    event settings, a token that is set stays set (the module never clears
    an event) and a capture thread that has ended stays ended, with the
    session id and token it was created with. *)
Theorem cancellation_and_exit_are_final TV_IP calls m :
  (∀ e, is_set (events m) e = true → is_set (events (run TV_IP calls m)) e = true) ∧
  (∀ i th, threads m !! i = Some th → t_alive th = false →
     threads (run TV_IP calls m) !! i = Some th).
Proof.
  revert m. induction calls as [|c calls IH]; intros m.
  - split; auto.
  - destruct (IH (step TV_IP m c)) as [IH1 IH2]. split.
    + intros e H. cbn. apply IH1, is_set_step, H.
    + intros i th Hi Hdead. cbn. apply IH2; [|exact Hdead].
      apply ended_step; assumption.
Qed.

Lemma cancellation_and_exit_are_final_witness :
  is_set (events (run "203.0.113.50" [Start 7 0%nat; Stop 50 true] init)) 1 = true ∧
  is_set (events (run "203.0.113.50" [Start 8 0%nat; Signal 0; ThreadExit 1]
                    (run "203.0.113.50" [Start 7 0%nat; Stop 50 true] init))) 1 = true.
Proof.
  split; [reflexivity|].
  apply (proj1 (cancellation_and_exit_are_final "203.0.113.50"
                  [Start 8 0%nat; Signal 0; ThreadExit 1]
                  (run "203.0.113.50" [Start 7 0%nat; Stop 50 true] init))).
  reflexivity.
Defined.

(** * Further properties of the capture loop *)

Lemma sniff_frames_invariant (I : sink_state → Prop) sio sid a stopf :
  (∀ s env pkt, I s → I (snd (_handle_packet sio env pkt sid a s))) →
  ∀ frames ev s, I s →
    ∃ b ev1 s1, sniff_frames (prn sio sid a) stopf frames ev s = (Ok b, (ev1, s1)) ∧ I s1.
Proof.
  intros Hh. induction frames as [|f rest IH]; intros ev s Hs.
  - simpl. eauto.
  - cbn [sniff_frames]. unfold prn at 1.
    pose proof (Hh s (a_env f) (a_packet f) Hs) as Hs1.
    rewrite handle_packet_frame in *. cbn [snd] in Hs1.
    destruct (stopf (set_all (a_sets f) ev)); [eauto|].
    apply IH, Hs1.
Qed.

Lemma sniff_invariant (I : sink_state → Prop) sio sid a stopf filt sl ev s :
  (∀ s e, I s → loop_effect filt e → I (traced e s)) →
  (∀ s env pkt, I s → I (snd (_handle_packet sio env pkt sid a s))) →
  I s →
  ∃ r ev1 s1,
    sniff filt (prn sio sid a) stopf 1 sl ev s = (r, (ev1, s1)) ∧ I s1 ∧
    (r = Ok tt ∨ ∃ exc, r = Raise exc ∧ sl_end sl = SniffRaises exc).
Proof.
  intros Hl Hh Hs. unfold sniff.
  assert (Hs0 : I (run_unit (tell (ESniff filt 1)) s)).
  { apply (Hl s (ESniff filt 1) Hs). right. left. reflexivity. }
  destruct (sniff_frames_invariant I sio sid a stopf Hh (sl_arrivals sl) ev _ Hs0)
    as (b & ev1 & s1 & Heq & Hs1).
  rewrite Heq. destruct b.
  - eauto 10.
  - destruct (sl_end sl) as [|exc]; eauto 10.
Qed.

(** An invariant of the sink state that the loop's own trace entries and
    the sink both keep holds when the loop returns or runs out of script. *)
Lemma while_loop_invariant (I : sink_state → Prop) sio sid a tok filt :
  (∀ s e, I s → loop_effect filt e → I (traced e s)) →
  (∀ s env pkt, I s → I (snd (_handle_packet sio env pkt sid a s))) →
  ∀ script ev s, I s →
    I (snd (snd (while_loop sio sid a tok filt script ev s))).
Proof.
  intros Hl Hh. induction script as [|sl rest IH]; intros ev s Hs.
  - simpl. destruct (is_set ev tok); exact Hs.
  - destruct (is_set ev tok) eqn:Hev.
    + rewrite while_loop_cancelled by exact Hev. exact Hs.
    + rewrite while_loop_step by exact Hev.
      assert (Hs0 : I (run_unit (logger DEBUG "Starting scapy.sniff() with filter=%r"
                                   [py_repr filt]) s)).
      { apply (Hl s _ Hs). left. eauto. }
      destruct (sniff_invariant I sio sid a (fun ev' => is_set ev' tok) filt sl ev _
                  Hl Hh Hs0) as (r & ev1 & s1 & Heq & Hs1 & Hr).
      rewrite Heq. destruct r as [u|exc].
      * apply IH, Hs1.
      * destruct (is_PermissionError exc).
        { cbn [snd]. apply (Hl s1 _ Hs1). left. eauto. }
        destruct (is_set ev1 tok); [exact Hs1|].
        apply IH.
        apply (Hl (traced (ELog ERROR "Scapy sniff error: %s — retrying in 2s"
                             [exn_str exc]) s1) (ESleep 2)).
        { apply (Hl s1 _ Hs1). left. eauto. }
        right. right. reflexivity.
Qed.

Lemma capture_loop_invariant (I : sink_state → Prop) installed TV_IP sio sid a tok :
  (∀ s e, I s → loop_effect ("host " +:+ TV_IP) e → I (traced e s)) →
  (∀ s env pkt, I s → I (snd (_handle_packet sio env pkt sid a s))) →
  ∀ script ev s, I s →
    I (snd (snd (_capture_loop installed TV_IP sio sid a tok script ev s))).
Proof.
  intros Hl Hh script ev s Hs. unfold _capture_loop.
  destruct installed; cbn [negb].
  - cbv zeta.
    assert (Hs0 : I (run_unit (logger INFO "Packet capture BPF filter: %r"
                                 [py_repr ("host " +:+ TV_IP)]) s)).
    { apply (Hl s _ Hs). left. eauto. }
    pose proof (while_loop_invariant I sio sid a tok ("host " +:+ TV_IP) Hl Hh
                  script ev _ Hs0) as Hend.
    destruct (while_loop sio sid a tok ("host " +:+ TV_IP) script ev _)
      as [[|] [ev1 s1]]; cbn [snd] in *.
    + apply (Hl s1 _ Hend). left. eauto.
    + exact Hend.
  - cbn [snd]. apply (Hl s _ Hs). left. eauto.
Qed.

Lemma sink_effects_no_sniff sio env pkt sid a d :
  Forall (fun e => is_sniff e = false) (sink_effects sio env pkt sid a d).
Proof.
  destruct (ip pkt) as [l|] eqn:Hip.
  - sink_cases env sio; rewrite Hip; simpl; rewrite ?Hc, ?He; simpl;
      repeat constructor.
  - unfold_sink. rewrite Hip. constructor.
Qed.

(** Every call of the capture primitive a capture thread makes is
    restricted to the television: in the trace the thread leaves, each
    capture call that was not there before is [sniff] with the filter
    "host <TV_IP>" and a one-second slice.  The thread never captures
    unfiltered and never with another host. *)
Theorem capture_always_filtered installed TV_IP sio sid a tok script ev s e :
  In e (trace (snd (snd (_capture_loop installed TV_IP sio sid a tok script ev s)))) →
  is_sniff e = true →
  In e (trace s) ∨ e = ESniff ("host " +:+ TV_IP) 1.
Proof.
  revert e.
  apply (capture_loop_invariant
           (fun s1 => ∀ e, In e (trace s1) → is_sniff e = true →
                           In e (trace s) ∨ e = ESniff ("host " +:+ TV_IP) 1)).
  - intros s1 e1 Hs1 Heff e Hin Hsn. cbn in Hin.
    apply in_app_or in Hin as [Hin|[<-|[]]]; [apply Hs1; assumption|].
    destruct Heff as [(lvl & fmt & args & ->)|[->| ->]];
      [discriminate|right; reflexivity|discriminate].
  - intros s1 env pkt Hs1 e Hin Hsn.
    rewrite handle_packet_frame in Hin. cbn in Hin.
    apply in_app_or in Hin as [Hin|Hin]; [apply Hs1; assumption|].
    pose proof (sink_effects_no_sniff sio env pkt sid a (db s1)) as Hno.
    rewrite Forall_forall in Hno. apply list_elem_of_In in Hin.
    specialize (Hno e Hin). congruence.
  - intros e Hin _. left. exact Hin.
Qed.

Lemma capture_always_filtered_witness :
  In (ESniff "host 203.0.113.50" 1)
     (trace (snd (snd (_capture_loop true "203.0.113.50" (Some 0%nat) 7 0%nat 1
                         [failing (OtherException "interface down")]
                         [false; false] fresh)))) ∧
  (In (ESniff "host 203.0.113.50" 1) (trace fresh) ∨
   ESniff "host 203.0.113.50" 1 = ESniff ("host " +:+ "203.0.113.50") 1).
Proof.
  assert (H : In (ESniff "host 203.0.113.50" 1)
     (trace (snd (snd (_capture_loop true "203.0.113.50" (Some 0%nat) 7 0%nat 1
                         [failing (OtherException "interface down")]
                         [false; false] fresh))))).
  { cbn. auto. }
  split; [exact H|].
  apply (capture_always_filtered true "203.0.113.50" (Some 0%nat) 7 0%nat 1%nat
           [failing (OtherException "interface down")] [false; false] fresh _ H eq_refl).
Defined.

Lemma sink_db_rows sio env pkt sid a d :
  pending d = [] →
  ∃ rows,
    committed (sink_db sio env pkt sid a d) = committed d ++ rows ∧
    pending (sink_db sio env pkt sid a d) = [] ∧
    Forall (fun r => pl_session_id r = sid) rows ∧
    (length rows ≤ 1)%nat.
Proof.
  intros Hp.
  destruct (ip pkt) as [l|] eqn:Hip.
  - sink_cases env sio; rewrite Hip; simpl; rewrite ?Hc, ?He; simpl; rewrite ?Hp.
    all: first
      [ exists []; rewrite app_nil_r; repeat split; [constructor|simpl; lia]
      | eexists [_]; repeat split;
        [repeat constructor|simpl; lia] ].
  - exists []. unfold_sink. rewrite Hip. simpl. rewrite app_nil_r.
    repeat split; [exact Hp|constructor|simpl; lia].
Qed.

(** Attribution of the rows a capture thread writes: whatever frames arrive
    and whatever fails, the thread only appends to the packet table, every
    row it appends carries the session id the thread was started with, and
    it leaves no uncommitted row behind. *)
Theorem capture_rows_attributed installed TV_IP sio sid a tok script ev s :
  pending (db s) = [] →
  ∃ rows,
    committed (db (snd (snd (_capture_loop installed TV_IP sio sid a tok script ev s)))) =
      committed (db s) ++ rows ∧
    pending (db (snd (snd (_capture_loop installed TV_IP sio sid a tok script ev s)))) = [] ∧
    Forall (fun r => pl_session_id r = sid) rows.
Proof.
  intros Hp.
  apply (capture_loop_invariant
           (fun s1 => ∃ rows, committed (db s1) = committed (db s) ++ rows ∧
                              pending (db s1) = [] ∧
                              Forall (fun r => pl_session_id r = sid) rows)).
  - intros s1 e Hs1 _. exact Hs1.
  - intros s1 env pkt (rows & Hc & Hp1 & Hall).
    rewrite handle_packet_frame. cbn [snd db].
    destruct (sink_db_rows sio env pkt sid a (db s1) Hp1) as (rows1 & Hc1 & Hp2 & Hall1 & _).
    exists (rows ++ rows1). rewrite Hc1, Hc, app_assoc.
    split; [reflexivity|]. split; [exact Hp2|].
    apply Forall_app. split; assumption.
  - exists []. rewrite app_nil_r. split; [reflexivity|]. split; [exact Hp|constructor].
Qed.

Lemma capture_rows_attributed_witness :
  pending (db fresh) = [] ∧
  ∃ rows,
    committed (db (snd (snd (_capture_loop true "203.0.113.50" (Some 0%nat) 7 0%nat 1
        [ {| sl_arrivals := [ {| a_sets := []; a_packet := tcp_frame; a_env := calm |} ];
             sl_sets := []; sl_end := SniffReturns; sl_sleep_sets := [] |} ]
        [false; false] fresh)))) = committed (db fresh) ++ rows ∧
    pending (db (snd (snd (_capture_loop true "203.0.113.50" (Some 0%nat) 7 0%nat 1
        [ {| sl_arrivals := [ {| a_sets := []; a_packet := tcp_frame; a_env := calm |} ];
             sl_sets := []; sl_end := SniffReturns; sl_sleep_sets := [] |} ]
        [false; false] fresh)))) = [] ∧
    Forall (fun r => pl_session_id r = 7) rows.
Proof.
  split; [reflexivity|].
  apply (capture_rows_attributed true "203.0.113.50" (Some 0%nat) 7 0%nat 1%nat).
  reflexivity.
Defined.

Lemma length_set_all es ev : length (set_all es ev) = length ev.
Proof.
  induction es as [|e es IH]; [reflexivity|].
  simpl. rewrite length_event_set. exact IH.
Qed.

Lemma is_set_set_all_notin tok es ev :
  ¬ In tok es → is_set (set_all es ev) tok = is_set ev tok.
Proof.
  induction es as [|e es IH]; intros Hn; [reflexivity|].
  simpl. rewrite is_set_event_set_ne.
  - apply IH. intros H. apply Hn. right. exact H.
  - intros ->. apply Hn. left. reflexivity.
Qed.

Lemma is_set_set_all_in tok es ev :
  In tok es → (tok < length ev)%nat → is_set (set_all es ev) tok = true.
Proof.
  induction es as [|e es IH]; intros Hin Hlt; [destruct Hin|].
  simpl. destruct Hin as [->|Hin].
  - apply is_set_event_set_same. rewrite length_set_all. exact Hlt.
  - apply is_set_event_set_mono, IH; assumption.
Qed.

(** Why a capture loop ends: if the loop of a thread has returned, then its
    own token is set or the capture primitive raised a permission error
    during the script.  No frame, no transient failure and no failing
    collaborator ever ends it. *)
Theorem loop_ends_only_on_cancel_or_denial sio sid a tok filt script ev s :
  fst (while_loop sio sid a tok filt script ev s) = Stopped →
  is_set (fst (snd (while_loop sio sid a tok filt script ev s))) tok = true ∨
  Exists (fun sl => denied sl = true) script.
Proof.
  revert ev s. induction script as [|sl rest IH]; intros ev s.
  - simpl. destruct (is_set ev tok) eqn:Hev; [auto|discriminate].
  - destruct (is_set ev tok) eqn:Hev.
    + rewrite while_loop_cancelled by exact Hev. auto.
    + rewrite while_loop_step by exact Hev.
      destruct (sniff_invariant (fun _ => True) sio sid a (fun ev' => is_set ev' tok)
                  filt sl ev
                  (run_unit (logger DEBUG "Starting scapy.sniff() with filter=%r"
                               [py_repr filt]) s)
                  (fun _ _ _ _ => I) (fun _ _ _ _ => I) I)
        as (r & ev1 & s1 & Heq & _ & Hr).
      rewrite Heq.
      destruct Hr as [->|(exc & -> & Hend)].
      * intros H. destruct (IH _ _ H) as [?|?]; [auto|right; constructor 2; assumption].
      * destruct (is_PermissionError exc) eqn:Hperm.
        { intros _. right. constructor 1. unfold denied. rewrite Hend. exact Hperm. }
        destruct (is_set ev1 tok) eqn:Hev1; [intros _; left; exact Hev1|].
        intros H. destruct (IH _ _ H) as [?|?]; [auto|right; constructor 2; assumption].
Qed.

Lemma loop_ends_only_on_cancel_or_denial_witness :
  fst (while_loop (Some 0%nat) 7 0%nat 1 "host 203.0.113.50"
         [failing (OtherException "interface down");
          failing (PermissionError "Operation not permitted")]
         [false; false] fresh) = Stopped ∧
  (is_set (fst (snd (while_loop (Some 0%nat) 7 0%nat 1 "host 203.0.113.50"
         [failing (OtherException "interface down");
          failing (PermissionError "Operation not permitted")]
         [false; false] fresh))) 1 = true ∨
   Exists (fun sl => denied sl = true)
     [failing (OtherException "interface down");
      failing (PermissionError "Operation not permitted")]).
Proof.
  split; [reflexivity|].
  apply (loop_ends_only_on_cancel_or_denial (Some 0%nat) 7 0%nat 1%nat "host 203.0.113.50").
  reflexivity.
Defined.

Lemma calls_in_app t1 t2 : calls_in (t1 ++ t2) = calls_in t1 ++ calls_in t2.
Proof. unfold calls_in. apply filter_app. Qed.

Lemma calls_in_sink sio env pkt sid a d :
  calls_in (sink_effects sio env pkt sid a d) =
  log_packet_call sid {| a_sets := []; a_packet := pkt; a_env := env |}.
Proof.
  unfold calls_in, log_packet_call. cbn [a_packet].
  destruct (ip pkt) as [l|] eqn:Hip.
  - apply (sink_log_packet_call sio env pkt sid a d l Hip).
  - unfold_sink. rewrite Hip. reflexivity.
Qed.

Lemma sniff_frames_quiet sio sid a tok frames ev s :
  Forall (fun f => ¬ In tok (a_sets f)) frames →
  is_set ev tok = false →
  ∃ ev1 s1,
    sniff_frames (prn sio sid a) (fun ev' => is_set ev' tok) frames ev s
      = (Ok false, (ev1, s1)) ∧
    is_set ev1 tok = false ∧
    calls_in (trace s1) = calls_in (trace s) ++ flat_map (log_packet_call sid) frames.
Proof.
  intros Hq. revert ev s. induction Hq as [|f rest Hf Hrest IH]; intros ev s Hev.
  - simpl. rewrite app_nil_r. eauto.
  - cbn [sniff_frames]. unfold prn at 1. rewrite handle_packet_frame.
    assert (Hev1 : is_set (set_all (a_sets f) ev) tok = false).
    { rewrite is_set_set_all_notin by exact Hf. exact Hev. }
    rewrite Hev1.
    destruct (IH (set_all (a_sets f) ev)
                {| db := sink_db sio (a_env f) (a_packet f) sid a (db s);
                   trace := trace s ++ sink_effects sio (a_env f) (a_packet f) sid a (db s) |}
                Hev1) as (ev1 & s1 & Heq & Hset & Hcalls).
    exists ev1, s1. split; [exact Heq|]. split; [exact Hset|].
    rewrite Hcalls. cbn [trace flat_map].
    rewrite calls_in_app, calls_in_sink, <- app_assoc. reflexivity.
Qed.

Lemma while_loop_quiet sio sid a tok filt script ev s :
  Forall (quiet_slice tok) script →
  Forall (fun sl => denied sl = false) script →
  is_set ev tok = false →
  ∃ ev1 s1,
    while_loop sio sid a tok filt script ev s = (Blocked, (ev1, s1)) ∧
    calls_in (trace s1) = calls_in (trace s) ++ expected_calls sid script.
Proof.
  intros Hq. revert ev s.
  induction Hq as [|sl rest (Hfr & Hsets & Hsleep) Hrest IH]; intros ev s Hden Hev.
  - simpl. rewrite Hev, app_nil_r. eauto.
  - apply Forall_cons in Hden as [Hd Hden].
    rewrite while_loop_step by exact Hev.
    unfold sniff.
    destruct (sniff_frames_quiet sio sid a tok (sl_arrivals sl) ev
                (run_unit (tell (ESniff filt 1))
                   (run_unit (logger DEBUG "Starting scapy.sniff() with filter=%r"
                                [py_repr filt]) s))
                Hfr Hev) as (ev1 & s1 & Heq & Hset & Hcalls).
    rewrite Heq.
    assert (Hev2 : is_set (set_all (sl_sets sl) ev1) tok = false).
    { rewrite is_set_set_all_notin by exact Hsets. exact Hset. }
    assert (Hcalls1 : calls_in (trace s1) =
                      calls_in (trace s) ++ flat_map (log_packet_call sid) (sl_arrivals sl)).
    { rewrite Hcalls. unfold run_unit, logger, tell. cbn [snd trace].
      rewrite !calls_in_app. cbn. rewrite !app_nil_r. reflexivity. }
    unfold denied in Hd.
    destruct (sl_end sl) as [|exc].
    + destruct (IH (set_all (sl_sets sl) ev1) s1 Hden Hev2) as (ev3 & s3 & Heq3 & Hc3).
      exists ev3, s3. split; [exact Heq3|].
      rewrite Hc3, Hcalls1. cbn [expected_calls flat_map].
      rewrite <- app_assoc. reflexivity.
    + rewrite Hd, Hev2.
      assert (Hev3 : is_set (set_all (sl_sleep_sets sl) (set_all (sl_sets sl) ev1)) tok
                     = false).
      { rewrite is_set_set_all_notin by exact Hsleep. exact Hev2. }
      destruct (IH _ (run_unit (logger ERROR "Scapy sniff error: %s — retrying in 2s"
                                  [exn_str exc] >>> tell (ESleep 2)) s1) Hden Hev3)
        as (ev3 & s3 & Heq3 & Hc3).
      exists ev3, s3. split; [exact Heq3|].
      rewrite Hc3. unfold run_unit, logger, tell, bind. cbn [snd trace].
      rewrite !calls_in_app, Hcalls1. cbn. rewrite !app_nil_r.
      cbn [expected_calls flat_map]. rewrite <- app_assoc. reflexivity.
Qed.

(** No frame is lost and none is reordered: as long as the token of the
    thread is not set and the capture primitive is not refused, the thread
    keeps running through any script of frames, time-outs and transient
    failures, and the persistence calls it has made are exactly those of
    the delivered IP frames, one per frame, in delivery order. *)
Theorem no_frame_lost_or_reordered TV_IP sio sid a tok script ev s :
  Forall (quiet_slice tok) script →
  Forall (fun sl => denied sl = false) script →
  is_set ev tok = false →
  fst (_capture_loop true TV_IP sio sid a tok script ev s) = Blocked ∧
  calls_in (trace (snd (snd (_capture_loop true TV_IP sio sid a tok script ev s)))) =
    calls_in (trace s) ++ expected_calls sid script.
Proof.
  intros Hq Hden Hev. unfold _capture_loop. cbn [negb]. cbv zeta.
  destruct (while_loop_quiet sio sid a tok ("host " +:+ TV_IP) script ev
              (run_unit (logger INFO "Packet capture BPF filter: %r"
                           [py_repr ("host " +:+ TV_IP)]) s) Hq Hden Hev)
    as (ev1 & s1 & Heq & Hcalls).
  rewrite Heq. split; [reflexivity|].
  cbn [snd]. rewrite Hcalls. unfold run_unit, logger, tell. cbn [snd trace].
  rewrite calls_in_app. cbn. rewrite app_nil_r. reflexivity.
Qed.

Lemma no_frame_lost_or_reordered_witness :
  is_set [false; false] 1 = false ∧
  calls_in (trace (snd (snd (_capture_loop true "203.0.113.50" (Some 0%nat) 7 0%nat 1
     [ {| sl_arrivals := [ {| a_sets := [0%nat]; a_packet := tcp_frame; a_env := calm |};
                           {| a_sets := []; a_packet := arp_frame; a_env := calm |} ];
          sl_sets := []; sl_end := SniffRaises (OtherException "interface down");
          sl_sleep_sets := [] |};
       {| sl_arrivals := [ {| a_sets := []; a_packet := gre_frame; a_env := calm |} ];
          sl_sets := []; sl_end := SniffReturns; sl_sleep_sets := [] |} ]
     [false; false] fresh)))) =
  calls_in (trace fresh) ++
  [ ELogPacket 7 "TCP" "203.0.113.50" "10.0.0.5" 512;
    ELogPacket 7 "47" "10.0.0.5" "203.0.113.50" 96 ].
Proof.
  split; [reflexivity|].
  apply (no_frame_lost_or_reordered "203.0.113.50" (Some 0%nat) 7 0%nat 1%nat).
  - repeat first [ apply Forall_cons; split | apply Forall_nil | split ];
      simpl; intuition discriminate.
  - repeat constructor.
  - reflexivity.
Defined.

Lemma delivered_cons sio sid a f frames w :
  delivered sio sid a (f :: frames) w =
  delivered sio sid a frames
    (set_all (a_sets f) (fst w), snd (prn sio sid a (a_env f) (a_packet f) (snd w))).
Proof. reflexivity. Qed.

Lemma delivered_snoc sio sid a frames f w :
  delivered sio sid a (frames ++ [f]) w =
  (set_all (a_sets f) (fst (delivered sio sid a frames w)),
   snd (prn sio sid a (a_env f) (a_packet f) (snd (delivered sio sid a frames w)))).
Proof. unfold delivered. rewrite fold_left_app. reflexivity. Qed.

Lemma delivered_calls sio sid a frames w :
  calls_in (trace (snd (delivered sio sid a frames w))) =
  calls_in (trace (snd w)) ++ flat_map (log_packet_call sid) frames.
Proof.
  revert w. induction frames as [|f frames IH]; intros w.
  - cbn. rewrite app_nil_r. reflexivity.
  - rewrite delivered_cons, IH. cbn [snd flat_map]. unfold prn. rewrite handle_packet_frame. cbn [snd trace].
    rewrite calls_in_app, calls_in_sink, <- app_assoc. reflexivity.
Qed.

Lemma delivered_sniffs sio sid a frames w :
  filter (fun e => is_sniff e = true) (trace (snd (delivered sio sid a frames w))) =
  filter (fun e => is_sniff e = true) (trace (snd w)).
Proof.
  revert w. induction frames as [|f frames IH]; intros w; [reflexivity|].
  rewrite delivered_cons, IH. cbn [snd]. unfold prn. rewrite handle_packet_frame. cbn [snd trace].
  rewrite filter_app.
  assert (H : filter (fun e => is_sniff e = true)
                (sink_effects sio (a_env f) (a_packet f) sid a (db (snd w))) = []).
  { apply filter_none. intros i x Hl Hx.
    pose proof (sink_effects_no_sniff sio (a_env f) (a_packet f) sid a (db (snd w))) as Hf.
    rewrite Forall_forall in Hf.
    assert (Hin : x ∈ sink_effects sio (a_env f) (a_packet f) sid a (db (snd w))).
    { apply list_elem_of_lookup. eauto. }
    rewrite (Hf x Hin) in Hx. discriminate. }
  rewrite H, app_nil_r. reflexivity.
Qed.

Lemma sniff_frames_cancelled sio sid a tok before f later ev s :
  is_set ev tok = false →
  Forall (fun b => ¬ In tok (a_sets b)) before →
  In tok (a_sets f) →
  (tok < length ev)%nat →
  sniff_frames (prn sio sid a) (fun ev' => is_set ev' tok) (before ++ f :: later) ev s =
  (Ok true, delivered sio sid a (before ++ [f]) (ev, s)).
Proof.
  revert ev s. induction before as [|b before IH]; intros ev s Hev Hq Hin Hlt.
  - rewrite !app_nil_l. cbn [sniff_frames]. unfold prn at 1. rewrite handle_packet_frame.
    rewrite (is_set_set_all_in tok (a_sets f) ev Hin Hlt).
    rewrite delivered_cons. cbn [fst snd]. unfold prn.
    rewrite handle_packet_frame. reflexivity.
  - apply Forall_cons in Hq as [Hb Hq].
    rewrite <- !app_comm_cons. cbn [sniff_frames]. unfold prn at 1.
    rewrite handle_packet_frame.
    rewrite (is_set_set_all_notin tok (a_sets b) ev Hb), Hev.
    rewrite IH; [|rewrite is_set_set_all_notin by exact Hb; exact Hev|exact Hq|exact Hin
                 |rewrite length_set_all; exact Hlt].
    rewrite (delivered_cons sio sid a b). cbn [fst snd]. unfold prn at 1.
    rewrite handle_packet_frame. reflexivity.
Qed.

(** Cancellation at a frame boundary.  Take a capture call in which the
    token is first set by the time some frame, the first or any later one,
    has been handled.  The frames before it and that frame are handled in
    full and in order, that frame last; the frames after it are not
    handled: the persistence calls made are exactly those of the frames up
    to it; the capture primitive has been called once and is not called
    again; and the loop has returned. *)
Theorem cancellation_at_frame_boundary sio sid a tok filt sl before f later rest ev s :
  is_set ev tok = false →
  sl_arrivals sl = before ++ f :: later →
  Forall (fun b => ¬ In tok (a_sets b)) before →
  In tok (a_sets f) →
  (tok < length ev)%nat →
  while_loop sio sid a tok filt (sl :: rest) ev s =
  (Stopped,
   delivered sio sid a (before ++ [f])
     (ev, {| db := db s;
             trace := trace s ++
               [ ELog DEBUG "Starting scapy.sniff() with filter=%r" [py_repr filt];
                 ESniff filt 1 ] |})) ∧
  snd (snd (while_loop sio sid a tok filt (sl :: rest) ev s)) =
    snd (prn sio sid a (a_env f) (a_packet f)
           (snd (delivered sio sid a before
                   (ev, {| db := db s;
                           trace := trace s ++
                             [ ELog DEBUG "Starting scapy.sniff() with filter=%r"
                                 [py_repr filt];
                               ESniff filt 1 ] |})))) ∧
  calls_in (trace (snd (snd (while_loop sio sid a tok filt (sl :: rest) ev s)))) =
    calls_in (trace s) ++ flat_map (log_packet_call sid) (before ++ [f]) ∧
  filter (fun e => is_sniff e = true)
    (trace (snd (snd (while_loop sio sid a tok filt (sl :: rest) ev s)))) =
    filter (fun e => is_sniff e = true) (trace s) ++ [ESniff filt 1].
Proof.
  intros Hev Harr Hq Hin Hlt.
  assert (Hloop : while_loop sio sid a tok filt (sl :: rest) ev s =
    (Stopped,
     delivered sio sid a (before ++ [f])
       (ev, {| db := db s;
               trace := trace s ++
                 [ ELog DEBUG "Starting scapy.sniff() with filter=%r" [py_repr filt];
                   ESniff filt 1 ] |}))).
  { rewrite while_loop_step by exact Hev.
    unfold sniff. rewrite Harr.
    rewrite (sniff_frames_cancelled sio sid a tok before f later ev _ Hev Hq Hin Hlt).
    assert (Hset : is_set (fst (delivered sio sid a (before ++ [f])
                     (ev, run_unit (tell (ESniff filt 1))
                            (run_unit (logger DEBUG "Starting scapy.sniff() with filter=%r"
                                         [py_repr filt]) s)))) tok = true).
    { rewrite delivered_snoc. cbn [fst]. apply is_set_set_all_in; [exact Hin|].
      clear -Hlt. induction before as [|b before IH] using rev_ind; [exact Hlt|].
      rewrite delivered_snoc. cbn [fst]. rewrite length_set_all. exact IH. }
    destruct (delivered _ _ _ _ _) as [ev1 s1] eqn:Hd. cbn [fst] in Hset.
    rewrite while_loop_cancelled by exact Hset.
    rewrite <- Hd. unfold run_unit, logger, tell. cbn. rewrite <- !app_assoc. reflexivity. }
  split; [exact Hloop|]. rewrite Hloop. cbn [snd].
  split; [rewrite delivered_snoc; reflexivity|].
  split.
  - rewrite delivered_calls. cbn [snd trace]. rewrite calls_in_app.
    match goal with
    | |- context [calls_in [?x; ?y]] => change (calls_in [x; y]) with (@nil effect)
    end.
    rewrite app_nil_r. reflexivity.
  - rewrite delivered_sniffs. cbn [snd trace]. rewrite filter_app. reflexivity.
Qed.

Lemma cancellation_at_frame_boundary_witness :
  is_set [false; false] 1 = false ∧
  calls_in (trace (snd (snd
    (while_loop (Some 0%nat) 7 0%nat 1 "host 203.0.113.50"
       [ {| sl_arrivals := [ {| a_sets := []; a_packet := tcp_udp_frame; a_env := calm |};
                             {| a_sets := [1%nat]; a_packet := tcp_frame; a_env := calm |};
                             {| a_sets := []; a_packet := gre_frame; a_env := calm |} ];
            sl_sets := []; sl_end := SniffReturns; sl_sleep_sets := [] |};
         failing (OtherException "never reached") ]
       [false; false] fresh)))) =
  flat_map (log_packet_call 7)
    [ {| a_sets := []; a_packet := tcp_udp_frame; a_env := calm |};
      {| a_sets := [1%nat]; a_packet := tcp_frame; a_env := calm |} ].
Proof.
  split; [reflexivity|].
  apply (proj1 (proj2 (proj2
    (cancellation_at_frame_boundary (Some 0%nat) 7 0%nat 1%nat "host 203.0.113.50"
       {| sl_arrivals :=
            [ {| a_sets := []; a_packet := tcp_udp_frame; a_env := calm |};
              {| a_sets := [1%nat]; a_packet := tcp_frame; a_env := calm |};
              {| a_sets := []; a_packet := gre_frame; a_env := calm |} ];
          sl_sets := []; sl_end := SniffReturns; sl_sleep_sets := [] |}
       [ {| a_sets := []; a_packet := tcp_udp_frame; a_env := calm |} ]
       {| a_sets := [1%nat]; a_packet := tcp_frame; a_env := calm |}
       [ {| a_sets := []; a_packet := gre_frame; a_env := calm |} ]
       [failing (OtherException "never reached")] [false; false] fresh
       eq_refl eq_refl
       ltac:(repeat constructor; intros [])
       (or_introl eq_refl) ltac:(simpl; lia))))).
Defined.

(** * The persistence operation on its own *)

(** What [log_packet] does to the table, for each way the commit can go:
    rows already committed are never touched; on success the new row, with
    the arguments of the call, is the last committed row and is returned; on
    a SQLAlchemy error the session is rolled back, the error is logged and
    [None] is returned; any other exception is not handled here and reaches
    the caller. *)
Theorem log_packet_outcomes sid protocol source_ip dest_ip size env s :
  pending (db s) = [] →
  let r := log_packet sid protocol source_ip dest_ip size env s in
  let row := {| pl_session_id := sid; pl_protocol := protocol;
                pl_source_ip := source_ip; pl_dest_ip := dest_ip;
                pl_size_bytes := size; pl_timestamp := utcnow env |} in
  (commit_fault env = None →
     fst r = Ok (Some row) ∧
     db (snd r) = {| committed := committed (db s) ++ [row]; pending := [] |}) ∧
  (∀ exc, commit_fault env = Some exc → is_SQLAlchemyError exc = true →
     fst r = Ok None ∧
     db (snd r) = db s ∧
     trace (snd r) = trace s ++
       [ ELogPacket sid protocol source_ip dest_ip size;
         ELog ERROR "DB error in log_packet: %s" [exn_str exc] ]) ∧
  (∀ exc, commit_fault env = Some exc → is_SQLAlchemyError exc = false →
     fst r = Raise exc ∧
     committed (db (snd r)) = committed (db s)) ∧
  (∃ rows, committed (db (snd r)) = committed (db s) ++ rows).
Proof.
  intros Hp r row. subst r row.
  destruct s as [[c p] t]. cbn in Hp. subst p.
  unfold log_packet, try_except_if, bind, session_commit, logger, tell, ret, raise,
    session_add, session_rollback, modify_db.
  destruct (commit_fault env) as [[m|m|m|m]|]; cbn.
  all: split; [intros H; try discriminate H; split; reflexivity|].
  all: split; [intros exc H Hsql; try discriminate H; injection H as <-;
               try discriminate Hsql; cbn; rewrite <- ?app_assoc;
               repeat split; reflexivity|].
  all: split; [intros exc H Hsql; try discriminate H; injection H as <-;
               try discriminate Hsql; split; reflexivity|].
  all: first [ exists []; rewrite app_nil_r; reflexivity | eexists [_]; reflexivity ].
Qed.

Lemma log_packet_outcomes_witness :
  pending (db fresh) = [] ∧
  fst (log_packet 7 "TCP" "203.0.113.50" "10.0.0.5" 512
         {| now := 1; utcnow := 2;
            commit_fault := Some (SQLAlchemyError "server has gone away");
            emit_fault := None |} fresh) = Ok None.
Proof.
  split; [reflexivity|].
  apply (proj1 (proj2 (log_packet_outcomes 7 "TCP" "203.0.113.50" "10.0.0.5" 512
           {| now := 1; utcnow := 2;
              commit_fault := Some (SQLAlchemyError "server has gone away");
              emit_fault := None |} fresh eq_refl))
           (SQLAlchemyError "server has gone away") eq_refl eq_refl).
Defined.

(** * Properties of the packet statistics *)

Lemma count_protocol_lookup b r p :
  count_protocol b r !! p =
  if decide (pl_protocol (snd r) = p) then Some (default 0 (b !! p) + 1) else b !! p.
Proof.
  unfold count_protocol.
  destruct (decide (pl_protocol (snd r) = p)) as [<-|Hne].
  - apply lookup_insert_eq.
  - apply lookup_insert_ne. exact Hne.
Qed.

Lemma breakdown_lookup rows b p :
  fold_left count_protocol rows b !! p =
  match with_protocol p rows with
  | [] => b !! p
  | _ :: _ => Some (default 0 (b !! p) + Z.of_nat (length (with_protocol p rows)))
  end.
Proof.
  revert b. induction rows as [|r rows IH]; intros b; [reflexivity|].
  cbn [fold_left]. rewrite IH, count_protocol_lookup.
  unfold with_protocol in *. rewrite filter_cons.
  destruct (decide (pl_protocol (snd r) = p)) as [Hp|Hp].
  - cbn [default length].
    match goal with
    | |- match ?L with [] => _ | _ :: _ => Some (_ + Z.of_nat (length ?L1)) end =
         Some (_ + Z.of_nat (S (length ?L2))) =>
        change L1 with L; change L2 with L; destruct L as [|x l]
    end; cbn [length id]; apply (f_equal (@Some Z)).
    + apply f_equal. reflexivity.
    + rewrite <- Z.add_assoc. apply f_equal. lia.
  - reflexivity.
Qed.

Lemma breakdown_sum_count b r :
  breakdown_sum (count_protocol b r) = breakdown_sum b + 1.
Proof.
  unfold breakdown_sum, count_protocol.
  set (k := pl_protocol (snd r)).
  assert (Hcomm : ∀ (m : gmap string Z) (j1 j2 : string) (z1 z2 y : Z),
            j1 ≠ j2 → m !! j1 = Some z1 → m !! j2 = Some z2 →
            z1 + (z2 + y) = z2 + (z1 + y)) by (intros; lia).
  destruct (b !! k) as [v|] eqn:Hk; cbn [default].
  - rewrite <- (insert_delete_eq b k (v + 1)).
    rewrite map_fold_insert_L; [|apply Hcomm|apply lookup_delete_eq].
    rewrite (map_fold_delete_L _ 0 k v b); [lia|apply Hcomm|exact Hk].
  - rewrite map_fold_insert_L; [lia|apply Hcomm|exact Hk].
Qed.

Lemma breakdown_sum_fold rows b :
  breakdown_sum (fold_left count_protocol rows b) = breakdown_sum b + Z.of_nat (length rows).
Proof.
  revert b. induction rows as [|r rows IH]; intros b.
  - simpl. lia.
  - cbn [fold_left length]. rewrite IH, breakdown_sum_count. lia.
Qed.

Lemma total_bytes_fold rows acc :
  fold_left (fun acc p => acc + pl_size_bytes (snd p)) rows acc =
  acc + foldr Z.add 0 (map (fun r : stored_row => pl_size_bytes (snd r)) rows).
Proof.
  revert acc. induction rows as [|r rows IH]; intros acc.
  - simpl. lia.
  - cbn [fold_left map foldr]. rewrite IH. lia.
Qed.

(** The totals of [get_packet_stats] when both queries succeed: the packet
    count is the number of rows of the session (of all rows without a
    session id), the byte count is the sum of their sizes, each protocol
    that occurs is a key of the breakdown with the number of its rows, a
    protocol that does not occur is no key, and the counters of the
    breakdown add up to the packet count. *)
Theorem packet_stats_totals session_id limit table :
  ∃ st,
    get_packet_stats session_id limit None None table = (Ok st, []) ∧
    total_packets st = Z.of_nat (length (query_packets session_id table)) ∧
    total_bytes st =
      foldr Z.add 0 (map (fun r : stored_row => pl_size_bytes (snd r))
                       (query_packets session_id table)) ∧
    (∀ p, protocol_breakdown st !! p =
          match with_protocol p (query_packets session_id table) with
          | [] => None
          | _ :: _ =>
              Some (Z.of_nat (length (with_protocol p (query_packets session_id table))))
          end) ∧
    breakdown_sum (protocol_breakdown st) = total_packets st.
Proof.
  eexists. split; [reflexivity|]. cbn [total_packets total_bytes protocol_breakdown].
  split; [reflexivity|]. split; [apply total_bytes_fold|]. split.
  - intros p. rewrite breakdown_lookup. rewrite lookup_empty. cbn [default].
    destruct (with_protocol p _); [reflexivity|f_equal; lia].
  - rewrite breakdown_sum_fold. unfold breakdown_sum. rewrite map_fold_empty. lia.
Qed.

Lemma insert_newest_first_perm r l : insert_newest_first r l ≡ₚ r :: l.
Proof.
  induction l as [|x l IH]; [reflexivity|].
  cbn [insert_newest_first].
  destruct (pl_timestamp (snd x) <=? pl_timestamp (snd r))%Z; [reflexivity|].
  rewrite IH. apply Permutation_swap.
Qed.

Lemma order_by_timestamp_desc_perm l : order_by_timestamp_desc l ≡ₚ l.
Proof.
  induction l as [|r l IH]; [reflexivity|].
  unfold order_by_timestamp_desc in *. cbn [foldr].
  rewrite insert_newest_first_perm, IH. reflexivity.
Qed.

Lemma insert_newest_first_sorted r l :
  StronglySorted newer_first l → StronglySorted newer_first (insert_newest_first r l).
Proof.
  induction 1 as [|x l Hs IH Hall]; cbn [insert_newest_first].
  - constructor; constructor.
  - destruct (pl_timestamp (snd x) <=? pl_timestamp (snd r))%Z eqn:Hle.
    + apply Z.leb_le in Hle.
      constructor; [constructor; assumption|].
      constructor; [exact Hle|].
      eapply Forall_impl; [exact Hall|].
      unfold newer_first. intros y Hy. cbn in *. lia.
    + apply Z.leb_gt in Hle.
      constructor; [exact IH|].
      rewrite insert_newest_first_perm.
      constructor; [unfold newer_first; lia|exact Hall].
Qed.

Lemma order_by_timestamp_desc_sorted l :
  StronglySorted newer_first (order_by_timestamp_desc l).
Proof.
  induction l as [|r l IH]; [constructor|].
  unfold order_by_timestamp_desc in *. cbn [foldr].
  apply insert_newest_first_sorted, IH.
Qed.

(** The recent packets of [get_packet_stats] when both queries succeed and
    the limit is not negative: they are the dicts of [limit] rows of the
    session (all of them if there are fewer), newest first, and no row left
    out is newer than a row that is listed. *)
Theorem recent_packets_newest_first session_id limit table :
  0 <= limit →
  ∃ st kept rest,
    get_packet_stats session_id limit None None table = (Ok st, []) ∧
    recent_packets st = map to_dict kept ∧
    kept ++ rest ≡ₚ query_packets session_id table ∧
    length kept = Nat.min (Z.to_nat limit) (length (query_packets session_id table)) ∧
    StronglySorted newer_first kept ∧
    (∀ x y, x ∈ kept → y ∈ rest → newer_first x y).
Proof.
  intros Hlim.
  set (rows := query_packets session_id table).
  set (sorted := order_by_timestamp_desc rows).
  pose proof (order_by_timestamp_desc_sorted rows) as Hs. fold sorted in Hs.
  pose proof (order_by_timestamp_desc_perm rows) as Hp. fold sorted in Hp.
  exists {| total_packets := Z.of_nat (length rows);
            total_bytes := fold_left (fun acc p => acc + pl_size_bytes (snd p)) rows 0;
            protocol_breakdown := fold_left count_protocol rows ∅;
            recent_packets := map to_dict (take (Z.to_nat limit) sorted) |},
         (take (Z.to_nat limit) sorted), (drop (Z.to_nat limit) sorted).
  split; [reflexivity|]. split; [reflexivity|].
  rewrite <- (take_drop (Z.to_nat limit) sorted) in Hs.
  split; [rewrite take_drop; exact Hp|].
  split; [rewrite length_take, Hp; reflexivity|].
  split; [apply (StronglySorted_app_1_l _ _ _ Hs)|].
  intros x y Hx Hy. apply (StronglySorted_app_1_elem_of _ _ _ x y Hs Hx Hy).
Qed.

Lemma recent_packets_newest_first_witness :
  0 <= 2 ∧
  ∃ st kept rest,
    get_packet_stats (Some 7) 2 None None
      [ (1, {| pl_session_id := 7; pl_protocol := "TCP"; pl_source_ip := "10.0.0.5";
               pl_dest_ip := "203.0.113.50"; pl_size_bytes := 60; pl_timestamp := 10 |});
        (2, {| pl_session_id := 8; pl_protocol := "UDP"; pl_source_ip := "10.0.0.5";
               pl_dest_ip := "203.0.113.50"; pl_size_bytes := 90; pl_timestamp := 40 |});
        (3, {| pl_session_id := 7; pl_protocol := "TCP"; pl_source_ip := "203.0.113.50";
               pl_dest_ip := "10.0.0.5"; pl_size_bytes := 512; pl_timestamp := 30 |});
        (4, {| pl_session_id := 7; pl_protocol := "ICMP"; pl_source_ip := "203.0.113.50";
               pl_dest_ip := "10.0.0.5"; pl_size_bytes := 84; pl_timestamp := 20 |}) ]
      = (Ok st, []) ∧
    recent_packets st = map to_dict kept ∧
    kept ++ rest ≡ₚ
      query_packets (Some 7)
        [ (1, {| pl_session_id := 7; pl_protocol := "TCP"; pl_source_ip := "10.0.0.5";
                 pl_dest_ip := "203.0.113.50"; pl_size_bytes := 60; pl_timestamp := 10 |});
          (2, {| pl_session_id := 8; pl_protocol := "UDP"; pl_source_ip := "10.0.0.5";
                 pl_dest_ip := "203.0.113.50"; pl_size_bytes := 90; pl_timestamp := 40 |});
          (3, {| pl_session_id := 7; pl_protocol := "TCP"; pl_source_ip := "203.0.113.50";
                 pl_dest_ip := "10.0.0.5"; pl_size_bytes := 512; pl_timestamp := 30 |});
          (4, {| pl_session_id := 7; pl_protocol := "ICMP"; pl_source_ip := "203.0.113.50";
                 pl_dest_ip := "10.0.0.5"; pl_size_bytes := 84; pl_timestamp := 20 |}) ] ∧
    length kept = 2%nat.
Proof.
  split; [lia|].
  destruct (recent_packets_newest_first (Some 7) 2
    [ (1, {| pl_session_id := 7; pl_protocol := "TCP"; pl_source_ip := "10.0.0.5";
             pl_dest_ip := "203.0.113.50"; pl_size_bytes := 60; pl_timestamp := 10 |});
      (2, {| pl_session_id := 8; pl_protocol := "UDP"; pl_source_ip := "10.0.0.5";
             pl_dest_ip := "203.0.113.50"; pl_size_bytes := 90; pl_timestamp := 40 |});
      (3, {| pl_session_id := 7; pl_protocol := "TCP"; pl_source_ip := "203.0.113.50";
             pl_dest_ip := "10.0.0.5"; pl_size_bytes := 512; pl_timestamp := 30 |});
      (4, {| pl_session_id := 7; pl_protocol := "ICMP"; pl_source_ip := "203.0.113.50";
             pl_dest_ip := "10.0.0.5"; pl_size_bytes := 84; pl_timestamp := 20 |}) ]
    ltac:(lia)) as (st & kept & rest & H1 & H2 & H3 & H4 & _).
  exists st, kept, rest. auto.
Defined.

Lemma get_packet_stats_recent_bound session_id limit all_fault recent_fault table st lg :
  get_packet_stats session_id limit all_fault recent_fault table = (Ok st, lg) →
  (length (recent_packets st) ≤ Z.to_nat limit)%nat.
Proof.
  unfold get_packet_stats, stats_failure.
  destruct all_fault as [exc|].
  - destruct (is_SQLAlchemyError exc); intros [= <- <-]; simpl; lia.
  - destruct recent_fault as [exc|].
    + destruct (is_SQLAlchemyError exc); intros [= <- <-]; simpl; lia.
    + intros [= <- <-]. cbn [recent_packets].
      rewrite length_map. apply firstn_le_length.
Qed.

(** The route never hands out more than 100 recent packets, whatever the
    query string asks for; and when the queries succeed it hands out as many
    rows as the requested limit clipped to the range 1..100 allows: a limit
    of 0 or below gives one row, a limit above 100 gives 100, a missing
    limit gives 20, each time fewer if the session has fewer rows. *)
Theorem packet_stats_route_limit py_int raw_session raw_limit all_fault recent_fault table :
  (∀ st lg,
     packet_stats_route py_int raw_session raw_limit all_fault recent_fault table
       = (Resp200 st, lg) →
     (length (recent_packets st) ≤ 100)%nat) ∧
  (∀ session_id n,
     match raw_session with
     | Some raw => py_int raw = Some session_id
     | None => True
     end →
     match raw_limit with
     | Some raw => py_int raw = Some n
     | None => n = 20
     end →
     ∃ st,
       packet_stats_route py_int raw_session raw_limit None None table = (Resp200 st, []) ∧
       length (recent_packets st) =
         Nat.min (Z.to_nat (Z.max 1 (Z.min n 100)))
           (length (query_packets (option_map (fun _ => session_id) raw_session) table))).
Proof.
  split.
  - intros st lg. unfold packet_stats_route.
    destruct raw_session as [raw|]; [destruct (py_int raw) as [sid|]|];
      try discriminate.
    all: destruct raw_limit as [rawl|]; [destruct (py_int rawl) as [n|]|];
      try discriminate.
    all: match goal with
         | |- context [get_packet_stats ?s ?l ?f1 ?f2 ?t] =>
             destruct (get_packet_stats s l f1 f2 t) as [[st0|exc] lg0] eqn:Hg
         end; try discriminate.
    all: intros [= <- <-];
      apply get_packet_stats_recent_bound in Hg; lia.
  - intros session_id n Hs Hl. unfold packet_stats_route.
    assert (Hn : match raw_limit with Some raw => py_int raw | None => Some 20 end = Some n).
    { destruct raw_limit; [exact Hl|congruence]. }
    rewrite Hn.
    destruct raw_session as [raw|]; [rewrite Hs|]; cbn [option_map].
    all: eexists; split; [reflexivity|]; cbn [recent_packets];
      rewrite length_map, length_take, order_by_timestamp_desc_perm; reflexivity.
Qed.

Lemma packet_stats_route_limit_witness :
  ∃ st,
    packet_stats_route (fun s => if String.eqb s "0" then Some 0 else None)
      None (Some "0") None None
      [ (1, {| pl_session_id := 7; pl_protocol := "TCP"; pl_source_ip := "10.0.0.5";
               pl_dest_ip := "203.0.113.50"; pl_size_bytes := 60; pl_timestamp := 10 |});
        (2, {| pl_session_id := 7; pl_protocol := "UDP"; pl_source_ip := "10.0.0.5";
               pl_dest_ip := "203.0.113.50"; pl_size_bytes := 90; pl_timestamp := 40 |}) ]
      = (Resp200 st, []) ∧
    length (recent_packets st) = 1%nat.
Proof.
  destruct (proj2 (packet_stats_route_limit
                     (fun s => if String.eqb s "0" then Some 0 else None)
                     None (Some "0") None None
      [ (1, {| pl_session_id := 7; pl_protocol := "TCP"; pl_source_ip := "10.0.0.5";
               pl_dest_ip := "203.0.113.50"; pl_size_bytes := 60; pl_timestamp := 10 |});
        (2, {| pl_session_id := 7; pl_protocol := "UDP"; pl_source_ip := "10.0.0.5";
               pl_dest_ip := "203.0.113.50"; pl_size_bytes := 90; pl_timestamp := 40 |}) ])
              0 0 I eq_refl) as (st & H1 & H2).
  exists st. split; [exact H1|exact H2].
Defined.

(** How the route fails, for every request.  A session id that is not an
    integer is refused with 400 before the limit is looked at or the table
    is read.  When the session id is absent or an integer, a limit that is
    not an integer is refused with 400.  When both parameters are absent or
    integers, a SQLAlchemy error in either query does not show as an
    error: the answer is 200 with all-zero statistics and one error record
    in the log; any other exception gives 500, again with all-zero
    statistics. *)
Theorem packet_stats_route_failures py_int raw_session raw_limit all_fault recent_fault table :
  (∀ raw, raw_session = Some raw → py_int raw = None →
     packet_stats_route py_int raw_session raw_limit all_fault recent_fault table =
     (Resp400 "Invalid 'session_id' — must be an integer", [])) ∧
  ((∀ raw, raw_session = Some raw → py_int raw ≠ None) →
     (∀ raw, raw_limit = Some raw → py_int raw = None →
        packet_stats_route py_int raw_session raw_limit all_fault recent_fault table =
        (Resp400 "Invalid 'limit' — must be an integer", [])) ∧
     ((∀ raw, raw_limit = Some raw → py_int raw ≠ None) →
        ∀ exc, (all_fault = Some exc ∨ (all_fault = None ∧ recent_fault = Some exc)) →
          packet_stats_route py_int raw_session raw_limit all_fault recent_fault table =
          if is_SQLAlchemyError exc then
            (Resp200 zero_stats,
             [ELog ERROR "DB error in get_packet_stats: %s" [exn_str exc]])
          else
            (Resp500 "Could not fetch packet statistics" zero_stats,
             [ELog ERROR "Error fetching packet stats: %s" [exn_str exc]]))).
Proof.
  split.
  - intros raw -> H. unfold packet_stats_route. rewrite H. reflexivity.
  - intros Hses.
    assert (Hs : ∃ session_id,
              (match raw_session with
               | Some raw => match py_int raw with
                             | Some n => Some (Some n)
                             | None => None
                             end
               | None => Some None
               end) = Some session_id).
    { destruct raw_session as [raw|]; [|eauto].
      destruct (py_int raw) as [n|] eqn:Hn; [eauto|].
      destruct (Hses raw eq_refl Hn). }
    destruct Hs as [session_id Hs]. unfold packet_stats_route. rewrite Hs.
    split.
    + intros raw -> H. rewrite H. reflexivity.
    + intros Hlim exc Hexc.
      assert (Hl : ∃ n, (match raw_limit with
                         | Some raw => py_int raw
                         | None => Some 20
                         end) = Some n).
      { destruct raw_limit as [raw|]; [|eauto].
        destruct (py_int raw) as [n|] eqn:Hn; [eauto|].
        destruct (Hlim raw eq_refl Hn). }
      destruct Hl as [n Hl]. rewrite Hl.
      destruct Hexc as [->|[-> ->]]; unfold get_packet_stats, stats_failure;
        destruct (is_SQLAlchemyError exc); reflexivity.
Qed.

Lemma packet_stats_route_failures_witness :
  packet_stats_route (fun raw => if String.eqb raw "7" then Some 7 else None)
    (Some "7") None (Some (SQLAlchemyError "server has gone away")) None [] =
  (Resp200 zero_stats,
   [ELog ERROR "DB error in get_packet_stats: %s" ["server has gone away"]]).
Proof.
  apply (proj2 (proj2 (packet_stats_route_failures
                         (fun raw => if String.eqb raw "7" then Some 7 else None)
                         (Some "7") None
                         (Some (SQLAlchemyError "server has gone away")) None [])
                  ltac:(intros raw [= <-]; discriminate))
           ltac:(intros raw H; discriminate H)
           (SQLAlchemyError "server has gone away") (or_introl eq_refl)).
Defined.

(** The aggregates read the columns of the rows, not their keys. *)
Lemma aggregates_rows_only sid t1 t2 :
  map snd t1 = map snd t2 →
  ∀ acc b,
    length (query_packets (Some sid) t1) = length (query_packets (Some sid) t2) ∧
    fold_left (fun acc p => acc + pl_size_bytes (snd p)) (query_packets (Some sid) t1) acc =
      fold_left (fun acc p => acc + pl_size_bytes (snd p)) (query_packets (Some sid) t2) acc ∧
    fold_left count_protocol (query_packets (Some sid) t1) b =
      fold_left count_protocol (query_packets (Some sid) t2) b.
Proof.
  revert t2. induction t1 as [|[i1 r1] t1 IH]; intros [|[i2 r2] t2] Hmap; try discriminate.
  - intros. repeat split.
  - cbn [map snd] in Hmap. injection Hmap as -> Hmap.
    intros acc b. cbn [query_packets]. rewrite !filter_cons. cbn [snd].
    destruct (decide (pl_session_id r2 = sid)) as [Hs|Hs].
    + cbn [length fold_left snd].
      destruct (IH t2 Hmap (acc + pl_size_bytes r2)
                  (count_protocol b (i1, r2))) as (H1 & H2 & H3).
      split; [f_equal; exact H1|]. split; [exact H2|exact H3].
    + apply (IH t2 Hmap acc b).
Qed.

Lemma sink_db_success sio env pkt sid a d l :
  ip pkt = Some l → commit_fault env = None →
  sink_db sio env pkt sid a d =
  {| committed := committed d ++ pending d ++ [packet_row env pkt l sid]; pending := [] |}.
Proof.
  intros Hip Hc. unfold_sink. rewrite Hip. simpl. rewrite Hc. simpl.
  destruct sio as [?|]; try destruct (emit_fault env); reflexivity.
Qed.

Lemma map_snd_snoc (t : list stored_row) rows row :
  map snd t = rows ++ [row] →
  ∃ t0 i, t = t0 ++ [(i, row)] ∧ map snd t0 = rows.
Proof.
  revert t. induction rows as [|r rows IH]; intros t Hmap.
  - destruct t as [|[i r0] [|x t]]; try discriminate.
    cbn in Hmap. injection Hmap as ->. exists [], i. split; reflexivity.
  - destruct t as [|[i r0] t]; [discriminate|].
    cbn in Hmap. injection Hmap as -> Hmap.
    destruct (IH t Hmap) as (t0 & j & -> & Hrows).
    exists ((i, r) :: t0), j. split; [reflexivity|]. cbn. rewrite Hrows. reflexivity.
Qed.

(** From capture to statistics: when the sink has handled an IP frame for
    session S and the commit succeeded, the statistics of S read from the
    table afterwards differ from those read before by exactly that frame:
    one more packet, the frame's length more bytes, one more under the
    frame's protocol label and every other label unchanged. *)
Theorem captured_frame_counted sio env pkt sid a d l limit table table' :
  ip pkt = Some l →
  commit_fault env = None →
  pending d = [] →
  map snd table = committed d →
  map snd table' = committed (sink_db sio env pkt sid a d) →
  ∃ st st',
    get_packet_stats (Some sid) limit None None table = (Ok st, []) ∧
    get_packet_stats (Some sid) limit None None table' = (Ok st', []) ∧
    total_packets st' = total_packets st + 1 ∧
    total_bytes st' = total_bytes st + len pkt ∧
    protocol_breakdown st' !! classify pkt l =
      Some (default 0 (protocol_breakdown st !! classify pkt l) + 1) ∧
    (∀ p, p ≠ classify pkt l →
       protocol_breakdown st' !! p = protocol_breakdown st !! p).
Proof.
  intros Hip Hc Hp Ht Ht'.
  rewrite (sink_db_success sio env pkt sid a d l Hip Hc) in Ht'.
  cbn [committed] in Ht'. rewrite Hp in Ht'. cbn [app] in Ht'. rewrite <- Ht in Ht'.
  destruct (map_snd_snoc table' _ _ Ht') as (t0 & i & -> & Ht0).
  do 2 eexists. split; [reflexivity|]. split; [reflexivity|].
  cbn [total_packets total_bytes protocol_breakdown].
  assert (Hq : query_packets (Some sid) (t0 ++ [(i, packet_row env pkt l sid)]) =
               query_packets (Some sid) t0 ++ [(i, packet_row env pkt l sid)]).
  { cbn [query_packets]. rewrite filter_app. f_equal.
    rewrite filter_cons. cbn. destruct (decide (sid = sid)); [reflexivity|congruence]. }
  rewrite Hq.
  destruct (aggregates_rows_only sid t0 table Ht0 0 ∅) as (H1 & H2 & H3).
  rewrite !fold_left_app, length_app. cbn [fold_left length snd].
  unfold stored_row in *. rewrite H1, H2, H3.
  split; [lia|]. split; [reflexivity|]. split.
  - rewrite count_protocol_lookup. cbn [snd packet_row pl_protocol].
    destruct (decide (classify pkt l = classify pkt l)); [reflexivity|congruence].
  - intros p Hne. rewrite count_protocol_lookup. cbn [snd packet_row pl_protocol].
    destruct (decide (classify pkt l = p)); [congruence|reflexivity].
Qed.

Lemma captured_frame_counted_witness :
  ip tcp_frame = Some {| src := "203.0.113.50"; dst := "10.0.0.5"; proto := 6 |} ∧
  ∃ st st',
    get_packet_stats (Some 7) 20 None None [] = (Ok st, []) ∧
    get_packet_stats (Some 7) 20 None None
      [ (1, packet_row calm tcp_frame
              {| src := "203.0.113.50"; dst := "10.0.0.5"; proto := 6 |} 7) ]
      = (Ok st', []) ∧
    total_packets st' = total_packets st + 1 ∧
    total_bytes st' = total_bytes st + 512.
Proof.
  split; [reflexivity|].
  destruct (captured_frame_counted (Some 0%nat) calm tcp_frame 7 0%nat empty_db
              {| src := "203.0.113.50"; dst := "10.0.0.5"; proto := 6 |} 20 []
              [ (1, packet_row calm tcp_frame
                      {| src := "203.0.113.50"; dst := "10.0.0.5"; proto := 6 |} 7) ]
              eq_refl eq_refl eq_refl eq_refl eq_refl)
    as (st & st' & H1 & H2 & H3 & H4 & _).
  exists st, st'. auto.
Defined.

(** * Properties of the device, session and message operations *)

Lemma same_key_same_row {A} (key : A → Z) (l : list A) x y :
  NoDup (map key l) → In x l → In y l → key x = key y → x = y.
Proof.
  induction l as [|z l IH]; intros Hnd Hx Hy Hk; [destruct Hx|].
  cbn [map] in Hnd. apply NoDup_cons in Hnd as [Hz Hnd].
  destruct Hx as [->|Hx], Hy as [->|Hy].
  - reflexivity.
  - exfalso. apply Hz. rewrite Hk. apply list_elem_of_In, in_map, Hy.
  - exfalso. apply Hz. rewrite <- Hk. apply list_elem_of_In, in_map, Hx.
  - apply IH; assumption.
Qed.

Lemma find_after_update (d old : Device) ip l :
  NoDup (map dev_id l) →
  find (fun d0 => String.eqb (dev_ip_address d0) ip) l = Some old →
  dev_id d = dev_id old → dev_ip_address d = ip →
  find (fun d0 => String.eqb (dev_ip_address d0) ip)
       (map (fun d0 => if Z.eqb (dev_id d0) (dev_id d) then d else d0) l) = Some d.
Proof.
  intros Hnd Hfind Hid Hip.
  induction l as [|x l IH]; [discriminate|].
  cbn [map] in Hnd. apply NoDup_cons in Hnd as [Hx Hnd].
  cbn [find map] in *.
  destruct (String.eqb (dev_ip_address x) ip) eqn:Hxip.
  - injection Hfind as ->. rewrite Hid, Z.eqb_refl. cbn.
    rewrite Hip, String.eqb_refl. reflexivity.
  - assert (Hne : dev_id x ≠ dev_id d).
    { intros Heq. apply Hx. rewrite Heq, Hid.
      apply find_some in Hfind as [Hin _]. apply list_elem_of_In, in_map, Hin. }
    apply Z.eqb_neq in Hne. rewrite Hne. cbn. rewrite Hxip.
    apply IH; assumption.
Qed.

Lemma find_app_none {A} (f : A → bool) l1 l2 :
  find f l1 = None → find f (l1 ++ l2) = find f l2.
Proof.
  induction l1 as [|x l1 IH]; [reflexivity|].
  cbn. destruct (f x); [discriminate|exact IH].
Qed.

Lemma map_update_keys {A} (key : A → Z) (x : A) l :
  map key (map (fun y => if Z.eqb (key y) (key x) then x else y) l) = map key l.
Proof.
  induction l as [|y l IH]; [reflexivity|].
  cbn [map]. rewrite IH. f_equal.
  destruct (Z.eqb (key y) (key x)) eqn:H; [|reflexivity].
  apply Z.eqb_eq in H. congruence.
Qed.

Lemma in_map_update {A} (key : A → Z) (x y : A) l :
  In y l → key y ≠ key x →
  In y (map (fun z => if Z.eqb (key z) (key x) then x else z) l).
Proof.
  intros Hin Hne. apply in_map_iff. exists y. split; [|exact Hin].
  apply Z.eqb_neq in Hne. rewrite Hne. reflexivity.
Qed.

(** Upsert of a device, when query and commit succeed and the table has
    one row per primary key.  The call returns the row stored for the
    address: it has the given name, is online, and was last seen now.  If
    the address was known, the row keeps its key, the table keeps its size,
    and the stored MAC address is replaced only by a non-empty one ([None]
    and the empty string leave it as it was).  If the address was new, one
    row with the key the database assigns is appended.  Rows of other
    addresses, the keys' uniqueness, sessions and messages are untouched. *)
Theorem device_upsert name ip mac env t :
  q_fault env = None → c_fault env = None →
  NoDup (map dev_id (devices t)) →
  ¬ In (new_id env) (map dev_id (devices t)) →
  ∃ d t' lg,
    get_or_create_device name ip mac env t = (Ok (Some d), t', lg) ∧
    dev_ip_address d = ip ∧ dev_name d = name ∧ dev_is_online d = true ∧
    dev_last_seen d = Some (db_utcnow env) ∧
    device_by_ip ip t' = Some d ∧
    (∀ old, device_by_ip ip t = Some old →
       dev_id d = dev_id old ∧
       length (devices t') = length (devices t) ∧
       dev_mac_address d = if py_truthy mac then mac else dev_mac_address old) ∧
    (device_by_ip ip t = None →
       dev_id d = new_id env ∧ devices t' = devices t ++ [d] ∧ dev_mac_address d = mac) ∧
    (∀ d0, In d0 (devices t) → dev_ip_address d0 ≠ ip → In d0 (devices t')) ∧
    NoDup (map dev_id (devices t')) ∧
    sessions t' = sessions t ∧ messages t' = messages t.
Proof.
  intros Hq Hc Hnd Hfresh. unfold get_or_create_device. rewrite Hq, Hc.
  destruct (device_by_ip ip t) as [old|] eqn:Hfind.
  - pose proof Hfind as Hf. unfold device_by_ip in Hf.
    apply find_some in Hf as [Hin Hip]. apply String.eqb_eq in Hip.
    do 3 eexists. split; [reflexivity|]. cbn.
    split; [exact Hip|]. split; [reflexivity|]. split; [reflexivity|].
    split; [reflexivity|]. split.
    { unfold device_by_ip, update_device. cbn [devices].
      match goal with
      | |- _ = Some ?d =>
          exact (find_after_update d old ip (devices t) Hnd Hfind eq_refl Hip)
      end. }
    split.
    { intros old' [= <-]. split; [reflexivity|]. split; [apply length_map|reflexivity]. }
    split; [discriminate|]. split.
    { intros d0 Hd0 Hne.
      match goal with
      | |- In _ (map (fun z => if _ then ?d else z) _) =>
          apply (in_map_update dev_id d d0 (devices t) Hd0)
      end. cbn.
      intros Heq. apply Hne.
      rewrite (same_key_same_row dev_id (devices t) d0 old Hnd Hd0 Hin Heq). exact Hip. }
    split; [|split; reflexivity].
    match goal with
    | |- NoDup (map _ (map (fun z => if _ then ?d else z) ?l)) =>
        pose proof (map_update_keys dev_id d l) as Hkeys
    end.
    cbn in Hkeys. rewrite Hkeys. exact Hnd.
  - do 3 eexists. split; [reflexivity|]. cbn.
    split; [reflexivity|]. split; [reflexivity|]. split; [reflexivity|].
    split; [reflexivity|]. split.
    { unfold device_by_ip in *. cbn [devices]. rewrite (find_app_none _ _ _ Hfind). cbn.
      rewrite String.eqb_refl. reflexivity. }
    split; [discriminate|]. split; [intros _; repeat split|]. split.
    { intros d0 Hd0 _. apply in_or_app. left. exact Hd0. }
    split; [|split; reflexivity].
    rewrite map_app. cbn. apply NoDup_app. split; [exact Hnd|]. split.
    + intros x Hx Hx'. apply list_elem_of_In in Hx'. destruct Hx' as [<-|[]].
      apply Hfresh. apply list_elem_of_In. exact Hx.
    + apply NoDup_singleton.
Qed.

Lemma device_upsert_witness :
  ∃ d t' lg,
    get_or_create_device "Living Room TV" "203.0.113.50" None
      {| q_fault := None; c_fault := None; db_utcnow := 100; new_id := 2 |}
      {| devices := [ {| dev_id := 1; dev_name := "TV"; dev_ip_address := "203.0.113.50";
                         dev_mac_address := Some "4c:31:2d:ef:2a:39";
                         dev_last_seen := None; dev_is_online := false |} ];
         sessions := []; messages := [] |} = (Ok (Some d), t', lg) ∧
    dev_ip_address d = "203.0.113.50" ∧ dev_name d = "Living Room TV" ∧
    dev_is_online d = true.
Proof.
  destruct (device_upsert "Living Room TV" "203.0.113.50" None
              {| q_fault := None; c_fault := None; db_utcnow := 100; new_id := 2 |}
              {| devices := [ {| dev_id := 1; dev_name := "TV";
                                 dev_ip_address := "203.0.113.50";
                                 dev_mac_address := Some "4c:31:2d:ef:2a:39";
                                 dev_last_seen := None; dev_is_online := false |} ];
                 sessions := []; messages := [] |}
              eq_refl eq_refl
              ltac:(cbn; apply NoDup_singleton)
              ltac:(cbn; intros [H|[]]; discriminate H))
    as (d & t' & lg & H1 & H2 & H3 & H4 & _).
  exists d, t', lg. auto.
Defined.

(** A commit that fails with a SQLAlchemy error leaves no partial write:
    each of the five writing operations then returns its empty result
    ([None], or nothing) without raising, and the tables are exactly what
    they were: no device row, session row or message is added or changed,
    and no message counter is advanced. *)
Theorem failed_commit_changes_nothing fmt_1f exc env t :
  q_fault env = None → c_fault env = Some exc → is_SQLAlchemyError exc = true →
  (∀ name ip mac,
     fst (get_or_create_device name ip mac env t) = (Ok None, t)) ∧
  (∀ ip, fst (mark_device_offline ip env t) = (Ok tt, t)) ∧
  (∀ device_id connection_type,
     fst (create_session device_id connection_type env t) = (Ok None, t)) ∧
  (∀ session_id, fst (close_session session_id env t) = (Ok tt, t)) ∧
  (∀ session_id text delivered latency,
     fst (log_message fmt_1f session_id text delivered latency env t) = (Ok None, t)).
Proof.
  intros Hq Hc Hsql.
  split; [|split; [|split; [|split]]].
  - intros name ip mac. unfold get_or_create_device, db_except. rewrite Hq, Hc, Hsql.
    destruct (device_by_ip ip t); reflexivity.
  - intros ip. unfold mark_device_offline, db_except. rewrite Hq, Hc, Hsql.
    destruct (device_by_ip ip t); reflexivity.
  - intros device_id connection_type. unfold create_session, db_except.
    rewrite Hc, Hsql. reflexivity.
  - intros session_id. unfold close_session, db_except. rewrite Hq, Hc, Hsql.
    destruct (session_by_id session_id t); reflexivity.
  - intros session_id text delivered latency. unfold log_message, db_except.
    rewrite Hq, Hc, Hsql. reflexivity.
Qed.

Lemma failed_commit_changes_nothing_witness :
  fst (log_message (fun _ => "0.0") 7 "Hello, TV!" true None
         {| q_fault := None; c_fault := Some (SQLAlchemyError "deadlock");
            db_utcnow := 5; new_id := 9 |}
         {| devices := [];
            sessions := [ {| ses_id := 7; ses_device_id := 1; ses_connection_type := "local";
                             ses_start_time := 1; ses_end_time := None;
                             ses_total_messages := 0 |} ];
            messages := [] |}) =
  (Ok None,
   {| devices := [];
      sessions := [ {| ses_id := 7; ses_device_id := 1; ses_connection_type := "local";
                       ses_start_time := 1; ses_end_time := None;
                       ses_total_messages := 0 |} ];
      messages := [] |}).
Proof.
  apply (proj2 (proj2 (proj2 (proj2
           (failed_commit_changes_nothing (fun _ => "0.0") (SQLAlchemyError "deadlock")
              {| q_fault := None; c_fault := Some (SQLAlchemyError "deadlock");
                 db_utcnow := 5; new_id := 9 |} _ eq_refl eq_refl eq_refl))))).
Defined.

Lemma messages_of_unchanged sid (t t' : tables) :
  messages t' = messages t → messages_of sid t' = messages_of sid t.
Proof. unfold messages_of. intros ->. reflexivity. Qed.

Lemma session_by_id_spec sid t s :
  session_by_id sid t = Some s → In s (sessions t) ∧ ses_id s = sid.
Proof.
  unfold session_by_id. intros H. apply find_some in H as [Hin Heq].
  apply Z.eqb_eq in Heq. auto.
Qed.

Lemma session_by_id_none sid t s :
  session_by_id sid t = None → In s (sessions t) → ses_id s ≠ sid.
Proof.
  unfold session_by_id. intros H Hin Heq.
  pose proof (find_none _ _ H s Hin) as Hn. cbn in Hn.
  apply Z.eqb_neq in Hn. contradiction.
Qed.

(** The message counter of a session is exact and stays exact: if every
    session's [total_messages] equals the number of messages stored for it
    and session keys are unique, then this is still so after
    [log_message], whichever way it ends, after [close_session], and after
    [create_session] when the key of the new session is not in use. *)
Theorem message_counters_stay_exact fmt_1f env t :
  counters_exact t →
  NoDup (map ses_id (sessions t)) →
  (∀ session_id text delivered latency,
     counters_exact (snd (fst (log_message fmt_1f session_id text delivered latency env t))) ∧
     NoDup (map ses_id (sessions
        (snd (fst (log_message fmt_1f session_id text delivered latency env t)))))) ∧
  (∀ session_id,
     counters_exact (snd (fst (close_session session_id env t))) ∧
     NoDup (map ses_id (sessions (snd (fst (close_session session_id env t)))))) ∧
  (∀ device_id connection_type,
     ¬ In (new_id env) (map ses_id (sessions t)) →
     messages_of (new_id env) t = [] →
     counters_exact (snd (fst (create_session device_id connection_type env t))) ∧
     NoDup (map ses_id (sessions
        (snd (fst (create_session device_id connection_type env t)))))).
Proof.
  intros Hexact Hnd.
  split; [|split].
  - intros sid text delivered latency. unfold log_message, db_except.
    destruct (q_fault env) as [exc|].
    { destruct (is_SQLAlchemyError exc); cbn; auto. }
    destruct (c_fault env) as [exc|].
    { destruct (is_SQLAlchemyError exc); cbn; auto. }
    cbn [fst snd].
    destruct (session_by_id sid t) as [old|] eqn:Hfind.
    + destruct (session_by_id_spec sid t old Hfind) as [Hin Hid].
      split.
      * intros s Hs. unfold update_session in Hs. cbn [sessions] in Hs.
        apply in_map_iff in Hs as (s0 & Hs0 & Hin0). cbn [ses_id] in Hs0.
        unfold messages_of, update_session. cbn [messages].
        rewrite filter_app, length_app.
        destruct (Z.eqb (ses_id s0) (ses_id old)) eqn:Heq.
        -- apply Z.eqb_eq in Heq. subst s. cbn [ses_id ses_total_messages].
           rewrite filter_cons. cbn [msg_session_id].
           destruct (decide (sid = ses_id old)) as [_|Hne]; [|congruence].
           rewrite filter_nil. cbn [length]. rewrite (Hexact old Hin).
           unfold messages_of. lia.
        -- apply Z.eqb_neq in Heq. subst s0.
           rewrite filter_cons. cbn [msg_session_id].
           destruct (decide (sid = ses_id s)) as [He|_]; [congruence|].
           rewrite filter_nil. cbn [length]. rewrite (Hexact s Hin0).
           unfold messages_of. lia.
      * unfold update_session. cbn.
        match goal with
        | |- NoDup (map _ (map (fun z => if _ then ?d else z) ?l)) =>
            pose proof (map_update_keys ses_id d l) as Hkeys
        end.
        cbn in Hkeys. rewrite Hkeys. exact Hnd.
    + split; [|exact Hnd].
      intros s Hs. cbn [sessions] in Hs.
      unfold messages_of. cbn [messages].
      rewrite filter_app, length_app, filter_cons. cbn [msg_session_id].
      pose proof (session_by_id_none sid t s Hfind Hs) as Hne.
      destruct (decide (sid = ses_id s)) as [He|_]; [congruence|].
      rewrite filter_nil. cbn [length]. rewrite (Hexact s Hs).
      unfold messages_of. lia.
  - intros sid. unfold close_session, db_except.
    destruct (q_fault env) as [exc|].
    { destruct (is_SQLAlchemyError exc); cbn; auto. }
    destruct (session_by_id sid t) as [old|] eqn:Hfind; [|cbn; auto].
    destruct (c_fault env) as [exc|].
    { destruct (is_SQLAlchemyError exc); cbn; auto. }
    cbn [fst snd].
    destruct (session_by_id_spec sid t old Hfind) as [Hin Hid].
    split.
    + intros s Hs. unfold update_session in Hs. cbn [sessions] in Hs.
      apply in_map_iff in Hs as (s0 & Hs0 & Hin0). cbn [ses_id] in Hs0.
      rewrite (messages_of_unchanged _ t) by reflexivity.
      destruct (Z.eqb (ses_id s0) (ses_id old)) eqn:Heq.
      * subst s. cbn [ses_id ses_total_messages]. apply (Hexact old Hin).
      * subst s0. apply (Hexact s Hin0).
    + unfold update_session. cbn.
      match goal with
      | |- NoDup (map _ (map (fun z => if _ then ?d else z) ?l)) =>
          pose proof (map_update_keys ses_id d l) as Hkeys
      end.
      cbn in Hkeys. rewrite Hkeys. exact Hnd.
  - intros device_id connection_type Hfresh Hnone. unfold create_session, db_except.
    destruct (c_fault env) as [exc|].
    { destruct (is_SQLAlchemyError exc); cbn; auto. }
    cbn [fst snd]. split.
    + intros s Hs. cbn [sessions] in Hs.
      rewrite (messages_of_unchanged _ t) by reflexivity.
      apply in_app_or in Hs as [Hs|[<-|[]]]; [apply (Hexact s Hs)|].
      cbn [ses_id ses_total_messages]. rewrite Hnone. reflexivity.
    + cbn [sessions]. rewrite map_app. cbn. apply NoDup_app.
      split; [exact Hnd|]. split; [|apply NoDup_singleton].
      intros x Hx Hx'. apply list_elem_of_In in Hx'. destruct Hx' as [<-|[]].
      apply Hfresh. apply list_elem_of_In. exact Hx.
Qed.

Lemma message_counters_stay_exact_witness :
  counters_exact
    (snd (fst (log_message (fun _ => "12.3") 7 "Hello, TV!" true (Some 1234)
                 {| q_fault := None; c_fault := None; db_utcnow := 5; new_id := 1 |}
                 {| devices := [];
                    sessions := [ {| ses_id := 7; ses_device_id := 1;
                                     ses_connection_type := "local";
                                     ses_start_time := 1; ses_end_time := None;
                                     ses_total_messages := 0 |} ];
                    messages := [] |}))).
Proof.
  apply (proj1 (message_counters_stay_exact (fun _ => "12.3")
                  {| q_fault := None; c_fault := None; db_utcnow := 5; new_id := 1 |}
                  {| devices := [];
                     sessions := [ {| ses_id := 7; ses_device_id := 1;
                                      ses_connection_type := "local";
                                      ses_start_time := 1; ses_end_time := None;
                                      ses_total_messages := 0 |} ];
                     messages := [] |}
                  ltac:(intros s [<-|[]]; reflexivity)
                  ltac:(cbn; apply NoDup_singleton))
           7 "Hello, TV!" true (Some 1234)).
Defined.

(** * Properties of cast_service *)

Lemma py_truthy_spec p : py_truthy p = true → ∃ a, p = Some a ∧ a ≠ "".
Proof.
  destruct p as [a|]; [|discriminate]. cbn. intros H.
  exists a. split; [reflexivity|]. intros ->. discriminate H.
Qed.

Lemma not_receiver a :
  existsb (String.eqb a) cast_service.receiver_apps = false →
  ¬ In a cast_service.receiver_apps.
Proof.
  intros H Hin.
  assert (existsb (String.eqb a) cast_service.receiver_apps = true); [|congruence].
  apply existsb_exists. exists a. split; [exact Hin|apply String.eqb_refl].
Qed.

Lemma remembered_app_restorable app :
  restorable
    (if py_truthy app &&
        negb (existsb (String.eqb (py_str_opt app)) cast_service.receiver_apps)
     then app else None).
Proof.
  destruct (py_truthy app) eqn:Ht; [|intros a H; discriminate H].
  destruct (existsb _ _) eqn:Hex; cbn [andb negb]; [intros a H; discriminate H|].
  destruct (py_truthy_spec _ Ht) as (a & -> & Hne). cbn [py_str_opt] in Hex.
  intros a' [= <-]. split; [exact Hne|apply not_receiver, Hex].
Qed.

Lemma cast_display_page_prev FLASK_PORT env s :
  restorable (cast_service._prev_app_id s) →
  restorable (cast_service._prev_app_id
                (snd (fst (cast_service.cast_display_page FLASK_PORT env s)))).
Proof.
  intros Hrest. unfold cast_service.cast_display_page.
  destruct (cast_service._cast s) as [c|]; [|exact Hrest].
  destruct (cast_service._build_display_url _ _ _) as [[u|exc] ev]; [|exact Hrest].
  destruct (cast_service.register_fault env); [apply remembered_app_restorable|].
  destruct (cast_service.load_fault env); apply remembered_app_restorable.
Qed.

(** What [cast_display_page] reports and remembers.  Without a connection
    it only logs a warning and changes nothing.  With a connection, the
    flag [_cast_page_sent] afterwards is the value returned; when that is
    true, DashCast was asked to load
    "http://<ip>:<FLASK_PORT>/display?t=<now>" with force, where <ip> is the
    address of the interface that routes to the television, or the
    resolved host name when that address cannot be read.  The connection
    and the display text are never touched, and the application id kept for
    a later restoration is never empty and never DashCast, Backdrop or the
    Default Media Receiver. *)
Theorem cast_display_page_outcome FLASK_PORT env s :
  (cast_service._cast s = None →
     cast_service.cast_display_page FLASK_PORT env s =
     (false, s,
      [cast_service.CEffect
         (ELog WARNING "cast_display_page() called but Chromecast is not connected" [])])) ∧
  (cast_service._cast s ≠ None →
     cast_service._cast_page_sent
       (snd (fst (cast_service.cast_display_page FLASK_PORT env s))) =
     fst (fst (cast_service.cast_display_page FLASK_PORT env s))) ∧
  (fst (fst (cast_service.cast_display_page FLASK_PORT env s)) = true →
     ∃ ip,
       (cast_service.route_ip env = Some ip ∨
        (cast_service.route_ip env = None ∧ cast_service.resolved env = Ok ip)) ∧
       In (cast_service.CLoadUrl
             ("http://" +:+ ip +:+ ":" +:+ py_str_int FLASK_PORT +:+ "/display?t="
              +:+ py_str_int (cast_service.clock env)) true)
          (snd (cast_service.cast_display_page FLASK_PORT env s))) ∧
  cast_service._cast (snd (fst (cast_service.cast_display_page FLASK_PORT env s))) =
    cast_service._cast s ∧
  cast_service._current_text (snd (fst (cast_service.cast_display_page FLASK_PORT env s))) =
    cast_service._current_text s ∧
  (restorable (cast_service._prev_app_id s) →
   restorable (cast_service._prev_app_id
                 (snd (fst (cast_service.cast_display_page FLASK_PORT env s))))).
Proof.
  split; [|split; [|split; [|split; [|split]]]].
  - intros H. unfold cast_service.cast_display_page. rewrite H. reflexivity.
  - intros H. unfold cast_service.cast_display_page.
    destruct (cast_service._cast s) as [c|]; [|congruence].
    destruct (cast_service._build_display_url _ _ _) as [[u|exc] ev]; [|reflexivity].
    destruct (cast_service.register_fault env); [reflexivity|].
    destruct (cast_service.load_fault env); reflexivity.
  - unfold cast_service.cast_display_page.
    destruct (cast_service._cast s) as [c|]; [|discriminate].
    unfold cast_service._build_display_url, cast_service.get_mac_local_ip.
    destruct (cast_service.route_ip env) as [ip|].
    + destruct (cast_service.register_fault env); [discriminate|].
      destruct (cast_service.load_fault env); [discriminate|].
      intros _. exists ip. split; [left; reflexivity|].
      cbn [snd]. rewrite !in_app_iff. cbn. auto 10.
    + destruct (cast_service.resolved env) as [ip|exc]; [|discriminate].
      destruct (cast_service.register_fault env); [discriminate|].
      destruct (cast_service.load_fault env); [discriminate|].
      intros _. exists ip. split; [right; split; reflexivity|].
      cbn [snd]. rewrite !in_app_iff. cbn. auto 10.
  - unfold cast_service.cast_display_page.
    destruct (cast_service._cast s) as [c|] eqn:Hc; [|exact Hc].
    destruct (cast_service._build_display_url _ _ _) as [[u|exc] ev]; [|reflexivity].
    destruct (cast_service.register_fault env); [reflexivity|].
    destruct (cast_service.load_fault env); reflexivity.
  - unfold cast_service.cast_display_page.
    destruct (cast_service._cast s) as [c|]; [|reflexivity].
    destruct (cast_service._build_display_url _ _ _) as [[u|exc] ev]; [|reflexivity].
    destruct (cast_service.register_fault env); [reflexivity|].
    destruct (cast_service.load_fault env); reflexivity.
  - apply cast_display_page_prev.
Qed.

(** What [disconnect] does.  Afterwards the module holds no connection,
    whatever the television raised, and the display text is as it was.
    Without a connection nothing happens at all: in particular the packet
    monitor is not stopped.  With a connection the packet monitor is stopped
    first (with the default time-out) and is not running afterwards.  An
    application is relaunched only if its id was remembered, and only after
    [quit_app] succeeded.  The page flag and the remembered id are cleared
    only when nothing raised: if [quit_app] or the final disconnect raises,
    both keep their values. *)
Theorem disconnect_outcome env s m :
  cast_service._cast (fst (fst (cast_service.disconnect env s m))) = None ∧
  cast_service._current_text (fst (fst (cast_service.disconnect env s m))) =
    cast_service._current_text s ∧
  (cast_service._cast s = None → cast_service.disconnect env s m = (s, m, [])) ∧
  (cast_service._cast s ≠ None →
     snd (fst (cast_service.disconnect env s m)) =
       stop_monitor 50 (cast_service.exits_in_time env) m ∧
     is_running (snd (fst (cast_service.disconnect env s m))) = false) ∧
  (∀ a, In (cast_service.CStartApp a) (snd (cast_service.disconnect env s m)) →
     cast_service._prev_app_id s = Some a ∧ a ≠ "" ∧ cast_service.quit_fault env = None) ∧
  (cast_service._cast s ≠ None →
     (cast_service.quit_fault env = None ∧ cast_service.disconnect_fault env = None →
        cast_service._cast_page_sent (fst (fst (cast_service.disconnect env s m))) = false ∧
        cast_service._prev_app_id (fst (fst (cast_service.disconnect env s m))) = None) ∧
     (cast_service.quit_fault env ≠ None ∨ cast_service.disconnect_fault env ≠ None →
        cast_service._cast_page_sent (fst (fst (cast_service.disconnect env s m))) =
          cast_service._cast_page_sent s ∧
        cast_service._prev_app_id (fst (fst (cast_service.disconnect env s m))) =
          cast_service._prev_app_id s)).
Proof.
  unfold cast_service.disconnect.
  destruct (cast_service._cast s) as [c|] eqn:Hc.
  2:{ split; [exact Hc|]. split; [reflexivity|]. split; [reflexivity|].
      split; [congruence|]. split; [intros a []|congruence]. }
  split; [|split; [|split; [|split; [|split]]]].
  - destruct (cast_service.quit_fault env); [reflexivity|].
    destruct (cast_service.disconnect_fault env); reflexivity.
  - destruct (cast_service.quit_fault env); [reflexivity|].
    destruct (cast_service.disconnect_fault env); reflexivity.
  - discriminate.
  - intros _.
    destruct (cast_service.quit_fault env);
      [split; [reflexivity|apply is_running_after_stop]|].
    destruct (cast_service.disconnect_fault env);
      (split; [reflexivity|apply is_running_after_stop]).
  - intros a.
    destruct (cast_service.quit_fault env) as [exc|].
    { cbn. intros [H|[H|[H|[]]]]; discriminate H. }
    assert (Hrest : ∀ tail,
              (∀ x, In x tail → ∀ b, x ≠ cast_service.CStartApp b) →
              In (cast_service.CStartApp a)
                 ([cast_service.CEffect (ELog INFO "Quitting DashCast on TV..." []);
                   cast_service.CQuitApp] ++
                  (if py_truthy (cast_service._prev_app_id s)
                   then
                     [cast_service.CEffect
                        (ELog INFO "Attempting to restore previous App: %s"
                           [py_str_opt (cast_service._prev_app_id s)]);
                      cast_service.CStartApp (py_str_opt (cast_service._prev_app_id s))] ++
                     match cast_service.restore_fault env with
                     | None => [cast_service.CEffect (ESleep 1)]
                     | Some exc =>
                         [cast_service.CEffect
                            (ELog WARNING "Restoration failed (likely app requires user): %s"
                               [exn_str exc])]
                     end
                   else []) ++ tail) →
              cast_service._prev_app_id s = Some a ∧ a ≠ "" ∧ None = (None : option exn)).
    { intros tail Htail Hin.
      rewrite !in_app_iff in Hin.
      destruct Hin as [[H|[H|[]]]|[Hin|Hin]]; try discriminate H.
      - destruct (py_truthy (cast_service._prev_app_id s)) eqn:Ht; [|destruct Hin].
        destruct (py_truthy_spec _ Ht) as (b & Hb & Hne).
        rewrite Hb in Hin. cbn [py_str_opt] in Hin.
        rewrite in_app_iff in Hin.
        destruct Hin as [[H|[H|[]]]|Hin]; try discriminate H.
        + injection H as <-. auto.
        + destruct (cast_service.restore_fault env); destruct Hin as [H|[]]; discriminate H.
      - exfalso. apply (Htail _ Hin a). reflexivity. }
    destruct (cast_service.disconnect_fault env) as [exc|]; cbn [snd]; intros Hin.
    + apply (Hrest [cast_service.CDisconnect 5;
                    cast_service.CEffect
                      (ELog WARNING "Error during Chromecast disconnect: %s" [exn_str exc])]);
        [intros x [<-|[<-|[]]] b; discriminate|exact Hin].
    + apply (Hrest [cast_service.CDisconnect 5;
                    cast_service.CEffect (ELog INFO "Disconnected from Chromecast" [])]);
        [intros x [<-|[<-|[]]] b; discriminate|exact Hin].
  - intros _. split.
    + intros [-> ->]. split; reflexivity.
    + intros [H|H].
      * destruct (cast_service.quit_fault env); [split; reflexivity|congruence].
      * destruct (cast_service.quit_fault env); [split; reflexivity|].
        destruct (cast_service.disconnect_fault env); [split; reflexivity|congruence].
Qed.

(** * Properties of the routes that drive the monitor *)

Lemma get_or_create_session_cached TV_IP TV_NAME TV_MAC a env_dev env_ses st id :
  cast_routes._active_session_id (cast_routes.routes st) = Some id →
  cast_routes._get_or_create_session TV_IP TV_NAME TV_MAC a env_dev env_ses st =
  (Some id, st, []).
Proof. intros H. unfold cast_routes._get_or_create_session. rewrite H. reflexivity. Qed.

(** What [_get_or_create_session] can do to the session id and the monitor:
    nothing, or set the id and start the monitor for it if it is not running. *)
Lemma get_or_create_session_cases TV_IP TV_NAME TV_MAC a env_dev env_ses st :
  let r := cast_routes._get_or_create_session TV_IP TV_NAME TV_MAC a env_dev env_ses st in
  cast_routes.cast (snd (fst r)) = cast_routes.cast st ∧
  cast_routes._cast_page_sent (cast_routes.routes (snd (fst r))) =
    cast_routes._cast_page_sent (cast_routes.routes st) ∧
  ((cast_routes._active_session_id (cast_routes.routes (snd (fst r))) =
      cast_routes._active_session_id (cast_routes.routes st) ∧
    cast_routes.monitor_state (snd (fst r)) = cast_routes.monitor_state st ∧
    (fst (fst r) = cast_routes._active_session_id (cast_routes.routes st) ∨
     fst (fst r) = None)) ∨
   (∃ id,
      cast_routes._active_session_id (cast_routes.routes st) = None ∧
      cast_routes._active_session_id (cast_routes.routes (snd (fst r))) = Some id ∧
      fst (fst r) = Some id ∧
      cast_routes.monitor_state (snd (fst r)) =
        if is_running (cast_routes.monitor_state st) then cast_routes.monitor_state st
        else snd (start_monitor TV_IP id a (cast_routes.monitor_state st)))).
Proof.
  cbv zeta. unfold cast_routes._get_or_create_session.
  destruct (cast_routes._active_session_id (cast_routes.routes st)) as [id|] eqn:Hid.
  { cbn. rewrite Hid. auto 10. }
  destruct (get_or_create_device _ _ _ _ _) as [[[[d|]|exc] t1] lg1]; cbn;
    try (rewrite Hid; auto 10).
  destruct (create_session _ _ _ _) as [[[[ses|]|exc] t2] lg2]; cbn;
    try (rewrite Hid; auto 10).
  destruct (is_running (cast_routes.monitor_state st)); cbn;
    (split; [reflexivity|]); (split; [reflexivity|]); right; exists (ses_id ses); auto.
Qed.

Lemma disconnect_monitor env s m :
  snd (fst (cast_service.disconnect env s m)) =
  match cast_service._cast s with
  | Some _ => stop_monitor 50 (cast_service.exits_in_time env) m
  | None => m
  end.
Proof.
  unfold cast_service.disconnect.
  destruct (cast_service._cast s); [|reflexivity].
  destruct (cast_service.quit_fault env); [reflexivity|].
  destruct (cast_service.disconnect_fault env); reflexivity.
Qed.

Lemma update_display_text_frame text c :
  cast_service._cast (fst (cast_service.update_display_text text c)) = cast_service._cast c ∧
  cast_service._prev_app_id (fst (cast_service.update_display_text text c)) =
    cast_service._prev_app_id c.
Proof. split; reflexivity. Qed.

(** [send_text] either refuses the body and changes nothing, or ends with
    [_get_or_create_session] on a state that has the monitor and the cached
    session id it found, followed at most by a write to the tables. *)
Lemma send_text_cases TV_IP TV_NAME TV_MAC FLASK_PORT fmt_1f body env a env_dev env_ses env_msg st :
  snd (fst (cast_routes.send_text TV_IP TV_NAME TV_MAC FLASK_PORT fmt_1f body env a
              env_dev env_ses env_msg st)) = st ∨
  ∃ st1,
    cast_routes.monitor_state st1 = cast_routes.monitor_state st ∧
    cast_routes._active_session_id (cast_routes.routes st1) =
      cast_routes._active_session_id (cast_routes.routes st) ∧
    (restorable (cast_service._prev_app_id (cast_routes.cast st)) →
     restorable (cast_service._prev_app_id (cast_routes.cast st1))) ∧
    cast_routes.monitor_state
      (snd (fst (cast_routes.send_text TV_IP TV_NAME TV_MAC FLASK_PORT fmt_1f body env a
                   env_dev env_ses env_msg st))) =
      cast_routes.monitor_state
        (snd (fst (cast_routes._get_or_create_session TV_IP TV_NAME TV_MAC a env_dev
                     env_ses st1))) ∧
    cast_routes.routes
      (snd (fst (cast_routes.send_text TV_IP TV_NAME TV_MAC FLASK_PORT fmt_1f body env a
                   env_dev env_ses env_msg st))) =
      cast_routes.routes
        (snd (fst (cast_routes._get_or_create_session TV_IP TV_NAME TV_MAC a env_dev
                     env_ses st1))) ∧
    cast_routes.cast
      (snd (fst (cast_routes.send_text TV_IP TV_NAME TV_MAC FLASK_PORT fmt_1f body env a
                   env_dev env_ses env_msg st))) =
      cast_routes.cast
        (snd (fst (cast_routes._get_or_create_session TV_IP TV_NAME TV_MAC a env_dev
                     env_ses st1))).
Proof.
  unfold cast_routes.send_text.
  destruct body as [|text]; [left; reflexivity|].
  destruct (String.eqb text ""); [left; reflexivity|].
  right. cbv zeta.
  match goal with
  | |- context [cast_routes._get_or_create_session _ _ _ _ _ _ ?s1] => exists s1
  end.
  split; [reflexivity|]. split; [reflexivity|]. split.
  - intros Hrest. cbn [cast_routes.cast cast_routes.with_routes cast_routes.with_cast].
    rewrite (proj2 (update_display_text_frame _ _)).
    assert (Hc : restorable (cast_service._prev_app_id
              (fst (if cast_service.online
                         (cast_service.get_connection_status TV_IP TV_NAME
                            (cast_routes.status_fault env) (cast_routes.cast st))
                    then (cast_routes.cast st, [])
                    else
                      match cast_service.init_chromecast TV_IP TV_NAME 10
                              (cast_routes.reconnect env) (cast_routes.cast st) with
                      | (_, c, ev) =>
                          (c, cast_routes.logged INFO
                                "TV not connected — attempting auto-connect before send" []
                              :: ev)
                      end)))).
    { destruct (cast_service.online _); [exact Hrest|].
      destruct (cast_routes.reconnect env); exact Hrest. }
    destruct (cast_routes._cast_page_sent (cast_routes.routes st)); [exact Hc|].
    match goal with
    | |- context [cast_service.cast_display_page FLASK_PORT ?e ?c0] =>
        pose proof (cast_display_page_prev FLASK_PORT e c0 Hc) as Hp;
        destruct (cast_service.cast_display_page FLASK_PORT e c0) as [[[|] c2] ev2]
    end; exact Hp.
  - destruct (cast_routes._get_or_create_session _ _ _ _ _ _ _) as [[[id|] st2] ev];
      [|auto].
    destruct (log_message _ _ _ _ _ _ _) as [[[msg|exc] t] lg]; auto.
Qed.

(** What one request can do to the cached session id and the monitor. *)
Lemma serve_cases TV_IP TV_NAME TV_MAC FLASK_PORT fmt_1f st r :
  let st' := cast_routes.serve TV_IP TV_NAME TV_MAC FLASK_PORT fmt_1f st r in
  let active s := cast_routes._active_session_id (cast_routes.routes s) in
  (active st' = active st ∧
   (cast_routes.monitor_state st' = cast_routes.monitor_state st ∨
    (∃ timeout j, cast_routes.monitor_state st' =
                  stop_monitor timeout j (cast_routes.monitor_state st)) ∨
    (∃ t, cast_routes.monitor_state st' = thread_exit t (cast_routes.monitor_state st)))) ∨
  (∃ id a,
     active st = None ∧ active st' = Some id ∧
     cast_routes.monitor_state st' =
       if is_running (cast_routes.monitor_state st) then cast_routes.monitor_state st
       else snd (start_monitor TV_IP id a (cast_routes.monitor_state st))).
Proof.
  cbv zeta.
  destruct r as [outcome penv a env_dev env_ses|env|body senv a env_dev env_ses env_msg| |t|j];
    cbn [cast_routes.serve].
  - unfold cast_routes.connect_to_tv.
    destruct outcome as [c|msg|msg|exc]; cbn [cast_service.init_chromecast];
      try (left; split; [reflexivity|left; reflexivity]).
    destruct (cast_service.cast_display_page _ _ _) as [[casted c2] ev2].
    match goal with
    | |- context [cast_routes._get_or_create_session _ _ _ _ _ _ ?s2] =>
        pose proof (get_or_create_session_cases TV_IP TV_NAME TV_MAC a env_dev env_ses s2)
          as Hc;
        destruct (cast_routes._get_or_create_session TV_IP TV_NAME TV_MAC a env_dev
                    env_ses s2) as [[sid st3] ev3]
    end.
    cbv zeta in Hc. cbn in Hc. cbn [fst snd].
    destruct Hc as (_ & _ & [(H1 & H2 & _)|(id & H1 & H2 & _ & H3)]).
    + left. split; [exact H1|left; exact H2].
    + right. exists id, a. auto.
  - unfold cast_routes.disconnect_from_tv.
    pose proof (disconnect_monitor env (cast_routes.cast st) (cast_routes.monitor_state st))
      as Hm.
    destruct (cast_service.disconnect env _ _) as [[c1 m1] ev]. cbn in *.
    left. split; [reflexivity|]. subst m1.
    destruct (cast_service._cast (cast_routes.cast st)); [|left; reflexivity].
    right. left. eauto.
  - destruct (send_text_cases TV_IP TV_NAME TV_MAC FLASK_PORT fmt_1f body senv a env_dev
                env_ses env_msg st) as [->|(st1 & Hm & Ha & _ & Hm' & Hr' & _)];
      [left; split; [reflexivity|left; reflexivity]|].
    rewrite Hm', Hr', <- Hm, <- Ha.
    pose proof (get_or_create_session_cases TV_IP TV_NAME TV_MAC a env_dev env_ses st1) as Hc.
    cbv zeta in Hc.
    destruct Hc as (_ & _ & [(H1 & H2 & _)|(id & H1 & H2 & _ & H3)]).
    + left. split; [exact H1|left; exact H2].
    + right. exists id, a. auto.
  - left. split; [reflexivity|left; reflexivity].
  - left. split; [reflexivity|]. right. right. eauto.
  - left. split; [reflexivity|]. right. left. eauto.
Qed.

Lemma alter_exit_session t l th' :
  In th' (alter (fun th => {| t_session_id := t_session_id th; t_app := t_app th;
                              t_stop_event := t_stop_event th; t_alive := false |}) t l) →
  ∃ th, In th l ∧ t_session_id th' = t_session_id th.
Proof.
  revert t. induction l as [|x l IH]; intros t Hin; [destruct t; destruct Hin|].
  destruct t as [|t]; cbn in Hin.
  - destruct Hin as [Heq|Hin]; [exists x; subst th'; split; [left|]; reflexivity|].
    exists th'. split; [right; exact Hin|reflexivity].
  - destruct Hin as [Heq|Hin]; [exists x; subst th'; split; [left|]; reflexivity|].
    destruct (IH t Hin) as (th & Hth & Heq). exists th. split; [right; exact Hth|exact Heq].
Qed.

Lemma stop_monitor_threads timeout j m :
  length (threads (stop_monitor timeout j m)) = length (threads m) ∧
  ∀ th', In th' (threads (stop_monitor timeout j m)) →
         ∃ th, In th (threads m) ∧ t_session_id th' = t_session_id th.
Proof.
  unfold stop_monitor.
  destruct (_monitor_thread m) as [t|]; [|cbn; eauto].
  destruct (is_alive m t); cbn [negb]; [|cbn; eauto].
  destruct (_stop_event m), j;
    match goal with |- context [if ?b then _ else _] => destruct b end;
    cbn; rewrite ?length_alter; (split; [reflexivity|]);
    intros th' Hin; try (apply alter_exit_session in Hin; exact Hin); eauto.
Qed.

Lemma is_running_thread_exit t m :
  is_running m = false → is_running (thread_exit t m) = false.
Proof.
  unfold is_running, is_alive, thread_exit. cbn.
  destruct (_monitor_thread m) as [t0|]; [|reflexivity].
  rewrite list_lookup_alter.
  destruct (decide (t = t0)) as [->|_]; [|auto].
  destruct (threads m !! t0); cbn; auto.
Qed.

Lemma stop_monitor_session timeout j m :
  _current_session_id (stop_monitor timeout j m) = _current_session_id m.
Proof.
  unfold stop_monitor.
  destruct (_monitor_thread m) as [t|]; [|reflexivity].
  destruct (is_alive m t); cbn [negb]; [|reflexivity].
  destruct (_stop_event m), j;
    match goal with |- context [if ?b then _ else _] => destruct b end; reflexivity.
Qed.

Lemma capture_once_serve TV_IP TV_NAME TV_MAC FLASK_PORT fmt_1f st r :
  capture_once st → capture_once (cast_routes.serve TV_IP TV_NAME TV_MAC FLASK_PORT fmt_1f st r).
Proof.
  unfold capture_once.
  pose proof (serve_cases TV_IP TV_NAME TV_MAC FLASK_PORT fmt_1f st r) as Hc. cbv zeta in Hc.
  destruct Hc as [(Ha & [Hm|[(timeout & j & Hm)|(t & Hm)]])|(id & a & Ha & Ha' & Hm)];
    rewrite ?Ha, ?Ha', Hm.
  - auto.
  - destruct (stop_monitor_threads timeout j (cast_routes.monitor_state st)) as [Hl Hs].
    rewrite stop_monitor_session.
    destruct (cast_routes._active_session_id (cast_routes.routes st)) as [id|].
    + intros (Hcur & th & Hth & Hid). split; [exact Hcur|].
      rewrite Hth in Hl, Hs.
      destruct (threads (stop_monitor timeout j _)) as [|th' [|? ?]]; try discriminate Hl.
      exists th'. split; [reflexivity|].
      destruct (Hs th' (or_introl eq_refl)) as (th0 & [<-|[]] & ->). exact Hid.
    + intros Hnone. rewrite Hnone in Hl.
      destruct (threads (stop_monitor timeout j _)); [reflexivity|discriminate Hl].
  - cbn [thread_exit threads _current_session_id].
    destruct (cast_routes._active_session_id (cast_routes.routes st)) as [id|].
    + intros (Hcur & th & Hth & Hid). split; [exact Hcur|]. rewrite Hth.
      destruct t as [|t]; cbn; eauto.
    + intros ->. reflexivity.
  - intros Hnone.
    assert (Hr : is_running (cast_routes.monitor_state st) = false).
    { unfold is_running, is_alive. rewrite Hnone.
      destruct (_monitor_thread _); reflexivity. }
    rewrite Hr, start_monitor_idle by exact Hr.
    cbn [snd add_log threads _current_session_id].
    rewrite Hnone. cbn. eauto.
Qed.

Lemma capture_once_serve_all TV_IP TV_NAME TV_MAC FLASK_PORT fmt_1f rs st :
  capture_once st →
  capture_once (cast_routes.serve_all TV_IP TV_NAME TV_MAC FLASK_PORT fmt_1f rs st).
Proof.
  unfold cast_routes.serve_all. revert st.
  induction rs as [|r rs IH]; intros st H; [exact H|].
  cbn [fold_left]. apply IH, capture_once_serve, H.
Qed.

Lemma capture_once_fresh st :
  cast_routes._active_session_id (cast_routes.routes st) = None →
  threads (cast_routes.monitor_state st) = [] →
  capture_once st.
Proof. intros Ha Ht. unfold capture_once. rewrite Ha. exact Ht. Qed.

(** With requests served one at a time, the routes start packet capture
    exactly once in the life of the process, when the session id is first
    obtained.  Start from any state with no cached session id and no
    capture thread (as the process is after [set_socketio] at start-up).
    At any point of any history of connect, disconnect and send requests,
    requests to the other routes, capture thread ends and the exit hook,
    none of which begins before the one before it has returned: as long as
    no session id is cached no capture thread has been created; once an id
    is cached exactly one thread has ever been created, it was created for
    that id, and the monitor holds that id as its current session. *)
Theorem capture_started_at_most_once TV_IP TV_NAME TV_MAC FLASK_PORT fmt_1f rs st0 :
  cast_routes._active_session_id (cast_routes.routes st0) = None →
  threads (cast_routes.monitor_state st0) = [] →
  (cast_routes._active_session_id
     (cast_routes.routes
        (cast_routes.serve_all TV_IP TV_NAME TV_MAC FLASK_PORT fmt_1f rs st0)) = None →
   threads (cast_routes.monitor_state
              (cast_routes.serve_all TV_IP TV_NAME TV_MAC FLASK_PORT fmt_1f rs st0))
     = []) ∧
  (∀ id,
     cast_routes._active_session_id
       (cast_routes.routes
          (cast_routes.serve_all TV_IP TV_NAME TV_MAC FLASK_PORT fmt_1f rs st0)) = Some id →
     _current_session_id
       (cast_routes.monitor_state
          (cast_routes.serve_all TV_IP TV_NAME TV_MAC FLASK_PORT fmt_1f rs st0)) = Some id ∧
     ∃ th,
       threads (cast_routes.monitor_state
                  (cast_routes.serve_all TV_IP TV_NAME TV_MAC FLASK_PORT fmt_1f rs st0)) = [th] ∧
       t_session_id th = id).
Proof.
  intros Ha Ht.
  pose proof (capture_once_serve_all TV_IP TV_NAME TV_MAC FLASK_PORT fmt_1f rs st0
                (capture_once_fresh st0 Ha Ht)) as H.
  unfold capture_once in H. clear Ha Ht.
  destruct (cast_routes._active_session_id _) as [id|].
  - split; [discriminate|]. intros id' [= <-]. exact H.
  - split; [intros _; exact H|discriminate].
Qed.

Lemma capture_started_at_most_once_witness :
  cast_routes._active_session_id (cast_routes.routes booted) = None ∧
  threads (cast_routes.monitor_state booted) = [] ∧
  ∃ th,
    threads (cast_routes.monitor_state
               (cast_routes.serve_all "203.0.113.50" "Living Room TV" "4c:31:2d:ef:2a:39" 5000
                  shown_latency
                  [cast_routes.Connect (cast_service.Connected living_room_tv) page_ok
                     0%nat db_ok db_ok;
                   cast_routes.Disconnect leave_ok;
                   cast_routes.Connect (cast_service.Connected living_room_tv) page_ok
                     0%nat db_ok db_ok]
                  booted)) = [th] ∧
    t_session_id th = 1.
Proof.
  split; [reflexivity|]. split; [reflexivity|].
  destruct (capture_started_at_most_once "203.0.113.50" "Living Room TV"
              "4c:31:2d:ef:2a:39" 5000 shown_latency
              [cast_routes.Connect (cast_service.Connected living_room_tv) page_ok
                 0%nat db_ok db_ok;
               cast_routes.Disconnect leave_ok;
               cast_routes.Connect (cast_service.Connected living_room_tv) page_ok
                 0%nat db_ok db_ok]
              booted eq_refl eq_refl) as [_ H].
  destruct (H 1 eq_refl) as (_ & th & Hth & Hid).
  exists th. split; [exact Hth|exact Hid].
Defined.

(** With requests served one at a time, once the monitor has been stopped
    it is not started again: from any state in which a session id is
    cached and the monitor is not running, no history of connect,
    disconnect and send requests, requests to the other routes, capture
    thread ends and the exit hook, none of which begins before the one
    before it has returned, makes it run.  In particular a reconnect or a
    send after a disconnect finds the cached session id and does not resume
    capture. *)
Theorem capture_not_resumed TV_IP TV_NAME TV_MAC FLASK_PORT fmt_1f rs st id :
  cast_routes._active_session_id (cast_routes.routes st) = Some id →
  is_running (cast_routes.monitor_state st) = false →
  cast_routes._active_session_id
    (cast_routes.routes (cast_routes.serve_all TV_IP TV_NAME TV_MAC FLASK_PORT fmt_1f rs st))
    = Some id ∧
  is_running (cast_routes.monitor_state
                (cast_routes.serve_all TV_IP TV_NAME TV_MAC FLASK_PORT fmt_1f rs st)) = false ∧
  length (threads (cast_routes.monitor_state
                     (cast_routes.serve_all TV_IP TV_NAME TV_MAC FLASK_PORT fmt_1f rs st))) =
    length (threads (cast_routes.monitor_state st)).
Proof.
  unfold cast_routes.serve_all. revert st.
  induction rs as [|r rs IH]; intros st Hid Hr; [auto|].
  cbn [fold_left].
  pose proof (serve_cases TV_IP TV_NAME TV_MAC FLASK_PORT fmt_1f st r) as Hc. cbv zeta in Hc.
  destruct Hc as [(Ha & [Hm|[(timeout & j & Hm)|(t & Hm)]])|(id' & a & Ha & _)];
    [| | |congruence].
  - destruct (IH _ (eq_trans Ha Hid)) as (H1 & H2 & H3); [rewrite Hm; exact Hr|].
    rewrite Hm in H3. auto.
  - destruct (IH _ (eq_trans Ha Hid)) as (H1 & H2 & H3);
      [rewrite Hm; apply is_running_after_stop|].
    rewrite Hm in H3.
    rewrite (proj1 (stop_monitor_threads timeout j _)) in H3. auto.
  - destruct (IH _ (eq_trans Ha Hid)) as (H1 & H2 & H3);
      [rewrite Hm; apply is_running_thread_exit, Hr|].
    rewrite Hm in H3. cbn [thread_exit threads] in H3. rewrite length_alter in H3. auto.
Qed.

Lemma capture_not_resumed_witness :
  is_running
    (cast_routes.monitor_state
       (cast_routes.serve_all "203.0.113.50" "Living Room TV" "4c:31:2d:ef:2a:39" 5000
          shown_latency
          [cast_routes.Connect (cast_service.Connected living_room_tv) page_ok
             0%nat db_ok db_ok;
           cast_routes.Disconnect leave_ok;
           cast_routes.Connect (cast_service.Connected living_room_tv) page_ok
             0%nat db_ok db_ok;
           cast_routes.Send (cast_routes.Text "Hello, TV!") send_ok 0%nat db_ok db_ok db_ok]
          booted)) = false.
Proof.
  exact (proj1 (proj2
    (capture_not_resumed "203.0.113.50" "Living Room TV" "4c:31:2d:ef:2a:39" 5000
       shown_latency
       [cast_routes.Connect (cast_service.Connected living_room_tv) page_ok
          0%nat db_ok db_ok;
        cast_routes.Send (cast_routes.Text "Hello, TV!") send_ok 0%nat db_ok db_ok db_ok]
       (cast_routes.serve_all "203.0.113.50" "Living Room TV" "4c:31:2d:ef:2a:39" 5000
          shown_latency
          [cast_routes.Connect (cast_service.Connected living_room_tv) page_ok
             0%nat db_ok db_ok;
           cast_routes.Disconnect leave_ok]
          booted)
       1 eq_refl eq_refl))).
Defined.

Lemma cast_display_page_frame FLASK_PORT env s :
  cast_service._cast (snd (fst (cast_service.cast_display_page FLASK_PORT env s))) =
    cast_service._cast s ∧
  cast_service._current_text (snd (fst (cast_service.cast_display_page FLASK_PORT env s))) =
    cast_service._current_text s ∧
  cast_service._cast_page_sent
    (snd (fst (cast_service.cast_display_page FLASK_PORT env s))) =
    match cast_service._cast s with
    | Some _ => fst (fst (cast_service.cast_display_page FLASK_PORT env s))
    | None => cast_service._cast_page_sent s
    end.
Proof.
  unfold cast_service.cast_display_page.
  destruct (cast_service._cast s) as [c|] eqn:Hc; [|auto].
  destruct (cast_service._build_display_url _ _ _) as [[u|exc] ev]; [|auto].
  destruct (cast_service.register_fault env); [auto|].
  destruct (cast_service.load_fault env); auto.
Qed.

(** The answers of [POST /api/cast/connect].  When the television cannot
    be reached the answer is 503 and the process is left as it was.
    Otherwise the answer is 200, whatever the database does and whether or
    not the page could be cast: [display_cast] reports the page, the
    connection is held afterwards, the display text is kept, the flag of
    [cast_service] is the value reported and the flag of the routes is
    raised when the page was cast and never lowered. *)
Theorem connect_to_tv_answers TV_IP TV_NAME TV_MAC FLASK_PORT outcome penv a env_dev env_ses st :
  ((∀ c, outcome ≠ cast_service.Connected c) →
   fst (cast_routes.connect_to_tv TV_IP TV_NAME TV_MAC FLASK_PORT outcome penv a
          env_dev env_ses st) =
   (cast_routes.Connect503
      ("Could not connect to TV at " +:+ TV_IP +:+
       ". Make sure the TV is on, on the same WiFi, and Chromecast is enabled."),
    st)) ∧
  (∀ c, outcome = cast_service.Connected c →
     ∃ message casted,
       fst (fst (cast_routes.connect_to_tv TV_IP TV_NAME TV_MAC FLASK_PORT outcome penv a
                   env_dev env_ses st)) =
         cast_routes.Connect200 message TV_IP TV_NAME casted ∧
       (casted = true →
        ∃ url, In (cast_service.CLoadUrl url true)
                  (snd (cast_routes.connect_to_tv TV_IP TV_NAME TV_MAC FLASK_PORT outcome
                          penv a env_dev env_ses st))) ∧
       cast_service._cast
         (cast_routes.cast
            (snd (fst (cast_routes.connect_to_tv TV_IP TV_NAME TV_MAC FLASK_PORT outcome
                         penv a env_dev env_ses st)))) = Some c ∧
       cast_service._current_text
         (cast_routes.cast
            (snd (fst (cast_routes.connect_to_tv TV_IP TV_NAME TV_MAC FLASK_PORT outcome
                         penv a env_dev env_ses st)))) =
         cast_service._current_text (cast_routes.cast st) ∧
       cast_service._cast_page_sent
         (cast_routes.cast
            (snd (fst (cast_routes.connect_to_tv TV_IP TV_NAME TV_MAC FLASK_PORT outcome
                         penv a env_dev env_ses st)))) = casted ∧
       cast_routes._cast_page_sent
         (cast_routes.routes
            (snd (fst (cast_routes.connect_to_tv TV_IP TV_NAME TV_MAC FLASK_PORT outcome
                         penv a env_dev env_ses st)))) =
         casted || cast_routes._cast_page_sent (cast_routes.routes st)).
Proof.
  split.
  - intros Hno. unfold cast_routes.connect_to_tv.
    destruct outcome as [c|msg|msg|exc]; [destruct (Hno c eq_refl)| | |];
      cbn; destruct st as [r [c0 tx sent prev] m t]; reflexivity.
  - intros c ->. unfold cast_routes.connect_to_tv. cbn [cast_service.init_chromecast].
    match goal with
    | |- context [cast_service.cast_display_page FLASK_PORT penv ?s1] =>
        pose proof (cast_display_page_frame FLASK_PORT penv s1) as (Hc & Htx & Hsent);
        assert (Hload : fst (fst (cast_service.cast_display_page FLASK_PORT penv s1)) = true →
                        ∃ url, In (cast_service.CLoadUrl url true)
                                  (snd (cast_service.cast_display_page FLASK_PORT penv s1)));
        [|destruct (cast_service.cast_display_page FLASK_PORT penv s1) as [[casted c2] ev2]]
    end.
    { unfold cast_service.cast_display_page. cbn [cast_service._cast].
      destruct (cast_service._build_display_url _ _ _) as [[u|exc] ev]; [|discriminate].
      destruct (cast_service.register_fault penv); [discriminate|].
      destruct (cast_service.load_fault penv); [discriminate|].
      intros _. exists u. cbn [snd]. rewrite !in_app_iff. cbn. auto 10. }
    cbn [fst snd cast_service._cast cast_service._current_text] in Hc, Htx, Hsent, Hload.
    match goal with
    | |- context [cast_routes._get_or_create_session _ _ _ _ _ _ ?s2] =>
        pose proof (get_or_create_session_cases TV_IP TV_NAME TV_MAC a env_dev env_ses s2)
          as Hs;
        destruct (cast_routes._get_or_create_session TV_IP TV_NAME TV_MAC a env_dev
                    env_ses s2) as [[sid st3] ev3]
    end.
    cbv zeta in Hs. cbn in Hs. destruct Hs as (Hcast & Hflag & _).
    cbn [fst snd]. rewrite Hcast, Hflag.
    eexists _, casted. split; [reflexivity|].
    split.
    { intros Ht. destruct (Hload Ht) as (url & Hin). exists url.
      right. rewrite !in_app_iff. auto. }
    split; [exact Hc|]. split; [exact Htx|]. split; [exact Hsent|].
    destruct casted; reflexivity.
Qed.

Lemma disconnect_start_app env s m a :
  In (cast_service.CStartApp a) (snd (cast_service.disconnect env s m)) →
  cast_service._prev_app_id s = Some a ∧ cast_service.quit_fault env = None.
Proof.
  unfold cast_service.disconnect.
  destruct (cast_service._cast s); [|intros []].
  destruct (cast_service.quit_fault env).
  { cbn. intros [H|[H|[H|[]]]]; discriminate H. }
  destruct (cast_service._prev_app_id s) as [b|]; cbn [py_truthy py_str_opt];
    [destruct (negb (b =? ""))%string|];
    destruct (cast_service.restore_fault env), (cast_service.disconnect_fault env);
    cbn; intros H; decompose [or] H; try discriminate; try contradiction;
    match goal with
    | E : cast_service.CStartApp _ = cast_service.CStartApp _ |- _ =>
        injection E as <-; split; reflexivity
    end.
Qed.

Lemma disconnect_prev env s m :
  restorable (cast_service._prev_app_id s) →
  restorable (cast_service._prev_app_id (fst (fst (cast_service.disconnect env s m)))).
Proof.
  intros Hrest. unfold cast_service.disconnect.
  destruct (cast_service._cast s); [|exact Hrest].
  destruct (cast_service.quit_fault env); [exact Hrest|].
  destruct (cast_service.disconnect_fault env); [exact Hrest|].
  intros a H. discriminate H.
Qed.

Lemma restorable_serve TV_IP TV_NAME TV_MAC FLASK_PORT fmt_1f st r :
  restorable (cast_service._prev_app_id (cast_routes.cast st)) →
  restorable (cast_service._prev_app_id
                (cast_routes.cast (cast_routes.serve TV_IP TV_NAME TV_MAC FLASK_PORT fmt_1f st r))).
Proof.
  intros Hrest.
  destruct r as [outcome penv a env_dev env_ses|env|body senv a env_dev env_ses env_msg| |t|j];
    cbn [cast_routes.serve].
  - unfold cast_routes.connect_to_tv.
    destruct outcome as [c|msg|msg|exc]; cbn [cast_service.init_chromecast];
      try exact Hrest.
    match goal with
    | |- context [cast_service.cast_display_page FLASK_PORT penv ?s1] =>
        pose proof (cast_display_page_prev FLASK_PORT penv s1 Hrest) as Hp;
        destruct (cast_service.cast_display_page FLASK_PORT penv s1) as [[casted c2] ev2]
    end.
    match goal with
    | |- context [cast_routes._get_or_create_session _ _ _ _ _ _ ?s2] =>
        pose proof (get_or_create_session_cases TV_IP TV_NAME TV_MAC a env_dev env_ses s2)
          as Hs;
        destruct (cast_routes._get_or_create_session TV_IP TV_NAME TV_MAC a env_dev
                    env_ses s2) as [[sid st3] ev3]
    end.
    cbv zeta in Hs. cbn in Hs. destruct Hs as (Hcast & _).
    cbn [fst snd] in *. rewrite Hcast. exact Hp.
  - unfold cast_routes.disconnect_from_tv.
    pose proof (disconnect_prev env (cast_routes.cast st) (cast_routes.monitor_state st)
                  Hrest) as Hp.
    destruct (cast_service.disconnect env _ _) as [[c1 m1] ev]. exact Hp.
  - destruct (send_text_cases TV_IP TV_NAME TV_MAC FLASK_PORT fmt_1f body senv a env_dev
                env_ses env_msg st) as [->|(st1 & _ & _ & Hp & _ & _ & Hc')];
      [exact Hrest|].
    rewrite Hc'.
    pose proof (get_or_create_session_cases TV_IP TV_NAME TV_MAC a env_dev env_ses st1) as Hs.
    cbv zeta in Hs. destruct Hs as (Hcast & _). rewrite Hcast. exact (Hp Hrest).
  - exact Hrest.
  - exact Hrest.
  - exact Hrest.
Qed.

(** With requests served one at a time, a disconnect relaunches only an
    application that is not one of the Cast receivers.  From any state
    whose remembered application is restorable (none is remembered at
    start-up), after any history of connect, disconnect and send requests,
    requests to the other routes, capture thread ends and the exit hook,
    none of which begins before the one before it has returned: if a
    disconnect asks the television to start an application, its id is not
    empty, it is none of DashCast, Backdrop and the Default Media Receiver,
    and [quit_app] had succeeded. *)
Theorem disconnect_restores_foreign_app_only TV_IP TV_NAME TV_MAC FLASK_PORT fmt_1f rs st0 env a :
  restorable (cast_service._prev_app_id (cast_routes.cast st0)) →
  In (cast_service.CStartApp a)
     (snd (cast_routes.disconnect_from_tv env
             (cast_routes.serve_all TV_IP TV_NAME TV_MAC FLASK_PORT fmt_1f rs st0))) →
  a ≠ "" ∧ ¬ In a cast_service.receiver_apps ∧ cast_service.quit_fault env = None.
Proof.
  intros Hrest.
  assert (Hall : restorable
            (cast_service._prev_app_id
               (cast_routes.cast
                  (cast_routes.serve_all TV_IP TV_NAME TV_MAC FLASK_PORT fmt_1f rs st0)))).
  { unfold cast_routes.serve_all. revert st0 Hrest.
    induction rs as [|r rs IH]; intros st0 Hrest; [exact Hrest|].
    cbn [fold_left]. apply IH, restorable_serve, Hrest. }
  unfold cast_routes.disconnect_from_tv.
  pose proof (disconnect_start_app env
                (cast_routes.cast
                   (cast_routes.serve_all TV_IP TV_NAME TV_MAC FLASK_PORT fmt_1f rs st0))
                (cast_routes.monitor_state
                   (cast_routes.serve_all TV_IP TV_NAME TV_MAC FLASK_PORT fmt_1f rs st0)) a) as Hs.
  destruct (cast_service.disconnect env _ _) as [[c1 m1] ev]. cbn [snd] in *.
  intros Hin. destruct (Hs Hin) as [Hprev Hq].
  destruct (Hall a Hprev) as [Hne Hnr]. auto.
Qed.

Lemma disconnect_restores_foreign_app_only_witness :
  restorable (cast_service._prev_app_id (cast_routes.cast booted)) ∧
  In (cast_service.CStartApp "233637DE")
     (snd (cast_routes.disconnect_from_tv leave_ok
             (cast_routes.serve_all "203.0.113.50" "Living Room TV" "4c:31:2d:ef:2a:39" 5000
                shown_latency
                [cast_routes.Send (cast_routes.Text "Hello, TV!") send_ok 0%nat
                   db_down db_ok db_ok]
                booted))) ∧
  ¬ In "233637DE" cast_service.receiver_apps.
Proof.
  split; [intros a H; discriminate H|].
  split; [cbn; auto 10|].
  exact (proj1 (proj2
    (disconnect_restores_foreign_app_only "203.0.113.50" "Living Room TV"
       "4c:31:2d:ef:2a:39" 5000 shown_latency
       [cast_routes.Send (cast_routes.Text "Hello, TV!") send_ok 0%nat db_down db_ok db_ok]
       booted leave_ok "233637DE"
       ltac:(intros a H; discriminate H)
       ltac:(cbn; auto 10)))).
Defined.
